(** * A shallow embedding of the cache-first code search engine

    The development follows [code_search_engine.py]: the LRU result cache,
    the metrics tracker, the chunked indexing of files, the persistence of
    the snippet corpus and the search orchestrator.

    Modelling conventions.
    - A Python [int] is a [Z]; loop counters that are never negative are [nat].
    - A Python [float] (latencies in milliseconds, distances, scores) is an
      exact rational [Q]: the rounding error of binary floating point is
      outside the model, the arithmetic the code writes down is inside it.
    - A Python [str] is a [string]; a character is an 8-bit code point.
    - The [OrderedDict] of the cache is an association list, oldest entry
      first: its order is what the eviction policy reads.
    - The embedding model, the FAISS index, the MD5 digest, the JSON codec
      and the clock are collaborators of the program: they are fields of the
      [Externals] class and of the per-call [Clock]. *)

From Stdlib Require Import ZArith QArith Qround List String Ascii Bool Arith Lia.
From Stdlib Require Import Sorting.Sorted DecimalString DecimalZ Lqa.
Import ListNotations.

#[local] Set Warnings "-register-all".

Local Open Scope string_scope.
Local Open Scope list_scope.
Local Open Scope Z_scope.

(** ** Python primitives used by the program *)

Module Py.

(** Exceptions the modelled code can raise. *)
Inductive exn : Type :=
| IndexError
| KeyError
| TypeError
| ExternalError.

(** A computation either returns a value or raises. *)
Inductive outcome (A : Type) : Type :=
| Returned (a : A)
| Raised (e : exn).
Arguments Returned {A} a.
Arguments Raised {A} e.

Definition bind {A B : Type} (m : outcome A) (k : A -> outcome B) : outcome B :=
  match m with
  | Returned a => k a
  | Raised e => Raised e
  end.

(** A method of an object whose state is an [S]: it leaves a state behind
    whether it returns or raises. *)
Definition M (S A : Type) : Type := S -> S * outcome A.

Definition ret {S A : Type} (a : A) : M S A := fun s => (s, Returned a).

Definition lift {S A : Type} (o : outcome A) : M S A := fun s => (s, o).

Definition gets {S A : Type} (f : S -> A) : M S A :=
  fun s => (s, Returned (f s)).

Definition modify {S : Type} (f : S -> S) : M S unit :=
  fun s => (f s, Returned tt).

Definition bindM {S A B : Type} (m : M S A) (k : A -> M S B) : M S B :=
  fun s =>
    match m s with
    | (s', Returned a) => k a s'
    | (s', Raised e) => (s', Raised e)
    end.

(** [len(l)] *)
Definition len {A : Type} (l : list A) : Z := Z.of_nat (List.length l).

(** [l[i]] for a list: a negative index counts from the end, an index
    outside [-len, len) raises IndexError. *)
Definition getitem {A : Type} (l : list A) (i : Z) : outcome A :=
  let j := if i <? 0 then len l + i else i in
  if j <? 0 then Raised IndexError
  else match nth_error l (Z.to_nat j) with
       | Some a => Returned a
       | None => Raised IndexError
       end.

(** [l[i:j]] for [0 <= i <= j]. *)
Definition slice {A : Type} (l : list A) (i j : nat) : list A :=
  firstn (j - i) (skipn i l).

(** [l[-n:]]: the last [n] elements, the whole list when it is shorter. *)
Definition last_n {A : Type} (n : nat) (l : list A) : list A :=
  skipn (List.length l - n) l.

(** [range(start, stop, step)] for a positive step, as the list of its
    values. *)
Definition range (start stop step : nat) : list nat :=
  map (fun j => start + j * step)%nat
      (seq 0 ((stop - start + (step - 1)) / step)%nat).

(** [str.isspace] on one character (code points below 256). *)
Definition is_space (c : ascii) : bool :=
  let n := nat_of_ascii c in
  ((9 <=? n) && (n <=? 13) || (28 <=? n) && (n <=? 32)
   || (n =? 133) || (n =? 160))%nat.

Fixpoint lstrip_chars (l : list ascii) : list ascii :=
  match l with
  | [] => []
  | c :: r => if is_space c then lstrip_chars r else l
  end.

Definition rstrip_chars (l : list ascii) : list ascii :=
  rev (lstrip_chars (rev l)).

(** [s.strip()] *)
Definition strip (s : string) : string :=
  string_of_list_ascii (rstrip_chars (lstrip_chars (list_ascii_of_string s))).

(** Truth value of a string: non-empty. *)
Definition truthy (s : string) : bool :=
  match s with
  | EmptyString => false
  | String _ _ => true
  end.

Definition newline : ascii := ascii_of_nat 10.

(** [s.split('\n')]: never empty, the empty string splits into [['']]. *)
Fixpoint split_newline (s : string) : list string :=
  match s with
  | EmptyString => [EmptyString]
  | String c r =>
      if Ascii.eqb c newline then EmptyString :: split_newline r
      else match split_newline r with
           | h :: t => String c h :: t
           | [] => [String c EmptyString]
           end
  end.

(** ['\n'.join(l)] *)
Fixpoint join_newline (l : list string) : string :=
  match l with
  | [] => EmptyString
  | [x] => x
  | x :: r => (x ++ String newline (join_newline r))%string
  end.

(** [str(n)] for an integer, in decimal. *)
Definition str_of_int (n : Z) : string :=
  NilEmpty.string_of_int (Z.to_int n).

(** Rounding of a rational to the nearest integer, ties to even. *)
Definition round_half_even (q : Q) : Z :=
  let n := Qfloor q in
  match Qcompare (q - inject_Z n) (1 # 2) with
  | Lt => n
  | Gt => n + 1
  | Eq => if Z.even n then n else n + 1
  end.

(** [round(q, 2)] *)
Definition round2 (q : Q) : Q :=
  Qmake (round_half_even (q * 100)) 100.

End Py.

Notation "x <- m ;; k" := (Py.bind m (fun x => k))
  (at level 61, m at next level, right associativity).
Notation "x <<- m ;; k" := (Py.bindM m (fun x => k))
  (at level 61, m at next level, right associativity).
Notation "m ;;; k" := (Py.bindM m (fun _ => k))
  (at level 61, right associativity).

(** ** [class LRUCache] *)

Module LRUCache.

Section WithValue.

Variable V : Type.

(** The [OrderedDict]: distinct keys, oldest first. *)
Definition odict : Type := list (string * V).

Record t : Type := mk {
  cache : odict;
  capacity : Z;
  hits : Z;
  misses : Z
}.

(** [LRUCache(capacity)] *)
Definition new (cap : Z) : t :=
  {| cache := []; capacity := cap; hits := 0; misses := 0 |}.

Definition keys (d : odict) : list string := map fst d.

(** [key in d] *)
Definition contains (d : odict) (k : string) : bool :=
  existsb (fun kv => String.eqb (fst kv) k) d.

(** [d[key]] *)
Fixpoint lookup (d : odict) (k : string) : option V :=
  match d with
  | [] => None
  | (k', v) :: r => if String.eqb k' k then Some v else lookup r k
  end.

Definition remove (d : odict) (k : string) : odict :=
  filter (fun kv => negb (String.eqb (fst kv) k)) d.

(** [d.move_to_end(key)]; both callers test [key in d] first. *)
Definition move_to_end (d : odict) (k : string) : odict :=
  match lookup d k with
  | Some v => remove d k ++ [(k, v)]
  | None => d
  end.

(** [d[key] = value]: a resident key keeps its position, a new key
    goes last. *)
Definition setitem (d : odict) (k : string) (v : V) : odict :=
  if contains d k
  then map (fun kv => if String.eqb (fst kv) k then (k, v) else kv) d
  else d ++ [(k, v)].

(** [d.popitem(last=False)]: drops the oldest entry. *)
Definition popitem_first (d : odict) : odict := tl d.

Definition get (c : t) (k : string) : t * option V :=
  if contains (cache c) k
  then ({| cache := move_to_end (cache c) k;
           capacity := capacity c;
           hits := hits c + 1;
           misses := misses c |},
        lookup (cache c) k)
  else ({| cache := cache c;
           capacity := capacity c;
           hits := hits c;
           misses := misses c + 1 |},
        None).

Definition put (c : t) (k : string) (v : V) : t :=
  let d1 := if contains (cache c) k then move_to_end (cache c) k
            else cache c in
  let d2 := setitem d1 k v in
  let d3 := if Py.len d2 >? capacity c then popitem_first d2 else d2 in
  {| cache := d3; capacity := capacity c;
     hits := hits c; misses := misses c |}.

(** A trace of cache operations, in program order. *)
Inductive op : Type :=
| Get (k : string)
| Put (k : string) (v : V).

Definition key_of (o : op) : string :=
  match o with
  | Get k => k
  | Put k _ => k
  end.

Definition step (c : t) (o : op) : t :=
  match o with
  | Get k => fst (get c k)
  | Put k v => put c k v
  end.

Definition run (c : t) (ops : list op) : t := fold_left step ops c.

(** The 1-based position, in the trace, of the latest operation that
    names [k]; 0 when no operation names it. *)
Fixpoint last_use (ops : list op) (k : string) : nat :=
  match ops with
  | [] => 0%nat
  | o :: r =>
      match last_use r k with
      | O => if String.eqb (key_of o) k then 1%nat else 0%nat
      | S n => S (S n)
      end
  end.

End WithValue.

Arguments cache {V} _.
Arguments capacity {V} _.
Arguments hits {V} _.
Arguments misses {V} _.
Arguments new {V} cap.
Arguments keys {V} d.
Arguments contains {V} d k.
Arguments lookup {V} d k.
Arguments remove {V} d k.
Arguments move_to_end {V} d k.
Arguments setitem {V} d k v.
Arguments popitem_first {V} d.
Arguments get {V} c k.
Arguments put {V} c k v.
Arguments Get {V} k.
Arguments Put {V} k v.
Arguments key_of {V} o.
Arguments step {V} c o.
Arguments run {V} c ops.
Arguments last_use {V} ops k.

End LRUCache.

(** ** [class MetricsTracker] *)

Module MetricsTracker.

(** One entry of [query_history]. *)
Record QueryRecord : Type := mkRecord {
  query : string;
  time_ms : Q;
  cached : bool;
  timestamp : string
}.

Record t : Type := mk {
  total_queries : Z;
  total_search_time : Q;
  queries_under_50ms : Z;
  queries_under_200ms : Z;
  query_history : list QueryRecord
}.

(** [MetricsTracker()] *)
Definition new : t :=
  {| total_queries := 0;
     total_search_time := 0;
     queries_under_50ms := 0;
     queries_under_200ms := 0;
     query_history := [] |}.

(** [a < b] on latencies, as a boolean. *)
Definition lt_ms (a b : Q) : bool :=
  match Qcompare a b with
  | Lt => true
  | _ => false
  end.

(** [record_query]; [now] is [datetime.now().isoformat()]. *)
Definition record_query (m : t) (q : string) (search_time_ms : Q)
           (from_cache : bool) (now : string) : t :=
  let history :=
    query_history m ++
      [{| query := q; time_ms := search_time_ms;
          cached := from_cache; timestamp := now |}] in
  {| total_queries := total_queries m + 1;
     total_search_time := total_search_time m + search_time_ms;
     queries_under_50ms :=
       if lt_ms search_time_ms 50 then queries_under_50ms m + 1
       else queries_under_50ms m;
     queries_under_200ms :=
       if lt_ms search_time_ms 200 then queries_under_200ms m + 1
       else queries_under_200ms m;
     query_history :=
       if Py.len history >? 1000 then tl history else history |}.

(** The dictionary returned by [get_stats]. *)
Record Stats : Type := mkStats {
  stats_total_queries : Z;
  average_search_time_ms : Q;
  stats_queries_under_50ms : Z;
  stats_queries_under_200ms : Z;
  sub_50ms_rate : Q;
  sub_200ms_rate : Q;
  recent_queries : list QueryRecord
}.

Definition get_stats (m : t) : Stats :=
  let avg_time :=
    if total_queries m >? 0
    then (total_search_time m / inject_Z (total_queries m))%Q else 0%Q in
  let sub_50_rate :=
    if total_queries m >? 0
    then (inject_Z (queries_under_50ms m) / inject_Z (total_queries m) * 100)%Q
    else 0%Q in
  let sub_200_rate :=
    if total_queries m >? 0
    then (inject_Z (queries_under_200ms m) / inject_Z (total_queries m) * 100)%Q
    else 0%Q in
  {| stats_total_queries := total_queries m;
     average_search_time_ms := Py.round2 avg_time;
     stats_queries_under_50ms := queries_under_50ms m;
     stats_queries_under_200ms := queries_under_200ms m;
     sub_50ms_rate := Py.round2 sub_50_rate;
     sub_200ms_rate := Py.round2 sub_200_rate;
     recent_queries := Py.last_n 10 (query_history m) |}.

(** One call of [record_query], with what the clock said. *)
Record call : Type := mkCall {
  call_query : string;
  call_time_ms : Q;
  call_cached : bool;
  call_now : string
}.

Definition record_call (m : t) (c : call) : t :=
  record_query m (call_query c) (call_time_ms c) (call_cached c) (call_now c).

Definition record_all (m : t) (cs : list call) : t :=
  fold_left record_call cs m.

Definition record_of (c : call) : QueryRecord :=
  {| query := call_query c; time_ms := call_time_ms c;
     cached := call_cached c; timestamp := call_now c |}.

End MetricsTracker.

(** ** JSON documents, as [json.dump] takes them and [json.load] returns them *)

Inductive json : Type :=
| JInt (n : Z)
| JStr (s : string)
| JList (l : list json)
| JDict (fields : list (string * json)).

(** [data[key]] on a parsed document. *)
Definition json_getitem (data : json) (key : string) : Py.outcome json :=
  match data with
  | JDict fields =>
      match find (fun kv => String.eqb (fst kv) key) fields with
      | Some kv => Py.Returned (snd kv)
      | None => Py.Raised Py.KeyError
      end
  | _ => Py.Raised Py.TypeError
  end.

(** ** Collaborators of the engine

    [build_index] is [model.encode(texts)] followed by the construction of
    the [IndexFlatL2]; [nearest] is [model.encode([query])] followed by
    [faiss_index.search], returned as [zip(indices[0], distances[0])]; a
    failure of either is an exception.  [Blob] is what a file holds. *)

Class Externals : Type := {
  FaissIndex : Type;
  Blob : Type;
  md5_hexdigest : string -> string;
  build_index : list string -> Py.outcome FaissIndex;
  nearest : FaissIndex -> string -> Z -> Py.outcome (list (Z * Q));
  write_index : FaissIndex -> Blob;
  read_index : Blob -> Py.outcome FaissIndex;
  json_dump : json -> Blob;
  json_load : Blob -> Py.outcome json
}.

(** The two readings of [time.time()] of one [search] call and the
    [datetime.now().isoformat()] of its [record_query]. *)
Record Clock : Type := mkClock {
  start_time : Q;
  end_time : Q;
  now_iso : string
}.

(** ** [class CodeSearchEngine] *)

Module CodeSearchEngine.

(** An element of [code_snippets]. *)
Record Snippet : Type := mkSnippet {
  file : string;
  repo : string;
  content : string;
  line_start : Z;
  line_end : Z
}.

(** An element of the list [search] returns. *)
Record SearchResult : Type := mkResult {
  res_file : string;
  res_repo : string;
  res_content : string;
  res_line_start : Z;
  res_line_end : Z;
  similarity_score : Q
}.

(** The value stored in the cache under a key. *)
Record CacheEntry : Type := mkEntry {
  entry_results : list SearchResult;
  entry_search_time : Q
}.

(** What the file tree walk sees of one path under the repository:
    [read] is [None] when opening or reading the file raises. *)
Record Path : Type := mkPath {
  is_file : bool;
  suffix : string;
  parts : list string;
  relative_to_parent : string;
  read : option string
}.

Record Repository : Type := mkRepository {
  exists_on_disk : bool;
  name : string;
  rglob : list Path
}.

(** The content of [index_dir]. *)
Record Disk `{Externals} : Type := mkDisk {
  code_index : option Blob;
  metadata_json : option Blob
}.

Record t `{Externals} : Type := mk {
  code_snippets : list Snippet;
  faiss_index : option FaissIndex;
  cache : LRUCache.t CacheEntry;
  metrics : MetricsTracker.t;
  total_files_indexed : Z;
  total_lines_indexed : Z;
  total_repositories : Z
}.

Definition supported_extensions : list string :=
  [".py"; ".java"; ".cpp"; ".c"; ".js"; ".jsx"; ".ts"; ".tsx";
   ".go"; ".rs"; ".rb"; ".php"; ".cs"; ".swift"; ".kt"; ".scala";
   ".html"; ".css"; ".sql"; ".sh"; ".yaml"; ".json"; ".h"; ".hpp"].

Definition skipped_directories : list string :=
  ["node_modules"; ".git"; "__pycache__"; "venv"; "dist"; "build"; ".venv"].

Definition chunk_size : nat := 50.

(** The body of the chunk loop for one value of [i]. *)
Definition chunk_at (file_name repo_name : string) (lines : list string)
           (i : nat) : list Snippet :=
  let chunk_lines := Py.slice lines i (i + chunk_size) in
  let chunk_content := Py.join_newline chunk_lines in
  if Py.truthy (Py.strip chunk_content)
  then [{| file := file_name;
           repo := repo_name;
           content := chunk_content;
           line_start := Z.of_nat i + 1;
           line_end := Z.of_nat i + Py.len chunk_lines |}]
  else [].

(** The snippets one file contributes: the loop
    [for i in range(0, len(lines), chunk_size)]. *)
Definition chunk_file (file_name repo_name content : string) : list Snippet :=
  let lines := Py.split_newline content in
  flat_map (chunk_at file_name repo_name lines)
           (Py.range 0 (List.length lines) chunk_size).

Section WithExternals.

Context `{Externals}.

(** [CodeSearchEngine()] *)
Definition new : t :=
  {| code_snippets := [];
     faiss_index := None;
     cache := LRUCache.new 1000;
     metrics := MetricsTracker.new;
     total_files_indexed := 0;
     total_lines_indexed := 0;
     total_repositories := 0 |}.

(** Assignments to the attributes of [self]. *)
Definition set_code_snippets (l : list Snippet) (e : t) : t :=
  {| code_snippets := l;
     faiss_index := faiss_index e;
     cache := cache e;
     metrics := metrics e;
     total_files_indexed := total_files_indexed e;
     total_lines_indexed := total_lines_indexed e;
     total_repositories := total_repositories e |}.

Definition set_faiss_index (i : option FaissIndex) (e : t) : t :=
  {| code_snippets := code_snippets e;
     faiss_index := i;
     cache := cache e;
     metrics := metrics e;
     total_files_indexed := total_files_indexed e;
     total_lines_indexed := total_lines_indexed e;
     total_repositories := total_repositories e |}.

Definition set_cache (c : LRUCache.t CacheEntry) (e : t) : t :=
  {| code_snippets := code_snippets e;
     faiss_index := faiss_index e;
     cache := c;
     metrics := metrics e;
     total_files_indexed := total_files_indexed e;
     total_lines_indexed := total_lines_indexed e;
     total_repositories := total_repositories e |}.

Definition set_metrics (m : MetricsTracker.t) (e : t) : t :=
  {| code_snippets := code_snippets e;
     faiss_index := faiss_index e;
     cache := cache e;
     metrics := m;
     total_files_indexed := total_files_indexed e;
     total_lines_indexed := total_lines_indexed e;
     total_repositories := total_repositories e |}.

Definition set_total_files_indexed (n : Z) (e : t) : t :=
  {| code_snippets := code_snippets e;
     faiss_index := faiss_index e;
     cache := cache e;
     metrics := metrics e;
     total_files_indexed := n;
     total_lines_indexed := total_lines_indexed e;
     total_repositories := total_repositories e |}.

Definition set_total_lines_indexed (n : Z) (e : t) : t :=
  {| code_snippets := code_snippets e;
     faiss_index := faiss_index e;
     cache := cache e;
     metrics := metrics e;
     total_files_indexed := total_files_indexed e;
     total_lines_indexed := n;
     total_repositories := total_repositories e |}.

Definition set_total_repositories (n : Z) (e : t) : t :=
  {| code_snippets := code_snippets e;
     faiss_index := faiss_index e;
     cache := cache e;
     metrics := metrics e;
     total_files_indexed := total_files_indexed e;
     total_lines_indexed := total_lines_indexed e;
     total_repositories := n |}.

(** One round of the walk over [rglob]; the accumulator is the snippet
    list, [files_in_repo] and [lines_in_repo].  A file that cannot be
    read is passed over by the [except] clause. *)
Definition index_path (repo_name : string)
           (acc : list Snippet * Z * Z) (p : Path) : list Snippet * Z * Z :=
  let '(snippets, files_in_repo, lines_in_repo) := acc in
  if is_file p && existsb (String.eqb (suffix p)) supported_extensions
  then
    if existsb (fun skip => existsb (String.eqb skip) (parts p))
               skipped_directories
    then acc
    else match read p with
         | Some text =>
             (snippets ++ chunk_file (relative_to_parent p) repo_name text,
              files_in_repo + 1,
              lines_in_repo + Py.len (Py.split_newline text))
         | None => acc
         end
  else acc.

Definition index_repository (r : Repository) (e : t) : t :=
  if negb (exists_on_disk r) then e
  else
    let '(snippets, files_in_repo, lines_in_repo) :=
      fold_left (index_path (name r)) (rglob r) (code_snippets e, 0, 0) in
    {| code_snippets := snippets;
       faiss_index := faiss_index e;
       cache := cache e;
       metrics := metrics e;
       total_files_indexed := total_files_indexed e + files_in_repo;
       total_lines_indexed := total_lines_indexed e + lines_in_repo;
       total_repositories := total_repositories e + 1 |}.

Definition snippet_to_json (s : Snippet) : json :=
  JDict [("file", JStr (file s));
         ("repo", JStr (repo s));
         ("content", JStr (content s));
         ("line_start", JInt (line_start s));
         ("line_end", JInt (line_end s))].

(** The dictionary [save_index] hands to [json.dump]. *)
Definition metadata (e : t) : json :=
  JDict [("code_snippets", JList (map snippet_to_json (code_snippets e)));
         ("total_files", JInt (total_files_indexed e));
         ("total_lines", JInt (total_lines_indexed e));
         ("total_repositories", JInt (total_repositories e))].

(** [save_index], a method on the disk: [faiss.write_index] rejects a
    missing index before anything is written. *)
Definition save_index (e : t) : Py.M Disk unit :=
  match faiss_index e with
  | None => Py.lift (Py.Raised Py.TypeError)
  | Some idx =>
      Py.modify (fun d => {| code_index := Some (write_index idx);
                             metadata_json := metadata_json d |}) ;;;
      Py.modify (fun d => {| code_index := code_index d;
                             metadata_json := Some (json_dump (metadata e)) |})
  end.

Definition as_int (j : json) : Py.outcome Z :=
  match j with
  | JInt n => Py.Returned n
  | _ => Py.Raised Py.TypeError
  end.

Definition as_str (j : json) : Py.outcome string :=
  match j with
  | JStr s => Py.Returned s
  | _ => Py.Raised Py.TypeError
  end.

(** The record view of a parsed snippet dictionary.  Python keeps the
    parsed dictionary as it is and a missing key shows only when
    [search] reads it; the record view asks for the five keys at once. *)
Definition snippet_of_json (j : json) : Py.outcome Snippet :=
  f <- Py.bind (json_getitem j "file") as_str ;;
  r <- Py.bind (json_getitem j "repo") as_str ;;
  c <- Py.bind (json_getitem j "content") as_str ;;
  ls <- Py.bind (json_getitem j "line_start") as_int ;;
  le <- Py.bind (json_getitem j "line_end") as_int ;;
  Py.Returned {| file := f; repo := r; content := c;
                 line_start := ls; line_end := le |}.

Fixpoint snippets_of_json (l : list json) : Py.outcome (list Snippet) :=
  match l with
  | [] => Py.Returned []
  | j :: r =>
      s <- snippet_of_json j ;;
      rest <- snippets_of_json r ;;
      Py.Returned (s :: rest)
  end.

Definition as_snippets (j : json) : Py.outcome (list Snippet) :=
  match j with
  | JList l => snippets_of_json l
  | _ => Py.Raised Py.TypeError
  end.

(** [load_index], a method on the engine that reads the disk; the value
    is the boolean the method returns.  The attributes are assigned one
    after the other, so a failure half way leaves the earlier ones set. *)
Definition load_index (d : Disk) : Py.M t bool :=
  match code_index d, metadata_json d with
  | Some index_blob, Some metadata_blob =>
      idx <<- Py.lift (read_index index_blob) ;;
      Py.modify (set_faiss_index (Some idx)) ;;;
      data <<- Py.lift (json_load metadata_blob) ;;
      snippets <<- Py.lift (Py.bind (json_getitem data "code_snippets")
                                    as_snippets) ;;
      Py.modify (set_code_snippets snippets) ;;;
      files <<- Py.lift (Py.bind (json_getitem data "total_files") as_int) ;;
      Py.modify (set_total_files_indexed files) ;;;
      lines <<- Py.lift (Py.bind (json_getitem data "total_lines") as_int) ;;
      Py.modify (set_total_lines_indexed lines) ;;;
      repos <<- Py.lift (Py.bind (json_getitem data "total_repositories")
                                 as_int) ;;
      Py.modify (set_total_repositories repos) ;;;
      Py.ret true
  | _, _ => Py.ret false
  end.

(** [build_search_index], a method on the engine and the disk: nothing
    happens on an empty corpus. *)
Definition build_search_index : Py.M (t * Disk) unit :=
  fun '(e, d) =>
    match code_snippets e with
    | [] => ((e, d), Py.Returned tt)
    | _ :: _ =>
        match build_index (map content (code_snippets e)) with
        | Py.Raised ex => ((e, d), Py.Raised ex)
        | Py.Returned idx =>
            let e' := set_faiss_index (Some idx) e in
            let '(d', saved) := save_index e' d in
            ((e', d'), saved)
        end
    end.

Definition cache_key (query : string) (top_k : Z) : string :=
  md5_hexdigest (query ++ ":" ++ Py.str_of_int top_k)%string.

(** [float(1 / (1 + distance))] *)
Definition score_of_distance (distance : Q) : Q := (1 / (1 + distance))%Q.

Definition format_result (snippet : Snippet) (distance : Q) : SearchResult :=
  {| res_file := file snippet;
     res_repo := repo snippet;
     res_content := content snippet;
     res_line_start := line_start snippet;
     res_line_end := line_end snippet;
     similarity_score := score_of_distance distance |}.

(** The loop [for idx, distance in zip(indices[0], distances[0])]. *)
Fixpoint format_results (snippets : list Snippet) (found : list (Z * Q))
  : Py.outcome (list SearchResult) :=
  match found with
  | [] => Py.Returned []
  | (idx, distance) :: rest =>
      if idx <? Py.len snippets
      then
        snippet <- Py.getitem snippets idx ;;
        results <- format_results snippets rest ;;
        Py.Returned (format_result snippet distance :: results)
      else format_results snippets rest
  end.

(** The triple [search] returns. *)
Record Found : Type := mkFound {
  results : list SearchResult;
  search_time_ms : Q;
  from_cache : bool
}.

(** [self.cache.get(key)] *)
Definition cache_get (key : string) : Py.M t (option CacheEntry) :=
  fun e =>
    let '(c, v) := LRUCache.get (cache e) key in
    (set_cache c e, Py.Returned v).

(** [self.cache.put(key, value)] *)
Definition cache_put (key : string) (value : CacheEntry) : Py.M t unit :=
  Py.modify (fun e => set_cache (LRUCache.put (cache e) key value) e).

(** [self.metrics.record_query(query, search_time, from_cache)] *)
Definition metrics_record_query (clk : Clock) (query : string)
           (search_time : Q) (hit : bool) : Py.M t unit :=
  Py.modify (fun e =>
    set_metrics (MetricsTracker.record_query
                   (metrics e) query search_time hit (now_iso clk)) e).

(** [search(query, top_k)], a method on the engine. *)
Definition search (clk : Clock) (query : string) (top_k : Z)
  : Py.M t Found :=
  fun e =>
    match faiss_index e with
    | None =>
        (e, Py.Returned {| results := []; search_time_ms := 0;
                           from_cache := false |})
    | Some idx =>
        let key := cache_key query top_k in
        (cached_result <<- cache_get key ;;
         match cached_result with
         | Some entry =>
             let search_time := entry_search_time entry in
             let res := entry_results entry in
             metrics_record_query clk query search_time true ;;;
             Py.ret {| results := res; search_time_ms := search_time;
                       from_cache := true |}
         | None =>
             found <<- Py.lift (nearest idx query top_k) ;;
             snippets <<- Py.gets code_snippets ;;
             res <<- Py.lift (format_results snippets found) ;;
             let search_time :=
               ((end_time clk - start_time clk) * 1000)%Q in
             cache_put key {| entry_results := res;
                              entry_search_time := search_time |} ;;;
             metrics_record_query clk query search_time false ;;;
             Py.ret {| results := res; search_time_ms := search_time;
                       from_cache := false |}
         end) e
    end.

(** The states an engine can be in: those the methods produce from a
    fresh engine, whether they return or raise. *)
Inductive reachable : t -> Prop :=
| reachable_new : reachable new
| reachable_index_repository (r : Repository) (e : t) :
    reachable e -> reachable (index_repository r e)
| reachable_build_search_index (e : t) (d : Disk) :
    reachable e -> reachable (fst (fst (build_search_index (e, d))))
| reachable_load_index (d : Disk) (e : t) :
    reachable e -> reachable (fst (load_index d e))
| reachable_search (clk : Clock) (query : string) (top_k : Z) (e : t) :
    reachable e -> reachable (fst (search clk query top_k e)).

End WithExternals.

End CodeSearchEngine.

(** ** Reference notions the statements are compared with *)

Module Reference.

(** [sum(ts)], left to right from zero. *)
Definition sum_ms (ts : list Q) : Q := fold_left Qplus ts 0%Q.

(** The number of latencies strictly below [bound]. *)
Definition count_under (bound : Q) (ts : list Q) : Z :=
  Py.len (filter (fun t => if Qlt_le_dec t bound then true else false) ts).

(** The line range of a snippet. *)
Definition line_range (s : CodeSearchEngine.Snippet) : Z * Z :=
  (CodeSearchEngine.line_start s, CodeSearchEngine.line_end s).

(** A line is blank when all its characters are white space. *)
Definition blank (s : string) : bool :=
  forallb Py.is_space (list_ascii_of_string s).

(** The candidates of a nearest-neighbour answer whose position lies in
    [0, n): the valid positions of a store of [n] snippets. *)
Definition in_bounds (n : Z) (found : list (Z * Q)) : list (Z * Q) :=
  filter (fun c => (0 <=? fst c) && (fst c <? n)) found.

End Reference.

(** ** A small instance of the collaborators, for running the model

    The index is the list of candidates it will answer with; as FAISS
    does, [nearest] pads the answer to [top_k] entries with position -1
    at the largest single-precision distance.  A file holds the value
    written to it and the digest is the identity. *)

Module Demo.

Definition padding : Z * Q :=
  (-1, inject_Z 340282346638528859811704183484516925440).

Definition externals : Externals :=
  {| FaissIndex := list (Z * Q);
     Blob := (list (Z * Q) + json)%type;
     md5_hexdigest := fun s => s;
     build_index := fun texts =>
       Py.Returned (map (fun i => (Z.of_nat i, inject_Z (Z.of_nat i)))
                        (seq 0 (List.length texts)));
     nearest := fun idx _ top_k =>
       Py.Returned (firstn (Z.to_nat top_k)
                           (idx ++ repeat padding (Z.to_nat top_k)));
     write_index := fun idx => inl idx;
     read_index := fun b =>
       match b with
       | inl idx => Py.Returned idx
       | inr _ => Py.Raised Py.ExternalError
       end;
     json_dump := fun j => inr j;
     json_load := fun b =>
       match b with
       | inr j => Py.Returned j
       | inl _ => Py.Raised Py.ExternalError
       end |}.

Definition clock : Clock :=
  {| start_time := 100; end_time := 100 + (3 # 1000); now_iso := "2024-01-01T00:00:00" |}.

Definition source_file (rel : string) : CodeSearchEngine.Path :=
  {| CodeSearchEngine.is_file := true;
     CodeSearchEngine.suffix := ".py";
     CodeSearchEngine.parts := ["repo"; "src"];
     CodeSearchEngine.relative_to_parent := rel;
     CodeSearchEngine.read := Some "def f(): pass" |}.

Definition repository : CodeSearchEngine.Repository :=
  {| CodeSearchEngine.exists_on_disk := true;
     CodeSearchEngine.name := "repo";
     CodeSearchEngine.rglob := [source_file "repo/a.py"; source_file "repo/b.py"] |}.

Definition empty_disk : @CodeSearchEngine.Disk externals :=
  @CodeSearchEngine.mkDisk externals None None.

(** An engine that indexed the two files of [repository] and built the
    index over its two snippets. *)
Definition engine : @CodeSearchEngine.t externals :=
  fst (fst (@CodeSearchEngine.build_search_index externals
              (@CodeSearchEngine.index_repository externals repository
                 (@CodeSearchEngine.new externals),
               empty_disk))).

Definition call (ms : Q) : MetricsTracker.call :=
  {| MetricsTracker.call_query := "q";
     MetricsTracker.call_time_ms := ms;
     MetricsTracker.call_cached := false;
     MetricsTracker.call_now := "2024-01-01T00:00:00" |}.

(** A file of 120 lines: fifty empty lines, then seventy lines [x]. *)
Definition blank_head_file : string :=
  Py.join_newline (repeat "" 50 ++ repeat "x" 70).

End Demo.

(** * The rest of [code_search_engine.py] *)

(** ** [LRUCache.get_stats] *)

Module LRUCacheStats.

(** The dictionary returned by [get_stats]. *)
Record Stats : Type := mkStats {
  hits : Z;
  misses : Z;
  total_queries : Z;
  hit_rate : Q;
  cache_size : Z
}.

Definition get_stats {V : Type} (c : LRUCache.t V) : Stats :=
  let total := LRUCache.hits c + LRUCache.misses c in
  let rate :=
    if total >? 0
    then (inject_Z (LRUCache.hits c) / inject_Z total * 100)%Q else 0%Q in
  {| hits := LRUCache.hits c;
     misses := LRUCache.misses c;
     total_queries := total;
     hit_rate := Py.round2 rate;
     cache_size := Py.len (LRUCache.cache c) |}.

(** The number of [get] calls in a trace. *)
Definition gets_in {V : Type} (ops : list (LRUCache.op V)) : Z :=
  Py.len (filter (fun o => match o with
                           | LRUCache.Get _ => true
                           | LRUCache.Put _ _ => false
                           end) ops).

End LRUCacheStats.

(** ** The file tree walk of [index_repository], path by path *)

Module Walk.

(** The text [index_repository] reads from a path: a regular file with a
    supported extension, outside the skipped directories, that can be
    opened and read. *)
Definition indexed_text (p : CodeSearchEngine.Path) : option string :=
  if CodeSearchEngine.is_file p
     && existsb (String.eqb (CodeSearchEngine.suffix p))
                CodeSearchEngine.supported_extensions
     && negb (existsb (fun skip =>
                         existsb (String.eqb skip) (CodeSearchEngine.parts p))
                      CodeSearchEngine.skipped_directories)
  then CodeSearchEngine.read p
  else None.

(** The snippets a path contributes to the corpus. *)
Definition snippets_of (repo_name : string) (p : CodeSearchEngine.Path)
  : list CodeSearchEngine.Snippet :=
  match indexed_text p with
  | Some text =>
      CodeSearchEngine.chunk_file
        (CodeSearchEngine.relative_to_parent p) repo_name text
  | None => []
  end.

(** The number of lines a path adds to [lines_in_repo]. *)
Definition lines_of (p : CodeSearchEngine.Path) : Z :=
  match indexed_text p with
  | Some text => Py.len (Py.split_newline text)
  | None => 0
  end.

Definition is_indexed (p : CodeSearchEngine.Path) : bool :=
  match indexed_text p with
  | Some _ => true
  | None => false
  end.

Definition sum (l : list Z) : Z := fold_right Z.add 0 l.

(** A string without a newline character. *)
Definition one_line (s : string) : bool :=
  forallb (fun c => negb (Ascii.eqb c Py.newline)) (list_ascii_of_string s).

End Walk.

(** ** The HTTP route [search_api] and [simulate_load_test] *)

Module Service.

(** What leaves a function of the service without a return value: an
    exception of the engine, the [ValueError] of [int], or the
    [ZeroDivisionError] of a float division. *)
Inductive failure : Type :=
| Propagated (e : Py.exn)
| ValueError
| ZeroDivisionError.

(** [request.args]: the two parameters the route reads. *)
Record Request : Type := mkRequest {
  arg_q : option string;
  arg_limit : option string
}.

(** The JSON object of a successful answer. *)
Record SearchBody : Type := mkSearchBody {
  body_query : string;
  body_results : list CodeSearchEngine.SearchResult;
  body_count : Z;
  body_search_time_ms : Q;
  body_cached : bool;
  body_indexed_files : Z;
  body_indexed_lines : Z
}.

(** An answer of the route: status 200 with its body, or status 400 with
    the [error] message. *)
Inductive Response : Type :=
| Ok (body : SearchBody)
| BadRequest (error : string).

Definition double_quote : ascii := ascii_of_nat 34.

(** The message of the 400 answer: [Query parameter "q" is required]. *)
Definition query_required : string :=
  ("Query parameter "
   ++ String double_quote ("q" ++ String double_quote " is required"))%string.

(** The seventeen queries of [simulate_load_test]. *)
Definition test_queries : list string :=
  ["authentication login"; "database connection"; "error handling";
   "http request"; "file upload"; "user validation"; "api endpoint";
   "cache implementation"; "data processing"; "security check";
   "unit test"; "configuration"; "logging debug"; "async function";
   "json parsing"; "form validation"; "session management"].

(** [test_queries[i % len(test_queries)]] *)
Definition query_at (i : nat) : string :=
  nth (i mod List.length test_queries) test_queries "".

Section WithExternals.

Context `{Externals}.

(** [search_api].  [int_of_str] is the builtin [int] on a string, [None]
    when it raises [ValueError]; [limit] is converted before [q] is
    examined. *)
Definition search_api (int_of_str : string -> option Z) (clk : Clock)
           (request : Request)
  : CodeSearchEngine.t -> CodeSearchEngine.t * (Response + failure) :=
  fun e =>
    let query := match arg_q request with
                 | Some q => q
                 | None => ""
                 end in
    let limit := match arg_limit request with
                 | Some s => int_of_str s
                 | None => Some 10
                 end in
    match limit with
    | None => (e, inr ValueError)
    | Some top_k =>
        if negb (Py.truthy query)
        then (e, inl (BadRequest query_required))
        else
          match CodeSearchEngine.search clk query top_k e with
          | (e', Py.Returned found) =>
              (e', inl (Ok {| body_query := query;
                              body_results := CodeSearchEngine.results found;
                              body_count :=
                                Py.len (CodeSearchEngine.results found);
                              body_search_time_ms :=
                                Py.round2 (CodeSearchEngine.search_time_ms found);
                              body_cached := CodeSearchEngine.from_cache found;
                              body_indexed_files :=
                                CodeSearchEngine.total_files_indexed e';
                              body_indexed_lines :=
                                CodeSearchEngine.total_lines_indexed e' |}))
          | (e', Py.Raised ex) => (e', inr (Propagated ex))
          end
    end.

(** The loop [for i in range(num_queries)] of [simulate_load_test] over
    the values [rounds] of [i]; [clock_at i] is the clock of round [i]. *)
Fixpoint run_queries (clock_at : nat -> Clock) (rounds : list nat)
  : Py.M CodeSearchEngine.t unit :=
  match rounds with
  | [] => Py.ret tt
  | i :: rest =>
      Py.bindM (CodeSearchEngine.search (clock_at i) (query_at i) 5)
               (fun _ => run_queries clock_at rest)
  end.

(** [simulate_load_test(num_queries)].  [begin_time] and [finish_time] are
    the readings of [time.time()] around the loop; the value is the pair
    of statistics the function prints, which it reads after the division
    [num_queries/total_time]. *)
Definition simulate_load_test (clock_at : nat -> Clock)
           (begin_time finish_time : Q) (num_queries : Z)
  : CodeSearchEngine.t
    -> CodeSearchEngine.t
       * ((LRUCacheStats.Stats * MetricsTracker.Stats) + failure) :=
  fun e =>
    match run_queries clock_at (seq 0 (Z.to_nat num_queries)) e with
    | (e', Py.Raised ex) => (e', inr (Propagated ex))
    | (e', Py.Returned _) =>
        let total_time := (finish_time - begin_time)%Q in
        if Qeq_bool total_time 0
        then (e', inr ZeroDivisionError)
        else (e', inl (LRUCacheStats.get_stats (CodeSearchEngine.cache e'),
                       MetricsTracker.get_stats (CodeSearchEngine.metrics e')))
    end.

End WithExternals.

End Service.

(** * Properties of the LRU cache *)

Section LRUCacheFacts.

Import LRUCache.

Context {V : Type}.
Implicit Types (d : odict V) (c : t V) (k : string) (v : V).

Lemma contains_app d1 d2 k :
  contains (d1 ++ d2) k = contains d1 k || contains d2 k.
Proof. unfold contains. apply existsb_app. Qed.

Lemma contains_keys d k : contains d k = true <-> In k (keys d).
Proof.
  unfold contains, keys. rewrite existsb_exists, in_map_iff. split.
  - intros [kv [Hin Heq]]. apply String.eqb_eq in Heq. now exists kv.
  - intros [kv [Heq Hin]]. exists kv. split; [assumption|].
    now apply String.eqb_eq.
Qed.

Lemma contains_false_keys d k : contains d k = false <-> ~ In k (keys d).
Proof.
  rewrite <- contains_keys. destruct (contains d k); split; congruence.
Qed.

Lemma keys_app d1 d2 : keys (d1 ++ d2) = keys d1 ++ keys d2.
Proof. apply map_app. Qed.

Lemma keys_remove_subset d k k' : In k' (keys (remove d k)) -> In k' (keys d).
Proof.
  unfold keys, remove. rewrite !in_map_iff.
  intros [kv [Heq Hin]]. apply filter_In in Hin. exists kv. tauto.
Qed.

Lemma keys_remove_other d k k' :
  k' <> k -> In k' (keys d) -> In k' (keys (remove d k)).
Proof.
  unfold keys, remove. rewrite !in_map_iff.
  intros Hne [kv [Heq Hin]]. exists kv. split; [assumption|].
  apply filter_In. split; [assumption|].
  apply negb_true_iff, String.eqb_neq. congruence.
Qed.

Lemma contains_remove_same d k : contains (remove d k) k = false.
Proof.
  apply contains_false_keys. unfold keys, remove. rewrite in_map_iff.
  intros [kv [Heq Hin]]. apply filter_In in Hin. destruct Hin as [_ Hne].
  apply negb_true_iff, String.eqb_neq in Hne. contradiction.
Qed.

Lemma contains_remove_absent d k k' :
  contains d k' = false -> contains (remove d k) k' = false.
Proof.
  rewrite !contains_false_keys. intros Hk' Hin. apply Hk'.
  eapply keys_remove_subset; eassumption.
Qed.

Lemma remove_absent d k : contains d k = false -> remove d k = d.
Proof.
  unfold contains, remove. induction d as [|kv d IH]; simpl; [reflexivity|].
  intros H. apply orb_false_iff in H. destruct H as [H1 H2].
  rewrite H1. simpl. now rewrite IH.
Qed.

Lemma lookup_absent d k : contains d k = false -> lookup d k = None.
Proof.
  unfold contains. induction d as [|[k' v'] d IH]; simpl; [reflexivity|].
  intros H. apply orb_false_iff in H. destruct H as [H1 H2].
  rewrite H1. now apply IH.
Qed.

Lemma lookup_present d k :
  contains d k = true -> exists v, lookup d k = Some v.
Proof.
  unfold contains. induction d as [|[k' v'] d IH]; simpl; [discriminate|].
  destruct (String.eqb k' k); simpl; [now exists v' | exact IH].
Qed.

Lemma lookup_app d1 d2 k :
  lookup (d1 ++ d2) k =
    match lookup d1 k with
    | Some v => Some v
    | None => lookup d2 k
    end.
Proof.
  induction d1 as [|[k' v'] d1 IH]; simpl; [reflexivity|].
  now destruct (String.eqb k' k).
Qed.

Lemma lookup_remove_same d k : lookup (remove d k) k = None.
Proof. apply lookup_absent, contains_remove_same. Qed.

Lemma lookup_remove_other d k k' :
  k' <> k -> lookup (remove d k) k' = lookup d k'.
Proof.
  intros Hne. unfold remove.
  induction d as [|[k0 v0] d IH]; simpl; [reflexivity|].
  destruct (String.eqb_spec k0 k) as [->|Hk0]; simpl.
  - destruct (String.eqb_spec k k'); [congruence | exact IH].
  - now rewrite IH.
Qed.

(** Assigning to a key that was just moved to the end rewrites the last
    entry. *)
Lemma setitem_moved d k v0 v :
  setitem (remove d k ++ [(k, v0)]) k v = remove d k ++ [(k, v)].
Proof.
  unfold setitem. rewrite contains_app, contains_remove_same. simpl.
  rewrite String.eqb_refl. simpl. rewrite map_app. simpl.
  rewrite String.eqb_refl. f_equal.
  unfold remove. induction d as [|[k0 w] d IH]; simpl; [reflexivity|].
  destruct (String.eqb_spec k0 k) as [->|Hk0]; simpl; [exact IH|].
  destruct (String.eqb_spec k0 k); [contradiction|]. now rewrite IH.
Qed.

(** What [put] leaves in the dictionary. *)
Lemma put_cache c k v :
  cache (put c k v) =
    if Py.len (remove (cache c) k ++ [(k, v)]) >? capacity c
    then tl (remove (cache c) k ++ [(k, v)])
    else remove (cache c) k ++ [(k, v)].
Proof.
  unfold put. simpl.
  destruct (contains (cache c) k) eqn:Hin.
  - destruct (lookup_present _ _ Hin) as [v0 Hv0].
    unfold move_to_end. rewrite Hv0, setitem_moved. reflexivity.
  - unfold setitem. rewrite Hin, (remove_absent _ _ Hin). reflexivity.
Qed.

Lemma put_capacity c k v : capacity (put c k v) = capacity c.
Proof. reflexivity. Qed.

(** What [get] leaves in the dictionary. *)
Lemma get_cache_hit c k :
  contains (cache c) k = true ->
  exists v0, lookup (cache c) k = Some v0
             /\ snd (get c k) = Some v0
             /\ cache (fst (get c k)) = remove (cache c) k ++ [(k, v0)].
Proof.
  intros Hin. destruct (lookup_present _ _ Hin) as [v0 Hv0].
  exists v0. unfold get. rewrite Hin. simpl. unfold move_to_end.
  rewrite Hv0. auto.
Qed.

Lemma get_cache_miss c k :
  contains (cache c) k = false ->
  snd (get c k) = None /\ cache (fst (get c k)) = cache c.
Proof. intros Hin. unfold get. rewrite Hin. auto. Qed.

Lemma get_capacity c k : capacity (fst (get c k)) = capacity c.
Proof. unfold get. now destruct (contains (cache c) k). Qed.

End LRUCacheFacts.

(** ** Recency order of the dictionary *)

Section LRURecency.

Import LRUCache.

Context {V : Type}.
Implicit Types (d : odict V) (c : t V) (k : string) (v : V)
         (ops : list (op V)).

(** [a] was last used before [b] in the trace [ops]. *)
Local Abbreviation used_before ops :=
  (fun a b : string => (last_use ops a < last_use ops b)%nat).

Lemma last_use_snoc ops (o : op V) k :
  last_use (ops ++ [o]) k =
    if String.eqb (key_of o) k then S (List.length ops) else last_use ops k.
Proof.
  induction ops as [|a ops IH]; simpl.
  - now destruct (String.eqb (key_of o) k).
  - rewrite IH. destruct (String.eqb (key_of o) k); reflexivity.
Qed.

Lemma last_use_le ops k : (last_use ops k <= List.length ops)%nat.
Proof.
  induction ops as [|a ops IH]; simpl; [lia|].
  destruct (last_use ops k); [destruct (String.eqb (key_of a) k)|]; lia.
Qed.

Lemma run_snoc c ops (o : op V) : run c (ops ++ [o]) = step (run c ops) o.
Proof. unfold run. now rewrite fold_left_app. Qed.

Lemma run_capacity c ops : capacity (run c ops) = capacity c.
Proof.
  induction ops as [|o ops IH] using rev_ind; [reflexivity|].
  rewrite run_snoc. destruct o as [k|k v]; simpl.
  - now rewrite get_capacity.
  - exact IH.
Qed.

Lemma sorted_filter (R : string -> string -> Prop) f (l : list string) :
  StronglySorted R l -> StronglySorted R (filter f l).
Proof.
  induction 1 as [|a l Hs IH Hall]; simpl; [constructor|].
  destruct (f a); [|exact IH]. constructor; [exact IH|].
  rewrite Forall_forall in *. intros x Hx. apply filter_In in Hx.
  apply Hall. tauto.
Qed.

Lemma sorted_snoc (R : string -> string -> Prop) (l : list string) x :
  StronglySorted R l -> Forall (fun y => R y x) l ->
  StronglySorted R (l ++ [x]).
Proof.
  induction 1 as [|a l Hs IH Hall]; intros Hx; simpl.
  - repeat constructor.
  - inversion Hx; subst. constructor; [now apply IH|].
    apply Forall_app. split; [assumption | now constructor].
Qed.

Lemma sorted_tl (R : string -> string -> Prop) (l : list string) :
  StronglySorted R l -> StronglySorted R (tl l).
Proof. destruct 1; simpl; [constructor | assumption]. Qed.

Lemma sorted_weaken (R R' : string -> string -> Prop) (l : list string) :
  (forall x y, In x l -> In y l -> R x y -> R' x y) ->
  StronglySorted R l -> StronglySorted R' l.
Proof.
  intros HR Hs. induction Hs as [|a l Hs IH Hall]; [constructor|].
  constructor.
  - apply IH. intros x y Hx Hy. apply HR; now right.
  - rewrite Forall_forall in *. intros x Hx.
    apply HR; [now left | now right | now apply Hall].
Qed.

Lemma keys_remove d k :
  keys (remove d k) = filter (fun x => negb (String.eqb x k)) (keys d).
Proof.
  unfold keys, remove. induction d as [|[k0 w] d IH]; simpl; [reflexivity|].
  destruct (String.eqb k0 k); simpl; now rewrite IH.
Qed.

Lemma keys_tl d : keys (tl d) = tl (keys d).
Proof. now destruct d. Qed.

(** Moving the key of the latest operation to the end keeps the
    dictionary in the order of last use. *)
Lemma touch_sorted ops (o : op V) d :
  StronglySorted (used_before ops) (keys d) ->
  StronglySorted (used_before (ops ++ [o]))
                 (keys (remove d (key_of o)) ++ [key_of o]).
Proof.
  intros Hs. rewrite keys_remove. apply sorted_snoc.
  - apply sorted_weaken with (R := used_before ops).
    + intros x y Hx Hy. apply filter_In in Hx, Hy.
      destruct Hx as [_ Hx], Hy as [_ Hy].
      apply negb_true_iff in Hx, Hy. rewrite !last_use_snoc.
      rewrite String.eqb_sym in Hx. rewrite String.eqb_sym in Hy.
      now rewrite Hx, Hy.
    + now apply sorted_filter.
  - rewrite Forall_forall. intros y Hy. apply filter_In in Hy.
    destruct Hy as [_ Hy]. apply negb_true_iff in Hy.
    rewrite String.eqb_sym in Hy.
    rewrite !last_use_snoc, Hy, String.eqb_refl.
    pose proof (last_use_le ops y). lia.
Qed.

(** The dictionary of a cache that started empty lists its keys from the
    least recently used to the most recently used. *)
Lemma run_sorted (C : Z) ops :
  StronglySorted (used_before ops) (keys (cache (run (new C) ops))).
Proof.
  induction ops as [|o ops IH] using rev_ind; [constructor|].
  rewrite run_snoc. set (c := run (new C) ops) in *.
  destruct o as [k|k v]; cbn [step].
  - destruct (contains (cache c) k) eqn:Hin.
    + destruct (get_cache_hit c k Hin) as [v0 [_ [_ Hc]]].
      rewrite Hc, keys_app. simpl.
      exact (touch_sorted ops (Get k) (cache c) IH).
    + destruct (get_cache_miss c k Hin) as [_ Hc]. rewrite Hc.
      apply sorted_weaken with (R := used_before ops); [|exact IH].
      intros x y Hx Hy. rewrite !last_use_snoc. simpl.
      apply contains_false_keys in Hin.
      destruct (String.eqb_spec k x); [congruence|].
      destruct (String.eqb_spec k y); [congruence|]. trivial.
  - rewrite put_cache.
    pose proof (touch_sorted ops (Put k v) (cache c) IH) as Ht. simpl in Ht.
    destruct (Py.len (remove (cache c) k ++ [(k, v)]) >? capacity c).
    + rewrite keys_tl, keys_app. now apply sorted_tl.
    + now rewrite keys_app.
Qed.

Lemma length_remove d k : (List.length (remove d k) <= List.length d)%nat.
Proof. apply filter_length_le. Qed.

(** [put] never leaves more entries than the capacity allows, provided the
    dictionary was within the capacity before. *)
Lemma put_within_capacity c k v :
  0 <= capacity c -> Py.len (cache c) <= capacity c ->
  Py.len (cache (put c k v)) <= capacity c.
Proof.
  intros Hcap Hlen. rewrite put_cache.
  pose proof (length_remove (cache c) k) as Hrem.
  assert (Hl : Py.len (remove (cache c) k ++ [(k, v)]) <= capacity c + 1).
  { unfold Py.len in *. rewrite length_app. simpl. lia. }
  rewrite Z.gtb_ltb.
  destruct (Z.ltb_spec (capacity c) (Py.len (remove (cache c) k ++ [(k, v)])))
    as [Hgt|Hle]; [|assumption].
  unfold Py.len in *.
  destruct (remove (cache c) k ++ [(k, v)]); simpl in *; lia.
Qed.

Lemma get_within_capacity c k :
  Py.len (cache c) <= capacity c ->
  Py.len (cache (fst (get c k))) <= capacity c.
Proof.
  intros Hlen. destruct (contains (cache c) k) eqn:Hin.
  - destruct (get_cache_hit c k Hin) as [v0 [Hv0 [_ Hc]]]. rewrite Hc.
    unfold Py.len in *. rewrite length_app. simpl.
    assert (List.length (remove (cache c) k) < List.length (cache c))%nat; [|lia].
    clear Hc Hlen Hv0. unfold contains, remove in *.
    induction (cache c) as [|kv d IH]; simpl in *; [discriminate|].
    destruct (String.eqb (fst kv) k); simpl in *.
    + pose proof (filter_length_le
                    (fun kv0 => negb (String.eqb (fst kv0) k)) d). lia.
    + apply IH in Hin. lia.
  - destruct (get_cache_miss c k Hin) as [_ Hc]. now rewrite Hc.
Qed.

Lemma run_within_capacity (C : Z) ops :
  0 <= C -> Py.len (cache (run (new C) ops)) <= C.
Proof.
  intros HC. induction ops as [|o ops IH] using rev_ind.
  - simpl. unfold Py.len. simpl. lia.
  - rewrite run_snoc.
    pose proof (run_capacity (new C) ops) as Hcap. simpl in Hcap.
    destruct o as [k|k v]; cbn [step].
    + rewrite <- Hcap at 2. apply get_within_capacity. now rewrite Hcap.
    + rewrite <- Hcap at 2. apply put_within_capacity; now rewrite Hcap.
Qed.

End LRURecency.

Section LRUEviction.

Import LRUCache.

Context {V : Type}.
Implicit Types (d : odict V) (c : t V) (k : string) (v : V)
         (ops : list (op V)).

(** The trace that inserts the given entries one after the other. *)
Local Abbreviation puts kvs := (map (fun kv : string * V => Put (fst kv) (snd kv)) kvs).

Lemma tl_skipn_snoc (A : Type) (a : nat) (l : list A) (x : A) :
  (a <= List.length l)%nat ->
  tl (skipn a l ++ [x]) = skipn (S a) (l ++ [x]).
Proof.
  revert a. induction l as [|y l IH]; intros a Ha; simpl in *.
  - assert (a = 0)%nat by lia. subst. reflexivity.
  - destruct a as [|a]; simpl; [reflexivity|].
    rewrite IH by lia. reflexivity.
Qed.

Lemma keys_skipn_subset (n : nat) d k : In k (keys (skipn n d)) -> In k (keys d).
Proof.
  unfold keys. rewrite !in_map_iff. intros [kv [Heq Hin]].
  exists kv. split; [assumption|]. rewrite <- (firstn_skipn n d).
  apply in_or_app. now right.
Qed.

(** Inserting distinct keys into an empty cache keeps the last
    [capacity] of them, in insertion order. *)
Lemma puts_fresh (C : Z) (kvs : list (string * V)) :
  0 <= C -> NoDup (keys kvs) ->
  cache (run (new C) (puts kvs)) =
    skipn (List.length kvs - Z.to_nat C) kvs.
Proof.
  intros HC. induction kvs as [|kv kvs IH] using rev_ind; intros Hnd.
  - reflexivity.
  - rewrite map_app. simpl map. rewrite run_snoc. cbn [step].
    rewrite keys_app in Hnd. simpl in Hnd.
    destruct (NoDup_remove _ _ _ Hnd) as [Hnd' Hfresh].
    rewrite app_nil_r in Hnd', Hfresh.
    rewrite put_cache, IH by assumption.
    rewrite run_capacity. simpl capacity.
    rewrite remove_absent.
    2:{ apply contains_false_keys. intros Hin. apply Hfresh.
        eapply keys_skipn_subset; eassumption. }
    rewrite length_app. simpl List.length.
    rewrite <- surjective_pairing.
    rewrite Z.gtb_ltb. unfold Py.len. rewrite length_app, length_skipn.
    simpl List.length.
    destruct (Z.ltb_spec C
                (Z.of_nat (List.length kvs
                           - (List.length kvs - Z.to_nat C) + 1))) as [Hgt|Hle].
    + rewrite tl_skipn_snoc by lia. f_equal. lia.
    + replace (List.length kvs - Z.to_nat C)%nat with 0%nat by lia.
      replace (List.length kvs + 1 - Z.to_nat C)%nat with 0%nat by lia.
      reflexivity.
Qed.

(** A [put] of a new key into a full cache drops the head of the
    dictionary and nothing else, and the head is the entry whose last use
    lies furthest back. *)
Lemma put_evicts_least_recent (C : Z) ops k v :
  let c := run (new C) ops in
  contains (cache c) k = false -> Py.len (cache c) = C ->
  exists victim,
    cache c ++ [(k, v)] = victim :: cache (put c k v)
    /\ forall k', In k' (keys (cache (put c k v))) ->
         (last_use (ops ++ [Put k v]) (fst victim)
          < last_use (ops ++ [Put k v]) k')%nat.
Proof.
  intros c Hin Hlen.
  pose proof (touch_sorted ops (Put k v) (cache c) (run_sorted C ops)) as Hs.
  simpl in Hs. fold c in Hs.
  assert (Hcap : capacity c = C) by (unfold c; now rewrite run_capacity).
  rewrite put_cache, Hcap. rewrite (remove_absent _ _ Hin) in *.
  replace (keys (cache c) ++ [k]) with (keys (cache c ++ [(k, v)])) in Hs
    by (now rewrite keys_app).
  assert (Hfull : (Py.len (cache c ++ [(k, v)]) >? C) = true).
  { apply Z.gtb_lt. unfold Py.len in *. rewrite length_app. simpl. lia. }
  rewrite Hfull.
  destruct (cache c ++ [(k, v)]) as [|victim rest] eqn:Hd.
  - destruct (cache c); discriminate.
  - exists victim. split; [reflexivity|]. simpl tl.
    simpl in Hs. apply StronglySorted_inv in Hs. destruct Hs as [_ Hall].
    rewrite Forall_forall in Hall. exact Hall.
Qed.

End LRUEviction.

(** C4.  An LRU cache of capacity [C] that started empty never holds more
    than [C] entries after a [put]; a [put] of a new key into a full cache
    drops exactly one entry, the head of the dictionary, whose last use by
    [get] or [put] lies before the last use of every entry that stays; and
    after inserting [C + 1] distinct keys exactly [C] entries are left, the
    key that is gone being the first one inserted, the least recently
    used. *)
Theorem lru_put_bounded_evicts_least_recent
  (V : Type) (C : Z) (ops : list (LRUCache.op V)) (k : string) (v : V)
  (kvs : list (string * V)) :
  0 <= C ->
  let c := LRUCache.run (LRUCache.new C) ops in
  let trace := map (fun kv => LRUCache.Put (fst kv) (snd kv)) kvs in
  let full := LRUCache.run (LRUCache.new C) trace in
  Py.len (LRUCache.cache (LRUCache.put c k v)) <= C
  /\ (LRUCache.contains (LRUCache.cache c) k = false ->
      Py.len (LRUCache.cache c) = C ->
      exists victim,
        LRUCache.cache c ++ [(k, v)]
          = victim :: LRUCache.cache (LRUCache.put c k v)
        /\ forall k', In k' (LRUCache.keys (LRUCache.cache (LRUCache.put c k v))) ->
             (LRUCache.last_use (ops ++ [LRUCache.Put k v]) (fst victim)
              < LRUCache.last_use (ops ++ [LRUCache.Put k v]) k')%nat)
  /\ (NoDup (LRUCache.keys kvs) -> Py.len kvs = C + 1 ->
      Py.len (LRUCache.cache full) = C
      /\ exists first,
           kvs = first :: LRUCache.cache full
           /\ LRUCache.contains (LRUCache.cache full) (fst first) = false
           /\ forall k', In k' (LRUCache.keys (LRUCache.cache full)) ->
                (LRUCache.last_use trace (fst first)
                 < LRUCache.last_use trace k')%nat).
Proof.
  intros HC c trace full. split; [|split].
  - assert (Hcap : LRUCache.capacity c = C)
      by (unfold c; now rewrite run_capacity).
    pose proof (put_within_capacity c k v) as Hput. rewrite Hcap in Hput.
    apply Hput; [assumption|]. now apply run_within_capacity.
  - apply put_evicts_least_recent.
  - intros Hnd Hlen.
    destruct (exists_last (l := kvs)) as [init [[kl vl] Hkvs]].
    { intros ->. unfold Py.len in Hlen. simpl in Hlen. lia. }
    assert (Hinit : Py.len init = C).
    { subst kvs. unfold Py.len in *. rewrite length_app in Hlen.
      simpl in Hlen. lia. }
    assert (Hnd2 : NoDup (LRUCache.keys init ++ [kl])).
    { rewrite Hkvs, keys_app in Hnd. exact Hnd. }
    destruct (NoDup_remove _ _ _ Hnd2) as [Hnd' Hfresh].
    rewrite app_nil_r in Hnd', Hfresh.
    pose proof (puts_fresh C init HC Hnd') as Hc0.
    replace (List.length init - Z.to_nat C)%nat with 0%nat in Hc0
      by (unfold Py.len in Hinit; lia).
    simpl skipn in Hc0.
    destruct (put_evicts_least_recent C
                (map (fun kv => LRUCache.Put (fst kv) (snd kv)) init) kl vl)
      as [victim [Hsplit Hold]].
    { rewrite Hc0. now apply contains_false_keys. }
    { now rewrite Hc0. }
    assert (Htrace : trace =
              map (fun kv => LRUCache.Put (fst kv) (snd kv)) init
              ++ [LRUCache.Put kl vl]).
    { unfold trace. subst kvs. now rewrite map_app. }
    assert (Hfull : full =
              LRUCache.put
                (LRUCache.run (LRUCache.new C)
                   (map (fun kv => LRUCache.Put (fst kv) (snd kv)) init))
                kl vl).
    { unfold full. rewrite Htrace. now rewrite run_snoc. }
    rewrite <- Hfull, <- Htrace, Hc0 in *.
    assert (Hlen' : Py.len (LRUCache.cache full) = C).
    { apply (f_equal (@List.length _)) in Hsplit.
      rewrite length_app in Hsplit. simpl in Hsplit.
      unfold Py.len in *. lia. }
    split; [exact Hlen'|].
    exists victim. split; [now rewrite Hkvs|]. split; [|exact Hold].
    apply contains_false_keys. intros Hin.
    rewrite Hkvs, Hsplit in Hnd. simpl in Hnd.
    inversion Hnd; subst. contradiction.
Qed.

(** The bound on a cache of capacity two after three insertions, and the
    eviction of the oldest key. *)
Lemma lru_put_bounded_evicts_least_recent_witness :
  Py.len (LRUCache.cache
            (LRUCache.put
               (LRUCache.run (LRUCache.new 2)
                  [LRUCache.Put "a" 1%nat; LRUCache.Put "b" 2%nat;
                   LRUCache.Get "a"])
               "c" 3%nat)) <= 2
  /\ (exists victim,
        [("b", 2%nat); ("a", 1%nat)] ++ [("c", 3%nat)]
          = victim :: LRUCache.cache
                        (LRUCache.put
                           (LRUCache.run (LRUCache.new 2)
                              [LRUCache.Put "a" 1%nat; LRUCache.Put "b" 2%nat;
                               LRUCache.Get "a"])
                           "c" 3%nat))
  /\ Py.len (LRUCache.cache
               (LRUCache.run (LRUCache.new 2)
                  [LRUCache.Put "a" 1%nat; LRUCache.Put "b" 2%nat;
                   LRUCache.Put "c" 3%nat])) = 2.
Proof.
  destruct (lru_put_bounded_evicts_least_recent nat 2
              [LRUCache.Put "a" 1%nat; LRUCache.Put "b" 2%nat; LRUCache.Get "a"]
              "c" 3%nat
              [("a", 1%nat); ("b", 2%nat); ("c", 3%nat)]
              ltac:(lia)) as [Hbound [Hevict Hfill]].
  split; [exact Hbound|]. split.
  - destruct (Hevict eq_refl eq_refl) as [victim [Hv _]]. now exists victim.
  - refine (proj1 (Hfill _ eq_refl)).
    repeat constructor; simpl; intuition discriminate.
Defined.

Section LRUAccessOrder.

Import LRUCache.

Context {V : Type}.
Implicit Types (d : odict V) (c : t V) (k : string) (v : V).

Local Abbreviation puts kvs := (map (fun kv : string * V => Put (fst kv) (snd kv)) kvs).

(** Inserting new distinct keys only ever drops entries from the front of
    the dictionary extended with the new entries. *)
Lemma puts_drop_prefix c (kvs : list (string * V)) :
  NoDup (keys kvs) ->
  (forall k', In k' (keys kvs) -> contains (cache c) k' = false) ->
  exists m, (m <= List.length (cache c ++ kvs))%nat
            /\ cache (run c (puts kvs)) = skipn m (cache c ++ kvs).
Proof.
  induction kvs as [|kv kvs IH] using rev_ind; intros Hnd Hnew.
  - exists 0%nat. split; [lia|]. simpl. now rewrite app_nil_r.
  - rewrite keys_app in Hnd. simpl in Hnd.
    destruct (NoDup_remove _ _ _ Hnd) as [Hnd' Hfresh].
    rewrite app_nil_r in Hnd', Hfresh.
    destruct IH as [m [Hm Hc]]; [assumption| |].
    { intros k' Hk'. apply Hnew. rewrite keys_app. apply in_or_app. now left. }
    rewrite map_app. simpl map. rewrite run_snoc. cbn [step].
    rewrite put_cache, Hc. rewrite remove_absent.
    2:{ apply contains_false_keys. intros Hin.
        apply keys_skipn_subset in Hin. rewrite keys_app in Hin.
        apply in_app_or in Hin. destruct Hin as [Hin|Hin]; [|contradiction].
        apply contains_keys in Hin. rewrite Hnew in Hin; [discriminate|].
        rewrite keys_app. apply in_or_app. right. now left. }
    rewrite <- surjective_pairing.
    destruct (Py.len (skipn m (cache c ++ kvs) ++ [kv])
              >? capacity (run c (puts kvs))).
    + exists (S m). rewrite app_assoc. split.
      * rewrite length_app. simpl. lia.
      * now apply tl_skipn_snoc.
    + exists m. rewrite app_assoc. split.
      * rewrite length_app. simpl. lia.
      * rewrite (skipn_app m (cache c ++ kvs) [kv]).
        replace (m - List.length (cache c ++ kvs))%nat with 0%nat by lia.
        reflexivity.
Qed.

(** [get] reorders the dictionary and writes nothing. *)
Lemma get_lookup c k k' :
  lookup (cache (fst (get c k))) k' = lookup (cache c) k'.
Proof.
  destruct (contains (cache c) k) eqn:Hin.
  - destruct (get_cache_hit c k Hin) as [v0 [Hv0 [_ Hc]]].
    rewrite Hc, lookup_app. destruct (String.eqb_spec k k') as [<-|Hne].
    + rewrite lookup_remove_same. simpl. now rewrite String.eqb_refl.
    + rewrite lookup_remove_other by congruence.
      destruct (lookup (cache c) k'); [reflexivity|]. simpl.
      destruct (String.eqb_spec k k'); [contradiction | reflexivity].
  - destruct (get_cache_miss c k Hin) as [_ Hc]. now rewrite Hc.
Qed.

End LRUAccessOrder.

(** C5.  A [get] on a resident key writes nothing and makes the key the
    most recently used one: when new distinct keys are inserted afterwards,
    the key is not evicted before every entry that was resident at the
    time of the [get], and not accessed since, has been evicted. *)
Theorem lru_get_refreshes_recency
  (V : Type) (c : LRUCache.t V) (k : string) (kvs : list (string * V)) :
  LRUCache.contains (LRUCache.cache c) k = true ->
  NoDup (LRUCache.keys kvs) ->
  (forall k', In k' (LRUCache.keys kvs) ->
              LRUCache.contains (LRUCache.cache c) k' = false) ->
  let c1 := fst (LRUCache.get c k) in
  let c2 := LRUCache.run c1
              (map (fun kv => LRUCache.Put (fst kv) (snd kv)) kvs) in
  (forall k', LRUCache.lookup (LRUCache.cache c1) k'
              = LRUCache.lookup (LRUCache.cache c) k')
  /\ (exists v, LRUCache.cache c1
                = LRUCache.remove (LRUCache.cache c) k ++ [(k, v)])
  /\ (LRUCache.contains (LRUCache.cache c2) k = false ->
      forall k', In k' (LRUCache.keys (LRUCache.cache c)) ->
                 LRUCache.contains (LRUCache.cache c2) k' = false).
Proof.
  intros Hin Hnd Hnew c1 c2.
  destruct (get_cache_hit c k Hin) as [v0 [Hv0 [_ Hc1]]]. fold c1 in Hc1.
  split; [intros k'; apply get_lookup|]. split; [now exists v0|].
  intros Hgone k' Hk'.
  destruct (String.eqb_spec k' k) as [->|Hne]; [assumption|].
  destruct (puts_drop_prefix c1 kvs Hnd) as [m [Hm Hc2]].
  { intros k0 Hk0. rewrite Hc1, contains_app, contains_remove_absent.
    - simpl. rewrite orb_false_r.
      destruct (String.eqb_spec k k0) as [->|]; [|reflexivity].
      rewrite (Hnew _ Hk0) in Hin. discriminate.
    - now apply Hnew. }
  fold c2 in Hc2. rewrite Hc2, Hc1 in *.
  set (d0 := LRUCache.remove (LRUCache.cache c) k) in *.
  rewrite <- app_assoc in *. rewrite skipn_app in *.
  assert (Hlong : (List.length d0 < m)%nat).
  { destruct (Nat.lt_ge_cases (List.length d0) m) as [|Hle]; [assumption|].
    replace (m - List.length d0)%nat with 0%nat in Hgone by lia.
    simpl in Hgone. rewrite !contains_app in Hgone. simpl in Hgone.
    rewrite String.eqb_refl in Hgone. simpl in Hgone.
    rewrite orb_true_r in Hgone. discriminate. }
  rewrite skipn_all2 by lia. simpl app.
  apply contains_false_keys. intros Hk2.
  apply keys_skipn_subset in Hk2. simpl in Hk2.
  destruct Hk2 as [Hk2|Hk2]; [congruence|].
  apply Hnew in Hk2. apply contains_keys in Hk'. congruence.
Qed.

(** After [get "a"] on a full cache of two entries, inserting a new key
    evicts ["b"] and keeps ["a"]. *)
Lemma lru_get_refreshes_recency_witness :
  LRUCache.lookup
    (LRUCache.cache
       (fst (LRUCache.get
               (LRUCache.run (LRUCache.new 2)
                  [LRUCache.Put "a" 1%nat; LRUCache.Put "b" 2%nat]) "a")))
    "b" = Some 2%nat
  /\ LRUCache.cache
       (LRUCache.run
          (fst (LRUCache.get
                  (LRUCache.run (LRUCache.new 2)
                     [LRUCache.Put "a" 1%nat; LRUCache.Put "b" 2%nat]) "a"))
          [LRUCache.Put "c" 3%nat])
     = [("a", 1%nat); ("c", 3%nat)].
Proof.
  destruct (lru_get_refreshes_recency nat
              (LRUCache.run (LRUCache.new 2)
                 [LRUCache.Put "a" 1%nat; LRUCache.Put "b" 2%nat])
              "a" [("c", 3%nat)] eq_refl) as [Hsame _].
  - repeat constructor. simpl. tauto.
  - intros k' [<-|[]]. reflexivity.
  - split; [rewrite Hsame|]; reflexivity.
Defined.

(** * Properties of the metrics tracker *)

Section MetricsFacts.

Import MetricsTracker.

Implicit Types (m : t) (c : call) (cs : list call).

Lemma lt_ms_spec (a b : Q) : lt_ms a b = true <-> (a < b)%Q.
Proof.
  unfold lt_ms. rewrite Qlt_alt.
  destruct (a ?= b)%Q; split; congruence.
Qed.

Lemma lt_ms_dec (a b : Q) :
  lt_ms a b = if Qlt_le_dec a b then true else false.
Proof.
  destruct (Qlt_le_dec a b) as [Hlt|Hle].
  - now apply lt_ms_spec.
  - destruct (lt_ms a b) eqn:H; [|reflexivity].
    apply lt_ms_spec in H. exfalso. exact (Qle_not_lt _ _ Hle H).
Qed.

Lemma record_all_snoc m cs c :
  record_all m (cs ++ [c]) = record_call (record_all m cs) c.
Proof. unfold record_all. now rewrite fold_left_app. Qed.

Lemma count_under_snoc (bound : Q) (ts : list Q) (x : Q) :
  Reference.count_under bound (ts ++ [x]) =
    Reference.count_under bound ts + (if lt_ms x bound then 1 else 0).
Proof.
  unfold Reference.count_under, Py.len. rewrite filter_app, length_app.
  simpl. rewrite lt_ms_dec.
  destruct (Qlt_le_dec x bound); simpl; lia.
Qed.

Lemma sum_ms_snoc (ts : list Q) (x : Q) :
  Reference.sum_ms (ts ++ [x]) = (Reference.sum_ms ts + x)%Q.
Proof. unfold Reference.sum_ms. now rewrite fold_left_app. Qed.

(** The counters after a run of [record_query] calls on a fresh tracker. *)
Lemma record_all_counters cs :
  let m := record_all new cs in
  let ts := map call_time_ms cs in
  total_queries m = Py.len cs
  /\ total_search_time m = Reference.sum_ms ts
  /\ queries_under_50ms m = Reference.count_under 50 ts
  /\ queries_under_200ms m = Reference.count_under 200 ts.
Proof.
  induction cs as [|c cs IH] using rev_ind.
  - simpl. repeat split.
  - cbv zeta in *. destruct IH as [Hq [Ht [H50 H200]]].
    rewrite record_all_snoc, map_app. simpl map.
    rewrite sum_ms_snoc, !count_under_snoc.
    unfold record_call, record_query. simpl.
    rewrite Hq, Ht, H50, H200. repeat split.
    + unfold Py.len. rewrite length_app. simpl. lia.
    + destruct (lt_ms (call_time_ms c) 50); lia.
    + destruct (lt_ms (call_time_ms c) 200); lia.
Qed.

Lemma last_n_length (A : Type) (n : nat) (l : list A) :
  List.length (Py.last_n n l) = Nat.min n (List.length l).
Proof. unfold Py.last_n. rewrite length_skipn. lia. Qed.

Lemma last_n_suffix (A : Type) (n : nat) (l : list A) :
  exists older, l = older ++ Py.last_n n l.
Proof.
  exists (firstn (List.length l - n) l). unfold Py.last_n.
  now rewrite firstn_skipn.
Qed.

(** The history is the window of the last thousand records. *)
Lemma record_all_history cs :
  query_history (record_all new cs) = Py.last_n 1000 (map record_of cs).
Proof.
  induction cs as [|c cs IH] using rev_ind; [reflexivity|].
  rewrite record_all_snoc, map_app. simpl map.
  unfold record_call, record_query. simpl query_history.
  fold (record_of c). rewrite IH. unfold Py.last_n, Py.len.
  rewrite !length_app, length_skipn, !length_map. simpl List.length.
  rewrite Z.gtb_ltb.
  destruct (Z.ltb_spec 1000
              (Z.of_nat (List.length cs - (List.length cs - 1000) + 1)))
    as [Hgt|Hle].
  - rewrite tl_skipn_snoc by (rewrite length_map; lia). f_equal. lia.
  - replace (List.length cs - 1000)%nat with 0%nat by lia.
    replace (List.length cs + 1 - 1000)%nat with 0%nat by lia.
    reflexivity.
Qed.

End MetricsFacts.




(** C10.  [get_stats] returns in [recent_queries] the last ten records of
    the history, all of them when there are fewer, in any state of the
    tracker; the history itself is the window of the last thousand records,
    so that [recent_queries] holds the ten most recent queries ever
    recorded. *)
Theorem recent_queries_are_last_ten
  (m : MetricsTracker.t) (cs : list MetricsTracker.call) :
  let recent := MetricsTracker.recent_queries (MetricsTracker.get_stats m) in
  let m' := MetricsTracker.record_all MetricsTracker.new cs in
  let recent' := MetricsTracker.recent_queries (MetricsTracker.get_stats m') in
  List.length recent = Nat.min 10 (List.length (MetricsTracker.query_history m))
  /\ (exists older, MetricsTracker.query_history m = older ++ recent)
  /\ List.length (MetricsTracker.query_history m')
     = Nat.min 1000 (List.length cs)
  /\ (exists dropped,
        map MetricsTracker.record_of cs
        = dropped ++ MetricsTracker.query_history m')
  /\ List.length recent' = Nat.min 10 (List.length cs)
  /\ (exists older, map MetricsTracker.record_of cs = older ++ recent').
Proof.
  intros recent m' recent'.
  pose proof (record_all_history cs) as Hh. fold m' in Hh.
  assert (Hlen : List.length (MetricsTracker.query_history m')
                 = Nat.min 1000 (List.length cs)).
  { rewrite Hh, last_n_length, length_map. reflexivity. }
  split; [apply last_n_length|]. split; [apply last_n_suffix|].
  split; [exact Hlen|]. split; [rewrite Hh; apply last_n_suffix|]. split.
  - unfold recent', MetricsTracker.get_stats.
    cbn [MetricsTracker.recent_queries]. rewrite last_n_length, Hlen. lia.
  - destruct (last_n_suffix _ 1000 (map MetricsTracker.record_of cs))
      as [dropped Hd].
    destruct (last_n_suffix _ 10 (MetricsTracker.query_history m'))
      as [older Ho].
    exists (dropped ++ older). rewrite <- app_assoc.
    unfold recent', MetricsTracker.get_stats.
    cbn [MetricsTracker.recent_queries]. rewrite <- Ho, Hh. exact Hd.
Qed.

(** * Properties of the chunking of a file *)

Section ChunkingFacts.

Lemma lstrip_chars_nil (l : list ascii) :
  Py.lstrip_chars l = [] <-> forallb Py.is_space l = true.
Proof.
  induction l as [|c l IH]; simpl; [tauto|].
  destruct (Py.is_space c); simpl; [exact IH|]. split; discriminate.
Qed.

Lemma lstrip_chars_head (l : list ascii) :
  forallb Py.is_space (Py.lstrip_chars l) = true -> Py.lstrip_chars l = [].
Proof.
  induction l as [|c l IH]; simpl; [reflexivity|].
  destruct (Py.is_space c) eqn:Hc; [exact IH|]. simpl. now rewrite Hc.
Qed.

Lemma forallb_rev_true (A : Type) (f : A -> bool) (l : list A) :
  forallb f (rev l) = true <-> forallb f l = true.
Proof.
  rewrite !forallb_forall. split; intros H x Hx; apply H.
  - now apply in_rev in Hx.
  - now apply in_rev.
Qed.

Lemma truthy_of_chars (l : list ascii) :
  Py.truthy (string_of_list_ascii l) = negb (match l with [] => true | _ => false end).
Proof. now destruct l. Qed.

(** A string strips to the empty string exactly when it is blank. *)
Lemma truthy_strip (s : string) :
  Py.truthy (Py.strip s) = negb (Reference.blank s).
Proof.
  unfold Py.strip, Reference.blank, Py.rstrip_chars.
  set (l := list_ascii_of_string s). rewrite truthy_of_chars.
  destruct (forallb Py.is_space l) eqn:Hb.
  - apply lstrip_chars_nil in Hb. rewrite Hb. reflexivity.
  - destruct (rev (Py.lstrip_chars (rev (Py.lstrip_chars l)))) eqn:Hr;
      [|reflexivity].
    exfalso. apply (f_equal (@rev _)) in Hr. rewrite rev_involutive in Hr.
    simpl in Hr. apply (proj1 (lstrip_chars_nil _)) in Hr.
    apply (proj1 (forallb_rev_true _ _ _)) in Hr.
    apply lstrip_chars_head in Hr.
    apply (proj1 (lstrip_chars_nil _)) in Hr. congruence.
Qed.

Lemma chars_append (a b : string) :
  list_ascii_of_string (a ++ b)%string
  = list_ascii_of_string a ++ list_ascii_of_string b.
Proof. induction a as [|c a IH]; simpl; [reflexivity | now rewrite IH]. Qed.

Lemma blank_join (lines : list string) :
  Forall (fun l => Reference.blank l = true) lines ->
  Reference.blank (Py.join_newline lines) = true.
Proof.
  induction 1 as [|x r Hx Hr IH]; [reflexivity|].
  destruct r as [|y r]; [exact Hx|].
  change (Py.join_newline (x :: y :: r))
    with (x ++ String Py.newline (Py.join_newline (y :: r)))%string.
  unfold Reference.blank in *. rewrite chars_append, forallb_app, Hx.
  simpl. exact IH.
Qed.

Lemma Forall_slice (A : Type) (P : A -> Prop) (l : list A) (i j : nat) :
  Forall P l -> Forall P (Py.slice l i j).
Proof.
  intros H. rewrite Forall_forall in *. intros x Hx. apply H.
  unfold Py.slice in Hx.
  rewrite <- (firstn_skipn i l). apply in_or_app. right.
  rewrite <- (firstn_skipn (j - i) (skipn i l)). apply in_or_app. now left.
Qed.

Lemma slice_length (A : Type) (l : list A) (i j : nat) :
  List.length (Py.slice l i j) = Nat.min (j - i) (List.length l - i).
Proof. unfold Py.slice. now rewrite length_firstn, length_skipn. Qed.

(** A chunk is kept exactly when it is not blank. *)
Lemma chunk_at_blank (file_name repo_name : string) (lines : list string)
      (i : nat) :
  Reference.blank
    (Py.join_newline
       (Py.slice lines i (i + CodeSearchEngine.chunk_size))) = true ->
  CodeSearchEngine.chunk_at file_name repo_name lines i = [].
Proof.
  intros Hb. unfold CodeSearchEngine.chunk_at.
  now rewrite truthy_strip, Hb.
Qed.

Lemma chunk_at_kept (file_name repo_name : string) (lines : list string)
      (i : nat) :
  Reference.blank
    (Py.join_newline
       (Py.slice lines i (i + CodeSearchEngine.chunk_size))) = false ->
  CodeSearchEngine.chunk_at file_name repo_name lines i =
    [CodeSearchEngine.mkSnippet file_name repo_name
       (Py.join_newline (Py.slice lines i (i + CodeSearchEngine.chunk_size)))
       (Z.of_nat i + 1)
       (Z.of_nat i
        + Py.len (Py.slice lines i (i + CodeSearchEngine.chunk_size)))].
Proof.
  intros Hb. unfold CodeSearchEngine.chunk_at.
  now rewrite truthy_strip, Hb.
Qed.

End ChunkingFacts.

(** C7, as the code has it.  A file whose text splits at newlines into
    exactly 120 lines, and none of whose three chunks is entirely white
    space, yields exactly three snippets, with the line ranges [1,50],
    [51,100] and [101,120]; a file all of whose lines are blank yields no
    snippet. *)
Theorem chunking_of_120_lines_and_of_blank_files
  (file_name repo_name text : string) :
  let lines := Py.split_newline text in
  let chunk i := Py.join_newline (Py.slice lines i (i + 50)) in
  (List.length lines = 120%nat ->
   (forall i, In i [0; 50; 100]%nat -> Reference.blank (chunk i) = false) ->
   CodeSearchEngine.chunk_file file_name repo_name text =
     [CodeSearchEngine.mkSnippet file_name repo_name (chunk 0%nat) 1 50;
      CodeSearchEngine.mkSnippet file_name repo_name (chunk 50%nat) 51 100;
      CodeSearchEngine.mkSnippet file_name repo_name (chunk 100%nat) 101 120])
  /\ (Forall (fun l => Reference.blank l = true) lines ->
      CodeSearchEngine.chunk_file file_name repo_name text = []).
Proof.
  intros lines chunk. split.
  - intros Hlen Hkept. unfold CodeSearchEngine.chunk_file. fold lines.
    rewrite Hlen.
    replace (Py.range 0 120 CodeSearchEngine.chunk_size)
      with [0; 50; 100]%nat by reflexivity.
    cbn [flat_map].
    rewrite !chunk_at_kept by (apply Hkept; simpl; tauto).
    unfold Py.len. rewrite !slice_length, Hlen.
    unfold CodeSearchEngine.chunk_size. cbn [app].
    repeat f_equal; lia.
  - intros Hblank. unfold CodeSearchEngine.chunk_file. fold lines.
    induction (Py.range 0 (List.length lines) CodeSearchEngine.chunk_size)
      as [|i rest IH]; [reflexivity|].
    cbn [flat_map]. rewrite IH, app_nil_r.
    apply chunk_at_blank, blank_join, Forall_slice, Hblank.
Qed.

(** A file of 120 lines [x] yields the three ranges, and a file of three
    empty lines yields nothing. *)
Lemma chunking_of_120_lines_and_of_blank_files_witness :
  map Reference.line_range
      (CodeSearchEngine.chunk_file "repo/a.py" "repo"
         (Py.join_newline (repeat "x" 120)))
  = [(1, 50); (51, 100); (101, 120)]
  /\ CodeSearchEngine.chunk_file "repo/a.py" "repo"
       (Py.join_newline (repeat " " 3)) = [].
Proof.
  split.
  - rewrite (proj1 (chunking_of_120_lines_and_of_blank_files
                      "repo/a.py" "repo" (Py.join_newline (repeat "x" 120)))).
    + reflexivity.
    + vm_compute. reflexivity.
    + intros i Hi. simpl in Hi.
      destruct Hi as [<-|[<-|[<-|[]]]]; vm_compute; reflexivity.
  - apply (proj2 (chunking_of_120_lines_and_of_blank_files
                    "repo/a.py" "repo" (Py.join_newline (repeat " " 3)))).
    vm_compute. repeat constructor.
Defined.

(** C7, as stated, fails: a file of 120 lines whose first fifty lines are
    empty yields two snippets, not three. *)
Lemma chunking_of_120_lines_counterexample :
  List.length (Py.split_newline Demo.blank_head_file) = 120%nat
  /\ map Reference.line_range
       (CodeSearchEngine.chunk_file "repo/a.py" "repo" Demo.blank_head_file)
     = [(51, 100); (101, 120)]
  /\ map Reference.line_range
       (CodeSearchEngine.chunk_file "repo/a.py" "repo" Demo.blank_head_file)
     <> [(1, 50); (51, 100); (101, 120)].
Proof.
  split; [vm_compute; reflexivity|].
  assert (Hranges :
            map Reference.line_range
              (CodeSearchEngine.chunk_file "repo/a.py" "repo"
                 Demo.blank_head_file)
            = [(51, 100); (101, 120)]) by (vm_compute; reflexivity).
  split; [exact Hranges|]. rewrite Hranges. discriminate.
Qed.

(** * Properties of the search orchestrator *)

Section SearchFacts.

Import CodeSearchEngine.

Context `{Externals}.

Implicit Types (e : t) (clk : Clock) (query : string) (top_k : Z).

Lemma get_value (V : Type) (c : LRUCache.t V) (k : string) :
  snd (LRUCache.get c k) =
    if LRUCache.contains (LRUCache.cache c) k
    then LRUCache.lookup (LRUCache.cache c) k else None.
Proof.
  unfold LRUCache.get. now destruct (LRUCache.contains (LRUCache.cache c) k).
Qed.

(** A value just stored is found again, unless the cache holds nothing. *)
Lemma get_after_put (V : Type) (c : LRUCache.t V) (k : string) (v : V) :
  1 <= LRUCache.capacity c ->
  snd (LRUCache.get (LRUCache.put c k v) k) = Some v.
Proof.
  intros Hcap. rewrite get_value, put_cache.
  set (d := LRUCache.remove (LRUCache.cache c) k).
  assert (Hd : LRUCache.lookup d k = None) by apply lookup_remove_same.
  assert (Hc : LRUCache.contains d k = false) by apply contains_remove_same.
  rewrite Z.gtb_ltb.
  destruct (Z.ltb_spec (LRUCache.capacity c) (Py.len (d ++ [(k, v)])))
    as [Hgt|Hle].
  - destruct d as [|[k0 v0] d'].
    + unfold Py.len in Hgt. simpl in Hgt. lia.
    + simpl tl. simpl in Hd, Hc. apply orb_false_iff in Hc.
      destruct Hc as [Hk0 Hc]. rewrite Hk0 in Hd.
      rewrite contains_app, lookup_app, Hc, Hd. simpl.
      now rewrite String.eqb_refl.
  - rewrite contains_app, lookup_app, Hc, Hd. simpl.
    now rewrite String.eqb_refl.
Qed.

(** A value just read is found again. *)
Lemma get_after_get (V : Type) (c : LRUCache.t V) (k : string) (v : V) :
  snd (LRUCache.get c k) = Some v ->
  snd (LRUCache.get (fst (LRUCache.get c k)) k) = Some v.
Proof.
  rewrite !get_value, get_lookup.
  destruct (LRUCache.contains (LRUCache.cache c) k) eqn:Hin; [|discriminate].
  destruct (get_cache_hit c k Hin) as [v0 [_ [_ Hc]]].
  rewrite Hc, contains_app. simpl. rewrite String.eqb_refl.
  now rewrite orb_true_r.
Qed.

(** The two ways in which [search] returns on an engine with an index. *)
Lemma search_returned_inv clk query top_k e idx e1 (r1 : Found) :
  faiss_index e = Some idx ->
  search clk query top_k e = (e1, Py.Returned r1) ->
  let key := cache_key query top_k in
  let c1 := fst (LRUCache.get (cache e) key) in
  (exists entry,
      snd (LRUCache.get (cache e) key) = Some entry
      /\ r1 = {| results := entry_results entry;
                 search_time_ms := entry_search_time entry;
                 from_cache := true |}
      /\ e1 = set_metrics
                (MetricsTracker.record_query (metrics e) query
                   (entry_search_time entry) true (now_iso clk))
                (set_cache c1 e))
  \/ (exists found res,
        snd (LRUCache.get (cache e) key) = None
        /\ nearest idx query top_k = Py.Returned found
        /\ format_results (code_snippets e) found = Py.Returned res
        /\ r1 = {| results := res;
                   search_time_ms := (end_time clk - start_time clk) * 1000;
                   from_cache := false |}
        /\ e1 = set_metrics
                  (MetricsTracker.record_query (metrics e) query
                     ((end_time clk - start_time clk) * 1000) false
                     (now_iso clk))
                  (set_cache
                     (LRUCache.put c1 key
                        {| entry_results := res;
                           entry_search_time :=
                             (end_time clk - start_time clk) * 1000 |})
                     e)).
Proof.
  intros Hidx. unfold search. rewrite Hidx.
  unfold Py.bindM, cache_get.
  destruct (LRUCache.get (cache e) (cache_key query top_k))
    as [c1 [entry|]] eqn:Hget; cbn [fst snd].
  - unfold metrics_record_query, Py.modify, Py.ret. intros Heq.
    injection Heq as <- <-. left. exists entry. repeat split.
  - unfold Py.lift, Py.gets.
    destruct (nearest idx query top_k) as [found|ex] eqn:Hnear;
      [|discriminate].
    cbn [code_snippets set_cache].
    destruct (format_results (code_snippets e) found) as [res|ex] eqn:Hfmt;
      [|discriminate].
    unfold cache_put, metrics_record_query, Py.modify, Py.ret. intros Heq.
    injection Heq as <- <-. right. exists found, res.
    repeat split; assumption.
Qed.

(** A lookup that finds an entry is answered from the cache. *)
Lemma search_hit clk query top_k e idx entry :
  faiss_index e = Some idx ->
  snd (LRUCache.get (cache e) (cache_key query top_k)) = Some entry ->
  snd (search clk query top_k e)
  = Py.Returned {| results := entry_results entry;
                   search_time_ms := entry_search_time entry;
                   from_cache := true |}.
Proof.
  intros Hidx Hget. unfold search. rewrite Hidx.
  unfold Py.bindM, cache_get.
  destruct (LRUCache.get (cache e) (cache_key query top_k)) as [c1 v].
  simpl in Hget. subst v. reflexivity.
Qed.

Ltac case_matches :=
  repeat match goal with
         | |- context [match ?x with _ => _ end] => destruct x; cbn
         end.

Lemma index_repository_cache (r : Repository) e :
  cache (index_repository r e) = cache e.
Proof.
  unfold index_repository. destruct (exists_on_disk r); [|reflexivity].
  cbn [negb].
  destruct (fold_left (index_path (name r)) (rglob r) (code_snippets e, 0, 0))
    as [[a b] c].
  reflexivity.
Qed.

Lemma build_search_index_cache e (d : Disk) :
  cache (fst (fst (build_search_index (e, d)))) = cache e.
Proof.
  unfold build_search_index. destruct (code_snippets e); [reflexivity|].
  destruct (build_index _); [|reflexivity].
  destruct (save_index _ d). reflexivity.
Qed.

Lemma load_index_cache (d : Disk) e : cache (fst (load_index d e)) = cache e.
Proof.
  unfold load_index, Py.bindM, Py.lift, Py.modify, Py.ret, Py.bind.
  case_matches; reflexivity.
Qed.

Lemma search_capacity clk query top_k e :
  LRUCache.capacity (cache (fst (search clk query top_k e)))
  = LRUCache.capacity (cache e).
Proof.
  unfold search. destruct (faiss_index e) as [idx|]; [|reflexivity].
  unfold Py.bindM, cache_get.
  pose proof (get_capacity (cache e) (cache_key query top_k)) as Hcap.
  destruct (LRUCache.get (cache e) (cache_key query top_k))
    as [c1 [entry|]]; cbn [fst] in *; [exact Hcap|].
  unfold Py.lift, Py.gets.
  destruct (nearest idx query top_k); [|exact Hcap]. cbn [code_snippets set_cache].
  destruct (format_results (code_snippets e) a); exact Hcap.
Qed.

(** The result cache of an engine holds a thousand entries. *)
Lemma reachable_capacity e :
  reachable e -> LRUCache.capacity (cache e) = 1000.
Proof.
  induction 1 as [|r e _ IH|e d _ IH|d e _ IH|clk query top_k e _ IH].
  - reflexivity.
  - now rewrite index_repository_cache.
  - now rewrite build_search_index_cache.
  - now rewrite load_index_cache.
  - now rewrite search_capacity.
Qed.

End SearchFacts.

(** C1, as the code has it.  On an engine whose vector index has been
    built, a [search(q, top_k)] that returns is answered from the cache when
    it is repeated with no rebuild in between: the second call returns the
    results of the first, [from_cache = true], and as [search_time_ms] the
    latency the first call returned, whatever the clock says. *)
Theorem search_again_is_served_from_cache
  `{Externals} (clk1 clk2 : Clock) (e e1 : CodeSearchEngine.t)
  (query : string) (top_k : Z) (r1 : CodeSearchEngine.Found) :
  CodeSearchEngine.reachable e ->
  CodeSearchEngine.faiss_index e <> None ->
  CodeSearchEngine.search clk1 query top_k e = (e1, Py.Returned r1) ->
  exists e2,
    CodeSearchEngine.search clk2 query top_k e1
    = (e2, Py.Returned
             {| CodeSearchEngine.results := CodeSearchEngine.results r1;
                CodeSearchEngine.search_time_ms :=
                  CodeSearchEngine.search_time_ms r1;
                CodeSearchEngine.from_cache := true |}).
Proof.
  intros Hreach Hidx Hs.
  destruct (CodeSearchEngine.faiss_index e) as [idx|] eqn:Hi; [|congruence].
  exists (fst (CodeSearchEngine.search clk2 query top_k e1)).
  rewrite (surjective_pairing (CodeSearchEngine.search clk2 query top_k e1))
    at 1.
  f_equal.
  destruct (search_returned_inv _ _ _ _ _ _ _ Hi Hs)
    as [[entry [Hget [-> ->]]] | [found [res [Hget [_ [_ [-> ->]]]]]]].
  - apply (search_hit _ _ _ _ idx entry); [exact Hi|].
    cbn [CodeSearchEngine.cache CodeSearchEngine.set_metrics
         CodeSearchEngine.set_cache].
    now apply get_after_get.
  - apply (search_hit _ _ _ _ idx
             {| CodeSearchEngine.entry_results := res;
                CodeSearchEngine.entry_search_time :=
                  (end_time clk1 - start_time clk1) * 1000 |});
      [exact Hi|].
    cbn [CodeSearchEngine.cache CodeSearchEngine.set_metrics
         CodeSearchEngine.set_cache].
    apply get_after_put. rewrite get_capacity.
    rewrite (reachable_capacity e Hreach). lia.
Qed.

Lemma demo_engine_reachable :
  @CodeSearchEngine.reachable Demo.externals Demo.engine.
Proof.
  unfold Demo.engine. apply CodeSearchEngine.reachable_build_search_index.
  apply CodeSearchEngine.reachable_index_repository.
  apply CodeSearchEngine.reachable_new.
Qed.

(** The second of two equal searches on the demonstration engine. *)
Lemma search_again_is_served_from_cache_witness :
  exists e2,
    @CodeSearchEngine.search Demo.externals
      {| start_time := 7; end_time := 9; now_iso := "later" |} "query" 2
      (fst (@CodeSearchEngine.search Demo.externals Demo.clock "query" 2
              Demo.engine))
    = (e2, Py.Returned
             {| CodeSearchEngine.results :=
                  [CodeSearchEngine.format_result
                     (CodeSearchEngine.mkSnippet
                        "repo/a.py" "repo" "def f(): pass" 1 1) 0;
                   CodeSearchEngine.format_result
                     (CodeSearchEngine.mkSnippet
                        "repo/b.py" "repo" "def f(): pass" 1 1) 1];
                CodeSearchEngine.search_time_ms :=
                  (end_time Demo.clock - start_time Demo.clock) * 1000;
                CodeSearchEngine.from_cache := true |}).
Proof.
  exact (@search_again_is_served_from_cache Demo.externals Demo.clock
           {| start_time := 7; end_time := 9; now_iso := "later" |}
           Demo.engine _ "query" 2 _
           demo_engine_reachable
           ltac:(discriminate) eq_refl).
Defined.

(** C1, as stated, fails: on an engine with no index the second of two
    equal searches is not reported as served from the cache. *)
Lemma search_again_without_index_counterexample :
  ~ (forall e1 r1 e2 r2,
       @CodeSearchEngine.search Demo.externals Demo.clock "query" 1
         (@CodeSearchEngine.new Demo.externals) = (e1, Py.Returned r1) ->
       @CodeSearchEngine.search Demo.externals Demo.clock "query" 1 e1
         = (e2, Py.Returned r2) ->
       CodeSearchEngine.results r2 = CodeSearchEngine.results r1
       /\ CodeSearchEngine.from_cache r2 = true
       /\ CodeSearchEngine.search_time_ms r2
          = CodeSearchEngine.search_time_ms r1).
Proof.
  intros Hclaim.
  destruct (Hclaim _ _ _ _ eq_refl eq_refl) as [_ [Hcached _]].
  discriminate Hcached.
Qed.

(** C3, as the code has it.  A [search] that returns on an engine whose
    vector index has been built has called [record_query] exactly once, on a
    cache hit as on a cache miss: the tracker after the call is the tracker
    before it with the one query recorded, and [total_queries] has grown by
    one.  On an engine with no index [search] returns the empty result and
    leaves the engine, its tracker included, as it was. *)
Theorem search_records_the_query_once
  `{Externals} (clk : Clock) (e e1 : CodeSearchEngine.t)
  (query : string) (top_k : Z) (r1 : CodeSearchEngine.Found) :
  (CodeSearchEngine.faiss_index e <> None ->
   CodeSearchEngine.search clk query top_k e = (e1, Py.Returned r1) ->
   CodeSearchEngine.metrics e1
   = MetricsTracker.record_query (CodeSearchEngine.metrics e) query
       (CodeSearchEngine.search_time_ms r1) (CodeSearchEngine.from_cache r1)
       (now_iso clk)
   /\ MetricsTracker.total_queries (CodeSearchEngine.metrics e1)
      = MetricsTracker.total_queries (CodeSearchEngine.metrics e) + 1)
  /\ (CodeSearchEngine.faiss_index e = None ->
      CodeSearchEngine.search clk query top_k e
      = (e, Py.Returned {| CodeSearchEngine.results := [];
                           CodeSearchEngine.search_time_ms := 0;
                           CodeSearchEngine.from_cache := false |})).
Proof.
  split.
  - intros Hidx Hs.
    destruct (CodeSearchEngine.faiss_index e) as [idx|] eqn:Hi; [|congruence].
    destruct (search_returned_inv _ _ _ _ _ _ _ Hi Hs)
      as [[entry [_ [-> ->]]] | [found [res [_ [_ [_ [-> ->]]]]]]];
      split; reflexivity.
  - intros Hnone. unfold CodeSearchEngine.search. now rewrite Hnone.
Qed.

(** One search on the demonstration engine records one query, and one on a
    fresh engine changes nothing. *)
Lemma search_records_the_query_once_witness :
  MetricsTracker.total_queries
    (CodeSearchEngine.metrics
       (fst (@CodeSearchEngine.search Demo.externals Demo.clock "query" 2
               Demo.engine)))
  = MetricsTracker.total_queries (CodeSearchEngine.metrics Demo.engine) + 1
  /\ fst (@CodeSearchEngine.search Demo.externals Demo.clock "query" 2
            (@CodeSearchEngine.new Demo.externals))
     = @CodeSearchEngine.new Demo.externals.
Proof.
  split.
  - exact (proj2 (proj1 (@search_records_the_query_once Demo.externals
                           Demo.clock Demo.engine _ "query" 2 _)
                    ltac:(discriminate) eq_refl)).
  - rewrite (proj2 (@search_records_the_query_once Demo.externals
                      Demo.clock (@CodeSearchEngine.new Demo.externals)
                      (@CodeSearchEngine.new Demo.externals) "query" 2
                      (CodeSearchEngine.mkFound [] 0 false))
               eq_refl).
    reflexivity.
Defined.

(** C3, as stated, fails: a [search] on an engine with no index returns
    without recording the query. *)
Lemma search_without_index_records_nothing_counterexample :
  ~ (forall e1 r1,
       @CodeSearchEngine.search Demo.externals Demo.clock "query" 1
         (@CodeSearchEngine.new Demo.externals) = (e1, Py.Returned r1) ->
       MetricsTracker.total_queries (CodeSearchEngine.metrics e1)
       = MetricsTracker.total_queries
           (CodeSearchEngine.metrics (@CodeSearchEngine.new Demo.externals))
         + 1).
Proof.
  intros Hclaim. specialize (Hclaim _ _ eq_refl). discriminate Hclaim.
Qed.

(** * Positions returned by the vector index *)

Section FormatFacts.

Import CodeSearchEngine.

(** A position at or beyond the end of the store is passed over. *)
Lemma format_results_skips_beyond (snippets : list Snippet) (idx : Z)
      (distance : Q) (rest : list (Z * Q)) :
  Py.len snippets <= idx ->
  format_results snippets ((idx, distance) :: rest)
  = format_results snippets rest.
Proof.
  intros Hge. simpl. destruct (Z.ltb_spec idx (Py.len snippets)); [lia|].
  reflexivity.
Qed.

(** Position -1 is read as the last snippet of a store that is not
    empty. *)
Lemma format_results_minus_one (snippets : list Snippet) (s : Snippet)
      (distance : Q) :
  format_results (snippets ++ [s]) [(-1, distance)]
  = Py.Returned [format_result s distance].
Proof.
  unfold format_results, Py.getitem, Py.len. rewrite length_app.
  simpl List.length.
  destruct (Z.ltb_spec (-1) (Z.of_nat (List.length snippets + 1))); [|lia].
  destruct (Z.ltb_spec (-1) 0); [|lia].
  destruct (Z.ltb_spec (Z.of_nat (List.length snippets + 1) + -1) 0); [lia|].
  replace (Z.to_nat (Z.of_nat (List.length snippets + 1) + -1))
    with (List.length snippets) by lia.
  rewrite nth_error_app2 by lia. rewrite Nat.sub_diag. reflexivity.
Qed.




End FormatFacts.

(** C2 on the code: the bound test of [search] lets position -1 through.
    With two snippets in the store and [top_k = 3] the vector index pads its
    answer with position -1, which is not a position of the store, and
    [search] returns three results, the third a second copy of the last
    snippet. *)
Theorem search_formats_padding_position :
  Reference.in_bounds
    (Py.len (CodeSearchEngine.code_snippets Demo.engine))
    [(0, 0%Q); (1, 1%Q); Demo.padding]
  = [(0, 0%Q); (1, 1%Q)]
  /\ @nearest Demo.externals [(0, 0%Q); (1, 1%Q)] "query" 3
     = Py.Returned [(0, 0%Q); (1, 1%Q); Demo.padding]
  /\ exists e1 r1,
       @CodeSearchEngine.search Demo.externals Demo.clock "query" 3 Demo.engine
       = (e1, Py.Returned r1)
       /\ map CodeSearchEngine.res_file (CodeSearchEngine.results r1)
          = ["repo/a.py"; "repo/b.py"; "repo/b.py"].
Proof.
  split; [reflexivity|]. split; [reflexivity|].
  set (out := @CodeSearchEngine.search Demo.externals Demo.clock "query" 3
                Demo.engine).
  vm_compute in out. subst out.
  eexists. eexists. split; reflexivity.
Qed.



(** * Persistence *)

Section PersistenceFacts.

Import CodeSearchEngine.

Context `{Externals}.

Lemma snippet_json_round_trip (s : Snippet) :
  snippet_of_json (snippet_to_json s) = Py.Returned s.
Proof. destruct s. reflexivity. Qed.

Lemma snippets_json_round_trip (l : list Snippet) :
  snippets_of_json (map snippet_to_json l) = Py.Returned l.
Proof.
  induction l as [|s l IH]; [reflexivity|].
  cbn [map snippets_of_json]. rewrite snippet_json_round_trip, IH.
  reflexivity.
Qed.

(** What [save_index] leaves on the disk. *)
Lemma save_index_written (e : t) (d : Disk) (idx : FaissIndex) :
  faiss_index e = Some idx ->
  save_index e d
  = ({| code_index := Some (write_index idx);
        metadata_json := Some (json_dump (metadata e)) |},
     Py.Returned tt).
Proof. intros Hidx. unfold save_index. now rewrite Hidx. Qed.

End PersistenceFacts.

(** C9.  Provided the JSON codec and the serialisation of the vector index
    read back what they wrote, [save_index] on an engine with a built index
    followed by [load_index] into a fresh engine succeeds and reproduces
    the sequence of code snippets with all their fields and the three
    aggregate counts. *)
Theorem save_then_load_round_trip
  `{Externals} (e : CodeSearchEngine.t) (d : CodeSearchEngine.Disk) :
  (forall j, json_load (json_dump j) = Py.Returned j) ->
  (forall idx, exists idx', read_index (write_index idx) = Py.Returned idx') ->
  CodeSearchEngine.faiss_index e <> None ->
  exists d' e',
    CodeSearchEngine.save_index e d = (d', Py.Returned tt)
    /\ CodeSearchEngine.load_index d' CodeSearchEngine.new
       = (e', Py.Returned true)
    /\ CodeSearchEngine.code_snippets e' = CodeSearchEngine.code_snippets e
    /\ CodeSearchEngine.total_files_indexed e'
       = CodeSearchEngine.total_files_indexed e
    /\ CodeSearchEngine.total_lines_indexed e'
       = CodeSearchEngine.total_lines_indexed e
    /\ CodeSearchEngine.total_repositories e'
       = CodeSearchEngine.total_repositories e.
Proof.
  intros Hjson Hfaiss Hidx.
  destruct (CodeSearchEngine.faiss_index e) as [idx|] eqn:Hi; [|congruence].
  destruct (Hfaiss idx) as [idx' Hread].
  eexists. eexists. split; [exact (save_index_written e d idx Hi)|].
  unfold CodeSearchEngine.load_index.
  cbn [CodeSearchEngine.code_index CodeSearchEngine.metadata_json].
  unfold Py.bindM, Py.lift, Py.modify, Py.ret.
  rewrite Hread, Hjson.
  cbn [CodeSearchEngine.metadata json_getitem find fst snd String.eqb
       Ascii.eqb Bool.eqb Py.bind CodeSearchEngine.as_snippets
       CodeSearchEngine.as_int].
  rewrite snippets_json_round_trip.
  repeat split.
Qed.

(** Saving the demonstration engine and loading it into a fresh one. *)
Lemma save_then_load_round_trip_witness :
  exists d' e',
    @CodeSearchEngine.save_index Demo.externals Demo.engine Demo.empty_disk
    = (d', Py.Returned tt)
    /\ @CodeSearchEngine.load_index Demo.externals d'
         (@CodeSearchEngine.new Demo.externals)
       = (e', Py.Returned true)
    /\ CodeSearchEngine.code_snippets e'
       = CodeSearchEngine.code_snippets Demo.engine
    /\ CodeSearchEngine.total_files_indexed e'
       = CodeSearchEngine.total_files_indexed Demo.engine
    /\ CodeSearchEngine.total_lines_indexed e'
       = CodeSearchEngine.total_lines_indexed Demo.engine
    /\ CodeSearchEngine.total_repositories e'
       = CodeSearchEngine.total_repositories Demo.engine.
Proof.
  apply (@save_then_load_round_trip Demo.externals Demo.engine Demo.empty_disk).
  - intros j. reflexivity.
  - intros idx. exists idx. reflexivity.
  - discriminate.
Defined.

(** * Further properties of the LRU cache *)

Section LRUCounters.

Import LRUCache.

Context {V : Type}.
Implicit Types (d : odict V) (c : t V) (k : string) (v : V)
         (ops : list (op V)).

Lemma gets_in_snoc ops (o : op V) :
  LRUCacheStats.gets_in (ops ++ [o])
  = LRUCacheStats.gets_in ops
    + match o with Get _ => 1 | Put _ _ => 0 end.
Proof.
  unfold LRUCacheStats.gets_in, Py.len. rewrite filter_app, length_app.
  destruct o; simpl; lia.
Qed.

Lemma get_counters c k :
  (hits (fst (get c k)) = hits c + 1 /\ misses (fst (get c k)) = misses c
   /\ contains (cache c) k = true)
  \/ (hits (fst (get c k)) = hits c /\ misses (fst (get c k)) = misses c + 1
      /\ contains (cache c) k = false).
Proof.
  unfold get. destruct (contains (cache c) k); simpl; [left | right]; auto.
Qed.

(** The counters of a cache that started empty count its [get] calls. *)
Lemma run_counters (C : Z) ops :
  0 <= hits (run (new C) ops)
  /\ 0 <= misses (run (new C) ops)
  /\ hits (run (new C) ops) + misses (run (new C) ops)
     = LRUCacheStats.gets_in ops.
Proof.
  induction ops as [|o ops IH] using rev_ind.
  - simpl. unfold LRUCacheStats.gets_in, Py.len. simpl. lia.
  - rewrite run_snoc, gets_in_snoc. destruct o as [k|k v]; cbn [step].
    + destruct (get_counters (run (new C) ops) k) as [[Hh [Hm _]]|[Hh [Hm _]]];
        rewrite Hh, Hm; lia.
    + change (hits (put (run (new C) ops) k v)) with (hits (run (new C) ops)).
      change (misses (put (run (new C) ops) k v))
        with (misses (run (new C) ops)).
      lia.
Qed.

(** A cache whose capacity is not positive never holds an entry. *)
Lemma run_without_room (C : Z) ops :
  C <= 0 -> cache (run (new C) ops) = [].
Proof.
  intros HC. induction ops as [|o ops IH] using rev_ind; [reflexivity|].
  rewrite run_snoc. destruct o as [k|k v]; cbn [step].
  - destruct (get_cache_miss (run (new C) ops) k) as [_ Hc].
    + rewrite IH. reflexivity.
    + now rewrite Hc.
  - rewrite put_cache, IH, run_capacity. simpl.
    destruct (Z.gtb_spec (Py.len [(k, v)]) C) as [_|Hle]; [reflexivity|].
    unfold Py.len in Hle. simpl in Hle. lia.
Qed.

Lemma sorted_nodup (R : string -> string -> Prop) (l : list string) :
  (forall x, ~ R x x) -> StronglySorted R l -> NoDup l.
Proof.
  intros Hirr. induction 1 as [|a l Hs IH Hall]; constructor; [|exact IH].
  intros Hin. rewrite Forall_forall in Hall. exact (Hirr a (Hall a Hin)).
Qed.

(** The keys of a cache that started empty are distinct. *)
Lemma run_nodup (C : Z) ops : NoDup (keys (cache (run (new C) ops))).
Proof.
  apply sorted_nodup
    with (R := fun a b => (last_use ops a < last_use ops b)%nat).
  - intros x. lia.
  - apply run_sorted.
Qed.

Lemma length_remove_present d k :
  NoDup (keys d) -> contains d k = true ->
  S (List.length (remove d k)) = List.length d.
Proof.
  unfold keys, contains, remove.
  induction d as [|[k0 w] d IH]; simpl; [discriminate|].
  intros Hnd Hin. inversion Hnd as [|? ? Hfresh Hnd']; subst.
  destruct (String.eqb_spec k0 k) as [->|Hne]; simpl.
  - f_equal. fold (remove d k). fold (remove d k) in IH.
    rewrite (remove_absent d k); [reflexivity|].
    now apply contains_false_keys.
  - f_equal. now apply IH.
Qed.

End LRUCounters.

Section RoundingFacts.

Lemma round_half_even_bounds (a b : Z) (q : Q) :
  (inject_Z a <= q)%Q -> (q <= inject_Z b)%Q ->
  a <= Py.round_half_even q <= b.
Proof.
  intros Ha Hb. unfold Py.round_half_even.
  pose proof (Qfloor_le q) as Hfl. pose proof (Qlt_floor q) as Hfu.
  assert (Han : a <= Qfloor q).
  { rewrite <- (Qfloor_Z a). now apply Qfloor_resp_le. }
  assert (Hnb : Qfloor q <= b).
  { rewrite <- (Qfloor_Z b). now apply Qfloor_resp_le. }
  destruct (Z.eq_dec (Qfloor q) b) as [Heq|Hne].
  - assert (Hlt : (q - inject_Z (Qfloor q) < 1 # 2)%Q).
    { rewrite Heq. lra. }
    destruct (q - inject_Z (Qfloor q) ?= 1 # 2)%Q eqn:Hc; [| lia |].
    + apply Qeq_alt in Hc. lra.
    + apply Qgt_alt in Hc. lra.
  - destruct (q - inject_Z (Qfloor q) ?= 1 # 2)%Q;
      [destruct (Z.even (Qfloor q))| |]; lia.
Qed.

Lemma round2_bounds (a b : Z) (q : Q) :
  (inject_Z a <= q)%Q -> (q <= inject_Z b)%Q ->
  (inject_Z a <= Py.round2 q /\ Py.round2 q <= inject_Z b)%Q.
Proof.
  intros Ha Hb. unfold Py.round2.
  destruct (round_half_even_bounds (a * 100) (b * 100) (q * 100)) as [Hl Hu].
  - rewrite inject_Z_mult. change (inject_Z 100) with 100%Q. lra.
  - rewrite inject_Z_mult. change (inject_Z 100) with 100%Q. lra.
  - unfold Qle, inject_Z. simpl. lia.
Qed.

(** A ratio of counters, as a percentage. *)
Lemma percentage_bounds (part total : Z) :
  0 <= part <= total -> 0 < total ->
  (inject_Z 0 <= inject_Z part / inject_Z total * 100
   /\ inject_Z part / inject_Z total * 100 <= inject_Z 100)%Q.
Proof.
  intros [Hp Hpt] Ht.
  assert (Htq : (0 < inject_Z total)%Q)
    by (unfold Qlt, inject_Z; simpl; lia).
  assert (Hpq : (0 <= inject_Z part)%Q)
    by (unfold Qle, inject_Z; simpl; lia).
  assert (Hle : (inject_Z part <= inject_Z total)%Q)
    by (unfold Qle, inject_Z; simpl; lia).
  assert (Hr0 : (0 <= inject_Z part / inject_Z total)%Q).
  { apply Qle_shift_div_l; [exact Htq|]. lra. }
  assert (Hr1 : (inject_Z part / inject_Z total <= 1)%Q).
  { apply Qle_shift_div_r; [exact Htq|]. lra. }
  change (inject_Z 0) with 0%Q. change (inject_Z 100) with 100%Q.
  split; lra.
Qed.

End RoundingFacts.

(** X1.  The hit and miss counters of a cache that started empty count its
    [get] calls: each [get] adds one to exactly one of them and [put] adds
    to neither, so [get_stats] reports as [total_queries] the number of
    [get] calls; the hit rate is a percentage between 0 and 100, and 0 when
    there was no [get]. *)
Theorem lru_stats_count_the_gets
  (V : Type) (C : Z) (ops : list (LRUCache.op V)) :
  let s := LRUCacheStats.get_stats (LRUCache.run (LRUCache.new C) ops) in
  LRUCacheStats.total_queries s = LRUCacheStats.gets_in ops
  /\ LRUCacheStats.hits s + LRUCacheStats.misses s = LRUCacheStats.gets_in ops
  /\ 0 <= LRUCacheStats.hits s
  /\ 0 <= LRUCacheStats.misses s
  /\ (0 <= LRUCacheStats.hit_rate s /\ LRUCacheStats.hit_rate s <= 100)%Q
  /\ (LRUCacheStats.gets_in ops = 0 -> (LRUCacheStats.hit_rate s == 0)%Q).
Proof.
  intros s. destruct (run_counters (V := V) C ops) as [Hh [Hm Hsum]].
  unfold s, LRUCacheStats.get_stats.
  cbn [LRUCacheStats.total_queries LRUCacheStats.hits LRUCacheStats.misses
       LRUCacheStats.hit_rate].
  split; [exact Hsum|]. split; [exact Hsum|]. split; [exact Hh|].
  split; [exact Hm|]. rewrite Hsum. split.
  - destruct (Z.gtb_spec (LRUCacheStats.gets_in ops) 0) as [Hpos|Hzero].
    + apply (round2_bounds 0 100); apply percentage_bounds; lia.
    + split; vm_compute; discriminate.
  - intros Hzero. rewrite Hzero. reflexivity.
Qed.

(** Two hits and one miss: three [get] calls, a hit rate of 66.67. *)
Lemma lru_stats_count_the_gets_witness :
  LRUCacheStats.total_queries
    (LRUCacheStats.get_stats
       (LRUCache.run (LRUCache.new 2)
          [LRUCache.Put "a" 1%nat; LRUCache.Get "a"; LRUCache.Get "b";
           LRUCache.Get "a"])) = 3
  /\ (LRUCacheStats.hit_rate
        (LRUCacheStats.get_stats
           (LRUCache.run (LRUCache.new 2) [LRUCache.Put "a" 1%nat])) == 0)%Q.
Proof.
  split.
  - exact (proj1 (lru_stats_count_the_gets nat 2
                    [LRUCache.Put "a" 1%nat; LRUCache.Get "a";
                     LRUCache.Get "b"; LRUCache.Get "a"])).
  - apply (lru_stats_count_the_gets nat 2 [LRUCache.Put "a" 1%nat]).
    reflexivity.
Defined.

(** X2.  What [put] stores, [get] returns: on a cache of capacity at least
    one, a [get] right after [put(k, v)] finds [v], whatever the cache held
    before.  A cache created with a capacity of zero or less stores
    nothing: it is empty after every operation and every [get] misses. *)
Theorem lru_put_then_get
  (V : Type) (c : LRUCache.t V) (C : Z) (ops : list (LRUCache.op V))
  (k : string) (v : V) :
  (1 <= LRUCache.capacity c ->
   snd (LRUCache.get (LRUCache.put c k v) k) = Some v)
  /\ (C <= 0 ->
      LRUCache.cache (LRUCache.run (LRUCache.new C) ops) = []
      /\ snd (LRUCache.get (LRUCache.run (LRUCache.new C) ops) k) = None).
Proof.
  split; [apply get_after_put|].
  intros HC. pose proof (run_without_room (V := V) C ops HC) as Hempty.
  split; [exact Hempty|]. rewrite get_value, Hempty. reflexivity.
Qed.

(** A value overwritten on a full cache of one entry, and a cache of
    capacity zero. *)
Lemma lru_put_then_get_witness :
  snd (LRUCache.get
         (LRUCache.put
            (LRUCache.run (LRUCache.new 1) [LRUCache.Put "a" 1%nat])
            "a" 2%nat) "a") = Some 2%nat
  /\ snd (LRUCache.get
            (LRUCache.run (LRUCache.new 0) [LRUCache.Put "a" 1%nat]) "a")
     = None.
Proof.
  destruct (lru_put_then_get nat
              (LRUCache.run (LRUCache.new 1) [LRUCache.Put "a" 1%nat])
              0 [LRUCache.Put "a" 1%nat] "a" 2%nat) as [Hfound Hnone].
  split.
  - apply Hfound. simpl. lia.
  - apply Hnone. lia.
Defined.

(** X3.  The keys of a cache that started empty are distinct, and a [put]
    on a resident key replaces its value in place: the entry moves to the
    most recent position, every other entry keeps its value, the number of
    entries is unchanged and nothing is evicted. *)
Theorem lru_put_on_resident_key
  (V : Type) (C : Z) (ops : list (LRUCache.op V)) (k : string) (v : V) :
  let c := LRUCache.run (LRUCache.new C) ops in
  NoDup (LRUCache.keys (LRUCache.cache c))
  /\ (LRUCache.contains (LRUCache.cache c) k = true ->
      LRUCache.cache (LRUCache.put c k v)
      = LRUCache.remove (LRUCache.cache c) k ++ [(k, v)]
      /\ Py.len (LRUCache.cache (LRUCache.put c k v))
         = Py.len (LRUCache.cache c)
      /\ forall k', k' <> k ->
           LRUCache.lookup (LRUCache.cache (LRUCache.put c k v)) k'
           = LRUCache.lookup (LRUCache.cache c) k').
Proof.
  intros c. pose proof (run_nodup (V := V) C ops) as Hnd. fold c in Hnd.
  split; [exact Hnd|]. intros Hin.
  pose proof (length_remove_present _ _ Hnd Hin) as Hlen.
  assert (HC : 0 <= C).
  { destruct (Z.le_gt_cases 0 C) as [|Hneg]; [assumption|].
    pose proof (run_without_room (V := V) C ops ltac:(lia)) as Hempty.
    fold c in Hempty. rewrite Hempty in Hin. discriminate. }
  pose proof (run_within_capacity (V := V) C ops HC) as Hroom. fold c in Hroom.
  assert (Hcap : LRUCache.capacity c = C)
    by (unfold c; now rewrite run_capacity).
  assert (Hkeep : LRUCache.cache (LRUCache.put c k v)
                  = LRUCache.remove (LRUCache.cache c) k ++ [(k, v)]).
  { rewrite put_cache, Hcap.
    destruct (Z.gtb_spec
                (Py.len (LRUCache.remove (LRUCache.cache c) k ++ [(k, v)])) C)
      as [Hgt|_]; [|reflexivity].
    unfold Py.len in *. rewrite length_app in Hgt. simpl in Hgt. lia. }
  rewrite Hkeep. split; [reflexivity|]. split.
  - unfold Py.len. rewrite length_app. simpl. lia.
  - intros k' Hne. rewrite lookup_app, lookup_remove_other by assumption.
    destruct (LRUCache.lookup (LRUCache.cache c) k'); [reflexivity|].
    simpl. destruct (String.eqb_spec k k'); [congruence | reflexivity].
Qed.

(** Overwriting the older of two entries of a full cache. *)
Lemma lru_put_on_resident_key_witness :
  LRUCache.cache
    (LRUCache.put
       (LRUCache.run (LRUCache.new 2)
          [LRUCache.Put "a" 1%nat; LRUCache.Put "b" 2%nat]) "a" 3%nat)
  = LRUCache.remove [("a", 1%nat); ("b", 2%nat)] "a" ++ [("a", 3%nat)].
Proof.
  exact (proj1 (proj2 (lru_put_on_resident_key nat 2
                         [LRUCache.Put "a" 1%nat; LRUCache.Put "b" 2%nat]
                         "a" 3%nat) eq_refl)).
Defined.

(** * Further properties of the metrics tracker *)

Section MetricsBuckets.

Lemma round_half_even_monotone (x y : Q) :
  (x <= y)%Q -> Py.round_half_even x <= Py.round_half_even y.
Proof.
  intros Hxy. unfold Py.round_half_even.
  pose proof (Qfloor_resp_le x y Hxy) as Hfl.
  destruct (Z.eq_dec (Qfloor x) (Qfloor y)) as [Heq|Hne].
  - rewrite Heq.
    assert (Hfrac : (x - inject_Z (Qfloor y) <= y - inject_Z (Qfloor y))%Q)
      by lra.
    destruct (x - inject_Z (Qfloor y) ?= 1 # 2)%Q eqn:Hx;
      destruct (y - inject_Z (Qfloor y) ?= 1 # 2)%Q eqn:Hy;
      try (destruct (Z.even (Qfloor y)); lia); try lia; exfalso.
    + apply Qeq_alt in Hx. apply Qlt_alt in Hy. lra.
    + apply Qgt_alt in Hx. apply Qeq_alt in Hy. lra.
    + apply Qgt_alt in Hx. apply Qlt_alt in Hy. lra.
  - destruct (x - inject_Z (Qfloor x) ?= 1 # 2)%Q;
      destruct (y - inject_Z (Qfloor y) ?= 1 # 2)%Q;
      try destruct (Z.even (Qfloor x)); try destruct (Z.even (Qfloor y)); lia.
Qed.

Lemma round2_monotone (x y : Q) :
  (x <= y)%Q -> (Py.round2 x <= Py.round2 y)%Q.
Proof.
  intros Hxy. unfold Py.round2.
  assert (H100 : (x * 100 <= y * 100)%Q) by lra.
  pose proof (round_half_even_monotone _ _ H100).
  unfold Qle. simpl. lia.
Qed.

Lemma count_under_nested (a b : Q) (ts : list Q) :
  (a <= b)%Q ->
  0 <= Reference.count_under a ts
  /\ Reference.count_under a ts <= Reference.count_under b ts
  /\ Reference.count_under b ts <= Py.len ts.
Proof.
  intros Hab. unfold Reference.count_under, Py.len.
  induction ts as [|t ts IH]; simpl; [lia|].
  destruct (Qlt_le_dec t a) as [Hta|Hta]; destruct (Qlt_le_dec t b) as [Htb|Htb];
    simpl; try lia.
  exfalso. lra.
Qed.

Lemma percentage_monotone (a b total : Z) :
  a <= b -> 0 < total ->
  (inject_Z a / inject_Z total * 100 <= inject_Z b / inject_Z total * 100)%Q.
Proof.
  intros Hab Ht.
  assert (Htq : (0 < inject_Z total)%Q)
    by (unfold Qlt, inject_Z; simpl; lia).
  assert (Hle : (inject_Z a <= inject_Z b)%Q)
    by (unfold Qle, inject_Z; simpl; lia).
  apply Qmult_le_compat_r; [|discriminate].
  unfold Qdiv. apply Qmult_le_compat_r; [exact Hle|].
  apply Qlt_le_weak, Qinv_lt_0_compat. exact Htq.
Qed.

End MetricsBuckets.

(** X4.  The latency buckets of the tracker are nested: after any run of
    [record_query] calls on a fresh tracker, [queries_under_50ms] is at
    most [queries_under_200ms], which is the number of latencies strictly
    below 200 and at most [total_queries]; [get_stats] reports both rates
    as percentages between 0 and 100, the sub-50ms rate not above the
    sub-200ms rate. *)
Theorem metrics_buckets_are_nested (cs : list MetricsTracker.call) :
  let m := MetricsTracker.record_all MetricsTracker.new cs in
  let s := MetricsTracker.get_stats m in
  0 <= MetricsTracker.stats_queries_under_50ms s
  /\ MetricsTracker.stats_queries_under_50ms s
     <= MetricsTracker.stats_queries_under_200ms s
  /\ MetricsTracker.stats_queries_under_200ms s
     = Reference.count_under 200 (map MetricsTracker.call_time_ms cs)
  /\ MetricsTracker.stats_queries_under_200ms s
     <= MetricsTracker.stats_total_queries s
  /\ (0 <= MetricsTracker.sub_50ms_rate s
      /\ MetricsTracker.sub_50ms_rate s <= MetricsTracker.sub_200ms_rate s
      /\ MetricsTracker.sub_200ms_rate s <= 100)%Q.
Proof.
  intros m s.
  destruct (record_all_counters cs) as [Hq [_ [H50 H200]]].
  fold m in Hq, H50, H200.
  destruct (count_under_nested 50 200 (map MetricsTracker.call_time_ms cs))
    as [H0 [Hnest Hall]]; [discriminate|].
  assert (Hlen : Py.len (map MetricsTracker.call_time_ms cs) = Py.len cs)
    by (unfold Py.len; now rewrite length_map).
  unfold s, MetricsTracker.get_stats.
  cbn [MetricsTracker.stats_queries_under_50ms
       MetricsTracker.stats_queries_under_200ms
       MetricsTracker.stats_total_queries
       MetricsTracker.sub_50ms_rate MetricsTracker.sub_200ms_rate].
  rewrite Hq, H50, H200.
  split; [exact H0|]. split; [exact Hnest|]. split; [reflexivity|].
  split; [lia|].
  destruct (Z.gtb_spec (Py.len cs) 0) as [Hpos|Hzero].
  - split; [|split].
    + apply (round2_bounds 0 100); apply percentage_bounds; lia.
    + apply round2_monotone, percentage_monotone; lia.
    + apply (round2_bounds 0 100); apply percentage_bounds; lia.
  - repeat split; vm_compute; discriminate.
Qed.

(** * Further properties of the chunking *)

Section SplitJoinFacts.

Lemma split_newline_cons (s : string) :
  exists h t, Py.split_newline s = h :: t.
Proof.
  induction s as [|c r [h [t IH]]]; simpl; [now exists "", []|].
  destruct (Ascii.eqb c Py.newline); [now exists "", (Py.split_newline r)|].
  rewrite IH. now exists (String c h), t.
Qed.

(** Splitting at newlines and joining with newlines gives the text back. *)
Lemma join_split_newline (s : string) :
  Py.join_newline (Py.split_newline s) = s.
Proof.
  induction s as [|c r IH]; [reflexivity|]. simpl.
  destruct (split_newline_cons r) as [h [t Hr]]. rewrite Hr in *.
  destruct (Ascii.eqb_spec c Py.newline) as [->|Hc].
  - change (Py.join_newline ("" :: h :: t))
      with (String Py.newline (Py.join_newline (h :: t))).
    now rewrite IH.
  - destruct t as [|h' t]; simpl in *; now rewrite IH.
Qed.

(** The pieces of a split hold no newline. *)
Lemma split_newline_one_line (s : string) :
  Forall (fun l => Walk.one_line l = true) (Py.split_newline s).
Proof.
  induction s as [|c r IH]; simpl; [repeat constructor|].
  destruct (Ascii.eqb c Py.newline) eqn:Hc; [now constructor|].
  destruct (split_newline_cons r) as [h [t Hr]]. rewrite Hr in *.
  inversion IH as [|? ? Hh Ht]; subst. constructor; [|exact Ht].
  unfold Walk.one_line in *. simpl. now rewrite Hc, Hh.
Qed.

Lemma split_newline_first (x rest : string) :
  Walk.one_line x = true ->
  Py.split_newline (x ++ String Py.newline rest)
  = x :: Py.split_newline rest.
Proof.
  unfold Walk.one_line. induction x as [|c x IH]; simpl; intros Hx.
  - reflexivity.
  - apply andb_true_iff in Hx. destruct Hx as [Hc Hx].
    apply negb_true_iff in Hc. rewrite Hc, (IH Hx). reflexivity.
Qed.

Lemma split_newline_single (x : string) :
  Walk.one_line x = true -> Py.split_newline x = [x].
Proof.
  unfold Walk.one_line. induction x as [|c x IH]; simpl; intros Hx;
    [reflexivity|].
  apply andb_true_iff in Hx. destruct Hx as [Hc Hx].
  apply negb_true_iff in Hc. rewrite Hc, (IH Hx). reflexivity.
Qed.

(** Joining lines and splitting again gives the lines back. *)
Lemma split_join_newline (ls : list string) :
  ls <> [] -> Forall (fun l => Walk.one_line l = true) ls ->
  Py.split_newline (Py.join_newline ls) = ls.
Proof.
  induction ls as [|x ls IH]; [congruence|]. intros _ Hall.
  inversion Hall as [|? ? Hx Hls]; subst.
  destruct ls as [|y ls]; [now apply split_newline_single|].
  change (Py.join_newline (x :: y :: ls))
    with (x ++ String Py.newline (Py.join_newline (y :: ls)))%string.
  rewrite (split_newline_first _ _ Hx), IH; [reflexivity|discriminate|exact Hls].
Qed.

Lemma string_append_assoc (a b c : string) :
  ((a ++ b) ++ c = a ++ (b ++ c))%string.
Proof. induction a as [|x a IH]; simpl; [reflexivity | now rewrite IH]. Qed.

Lemma join_newline_app (a b : list string) :
  a <> [] -> b <> [] ->
  Py.join_newline (a ++ b)
  = (Py.join_newline a ++ String Py.newline (Py.join_newline b))%string.
Proof.
  intros Ha Hb. induction a as [|x a IH]; [congruence|].
  destruct a as [|y a].
  - destruct b as [|z b]; [congruence|]. reflexivity.
  - change (Py.join_newline ((x :: y :: a) ++ b))
      with (x ++ String Py.newline
                   (Py.join_newline ((y :: a) ++ b)))%string.
    rewrite IH by discriminate.
    change (Py.join_newline (x :: y :: a))
      with (x ++ String Py.newline (Py.join_newline (y :: a)))%string.
    rewrite string_append_assoc. reflexivity.
Qed.

Lemma join_newline_concat (chunks : list (list string)) :
  Forall (fun c => c <> []) chunks ->
  Py.join_newline (map Py.join_newline chunks)
  = Py.join_newline (List.concat chunks).
Proof.
  induction 1 as [|c cs Hc Hcs IH]; [reflexivity|].
  destruct cs as [|c' cs].
  - simpl. now rewrite app_nil_r.
  - change (Py.join_newline (map Py.join_newline (c :: c' :: cs)))
      with (Py.join_newline c
            ++ String Py.newline
                 (Py.join_newline (map Py.join_newline (c' :: cs))))%string.
    rewrite IH.
    change (List.concat (c :: c' :: cs)) with (c ++ List.concat (c' :: cs)).
    rewrite join_newline_app; [reflexivity| |].
    + exact Hc.
    + inversion Hcs; subst. destruct c'; [congruence | discriminate].
Qed.

End SplitJoinFacts.

Section ChunkRangeFacts.

Lemma slice_chunk (A : Type) (l : list A) (i : nat) :
  Py.slice l i (i + CodeSearchEngine.chunk_size)
  = firstn 50 (skipn i l).
Proof.
  unfold Py.slice, CodeSearchEngine.chunk_size. f_equal. lia.
Qed.

(** The values of [range(0, n, 50)] are the multiples of 50 below [n]. *)
Lemma range_chunks (n : nat) :
  Py.range 0 n CodeSearchEngine.chunk_size
  = map (fun j => j * 50)%nat (seq 0 ((n + 49) / 50)).
Proof.
  unfold Py.range, CodeSearchEngine.chunk_size.
  replace (n - 0 + (50 - 1))%nat with (n + 49)%nat by lia.
  apply map_ext. intros j. lia.
Qed.

Lemma chunk_count_bounds (n : nat) :
  (n <= 50 * ((n + 49) / 50) /\ 50 * ((n + 49) / 50) <= n + 49)%nat.
Proof.
  pose proof (Nat.div_mod_eq (n + 49) 50) as Hdm.
  pose proof (Nat.mod_upper_bound (n + 49) 50 ltac:(lia)) as Hm.
  lia.
Qed.

Lemma in_range_chunks (n i : nat) :
  In i (Py.range 0 n CodeSearchEngine.chunk_size) ->
  exists j, (i = j * 50 /\ i < n)%nat.
Proof.
  rewrite range_chunks, in_map_iff. intros [j [Hj Hin]].
  apply in_seq in Hin. exists j. split; [now symmetry|].
  pose proof (chunk_count_bounds n). lia.
Qed.

(** The chunks of a list, taken in order, make up the list. *)
Lemma concat_chunks (A : Type) (m : nat) (l : list A) :
  (List.length l <= 50 * m)%nat ->
  List.concat (map (fun j => firstn 50 (skipn (j * 50) l)) (seq 0 m)) = l.
Proof.
  revert l. induction m as [|m IH]; intros l Hlen.
  - destruct l; [reflexivity | simpl in Hlen; lia].
  - cbn [seq map List.concat]. rewrite <- seq_shift, map_map.
    rewrite (map_ext _ (fun j => firstn 50 (skipn (j * 50) (skipn 50 l)))).
    + rewrite IH by (rewrite length_skipn; lia).
      change (0 * 50)%nat with 0%nat. rewrite skipn_0.
      apply firstn_skipn.
    + intros j. rewrite skipn_skipn. do 2 f_equal. lia.
Qed.

Lemma flat_map_map (A B C : Type) (f : B -> list C) (g : A -> B)
      (l : list A) :
  flat_map f (map g l) = flat_map (fun a => f (g a)) l.
Proof. induction l as [|a l IH]; simpl; [reflexivity | now rewrite IH]. Qed.

End ChunkRangeFacts.

Section ChunkShapeFacts.

Import CodeSearchEngine.

Lemma firstn_min_length (A : Type) (a : nat) (l : list A) :
  firstn (Nat.min a (List.length l)) l = firstn a l.
Proof.
  destruct (Nat.le_ge_cases a (List.length l)) as [Hle|Hge].
  - now rewrite Nat.min_l.
  - rewrite Nat.min_r by assumption.
    now rewrite firstn_all, firstn_all2.
Qed.

(** The two outcomes of one round of the chunk loop. *)
Lemma chunk_at_cases (file_name repo_name : string) (lines : list string)
      (i : nat) :
  (Reference.blank
     (Py.join_newline (Py.slice lines i (i + chunk_size))) = true
   /\ chunk_at file_name repo_name lines i = [])
  \/ (Reference.blank
        (Py.join_newline (Py.slice lines i (i + chunk_size))) = false
      /\ chunk_at file_name repo_name lines i
         = [mkSnippet file_name repo_name
              (Py.join_newline (Py.slice lines i (i + chunk_size)))
              (Z.of_nat i + 1)
              (Z.of_nat i + Py.len (Py.slice lines i (i + chunk_size)))]).
Proof.
  destruct (Reference.blank
              (Py.join_newline (Py.slice lines i (i + chunk_size)))) eqn:Hb.
  - left. split; [reflexivity|]. now apply chunk_at_blank.
  - right. split; [reflexivity|]. now apply chunk_at_kept.
Qed.

(** The snippets of the rounds [a, a + m) start after line [50 a] and do
    not overlap. *)
Lemma chunks_increasing (file_name repo_name : string) (lines : list string)
      (m a : nat) :
  StronglySorted (fun s s' => line_end s < line_start s')
    (flat_map (fun j => chunk_at file_name repo_name lines (j * 50))
              (seq a m))
  /\ Forall (fun s => Z.of_nat (a * 50) + 1 <= line_start s)
       (flat_map (fun j => chunk_at file_name repo_name lines (j * 50))
                 (seq a m)).
Proof.
  revert a. induction m as [|m IH]; intros a; [split; constructor|].
  destruct (IH (S a)) as [Hsorted Hafter]. cbn [seq flat_map].
  destruct (chunk_at_cases file_name repo_name lines (a * 50))
    as [[_ ->]|[_ ->]]; cbn [app].
  - split; [exact Hsorted|].
    eapply Forall_impl; [|exact Hafter]. cbn beta. intros s Hs. lia.
  - split; constructor.
    + exact Hsorted.
    + eapply Forall_impl; [|exact Hafter]. cbn beta. intros s Hs.
      cbn [line_end]. unfold Py.len. rewrite slice_length.
      unfold chunk_size. lia.
    + cbn [line_start]. lia.
    + eapply Forall_impl; [|exact Hafter]. cbn beta. intros s Hs. lia.
Qed.

End ChunkShapeFacts.

(** X5.  Every snippet [chunk_file] produces carries the file and
    repository names it was given, starts at a line [50 j + 1], ends at or
    before the last line of the file, spans at most 50 lines, holds as
    content exactly the lines of its range joined by newlines, so that the
    number of lines of its content is [line_end - line_start + 1], and is
    not blank; the snippets come in increasing, non-overlapping line
    ranges. *)
Theorem chunk_snippets_are_well_formed
  (file_name repo_name text : string) (s : CodeSearchEngine.Snippet) :
  let lines := Py.split_newline text in
  StronglySorted
    (fun a b => CodeSearchEngine.line_end a < CodeSearchEngine.line_start b)
    (CodeSearchEngine.chunk_file file_name repo_name text)
  /\ (In s (CodeSearchEngine.chunk_file file_name repo_name text) ->
      CodeSearchEngine.file s = file_name
      /\ CodeSearchEngine.repo s = repo_name
      /\ (exists j, 0 <= j /\ CodeSearchEngine.line_start s = 50 * j + 1)
      /\ CodeSearchEngine.line_start s <= CodeSearchEngine.line_end s
      /\ CodeSearchEngine.line_end s <= Py.len lines
      /\ CodeSearchEngine.line_end s - CodeSearchEngine.line_start s + 1 <= 50
      /\ CodeSearchEngine.content s
         = Py.join_newline
             (Py.slice lines
                (Z.to_nat (CodeSearchEngine.line_start s - 1))
                (Z.to_nat (CodeSearchEngine.line_end s)))
      /\ Py.len (Py.split_newline (CodeSearchEngine.content s))
         = CodeSearchEngine.line_end s - CodeSearchEngine.line_start s + 1
      /\ Reference.blank (CodeSearchEngine.content s) = false).
Proof.
  intros lines. unfold CodeSearchEngine.chunk_file. fold lines.
  rewrite range_chunks, flat_map_map. split.
  - apply (chunks_increasing file_name repo_name lines).
  - intros Hin. apply in_flat_map in Hin. destruct Hin as [j [Hj Hs]].
    apply in_seq in Hj. pose proof (chunk_count_bounds (List.length lines)) as Hm.
    assert (Hi : (j * 50 < List.length lines)%nat) by lia.
    destruct (chunk_at_cases file_name repo_name lines (j * 50))
      as [[_ Hnone]|[Hkept Hone]]; rewrite ?Hnone, ?Hone in Hs;
      [contradiction|].
    destruct Hs as [<-|[]].
    cbn [CodeSearchEngine.file CodeSearchEngine.repo CodeSearchEngine.content
         CodeSearchEngine.line_start CodeSearchEngine.line_end].
    assert (Hlen : List.length
                     (Py.slice lines (j * 50)
                        (j * 50 + CodeSearchEngine.chunk_size))
                   = Nat.min 50 (List.length lines - j * 50)).
    { rewrite slice_length. unfold CodeSearchEngine.chunk_size. f_equal. lia. }
    unfold Py.len. rewrite Hlen.
    split; [reflexivity|]. split; [reflexivity|].
    split; [exists (Z.of_nat j); lia|].
    split; [lia|]. split; [lia|]. split; [lia|]. split; [|split].
    + f_equal. rewrite slice_chunk. unfold Py.slice.
      replace (Z.to_nat (Z.of_nat (j * 50) + 1 - 1)) with (j * 50)%nat by lia.
      replace (Z.to_nat
                 (Z.of_nat (j * 50)
                  + Z.of_nat (Nat.min 50 (List.length lines - j * 50)))
               - j * 50)%nat
        with (Nat.min 50 (List.length (skipn (j * 50) lines)))
        by (rewrite length_skipn; lia).
      now rewrite firstn_min_length.
    + rewrite split_join_newline.
      * rewrite Hlen. lia.
      * intros Hnil. rewrite Hnil in Hlen. cbn [List.length] in Hlen. lia.
      * apply Forall_slice, split_newline_one_line.
    + exact Hkept.
Qed.

(** The second snippet of a file of sixty lines. *)
Lemma chunk_snippets_are_well_formed_witness :
  CodeSearchEngine.line_start
    (CodeSearchEngine.mkSnippet "repo/a.py" "repo"
       (Py.join_newline (repeat "x" 10)) 51 60)
  <= CodeSearchEngine.line_end
       (CodeSearchEngine.mkSnippet "repo/a.py" "repo"
          (Py.join_newline (repeat "x" 10)) 51 60)
  /\ Py.len (Py.split_newline (Py.join_newline (repeat "x" 10)))
     = 60 - 51 + 1.
Proof.
  destruct (proj2 (chunk_snippets_are_well_formed "repo/a.py" "repo"
                     (Py.join_newline (repeat "x" 60))
                     (CodeSearchEngine.mkSnippet "repo/a.py" "repo"
                        (Py.join_newline (repeat "x" 10)) 51 60)))
    as [_ [_ [_ [Horder [_ [_ [_ [Hcount _]]]]]]]].
  - vm_compute. right. left. reflexivity.
  - split; [exact Horder | exact Hcount].
Defined.

(** X6.  Chunking loses no text: when no chunk of a file is blank, joining
    the contents of its snippets with newlines gives back the text of the
    file. *)
Theorem chunk_contents_rebuild_the_file
  (file_name repo_name text : string) :
  let lines := Py.split_newline text in
  (forall i, In i (Py.range 0 (List.length lines) CodeSearchEngine.chunk_size) ->
             Reference.blank
               (Py.join_newline
                  (Py.slice lines i (i + CodeSearchEngine.chunk_size)))
             = false) ->
  Py.join_newline
    (map CodeSearchEngine.content
         (CodeSearchEngine.chunk_file file_name repo_name text))
  = text.
Proof.
  intros lines Hkept.
  assert (Hmap :
            map CodeSearchEngine.content
                (CodeSearchEngine.chunk_file file_name repo_name text)
            = map Py.join_newline
                  (map (fun j => firstn 50 (skipn (j * 50) lines))
                       (seq 0 ((List.length lines + 49) / 50)))).
  { unfold CodeSearchEngine.chunk_file. fold lines.
    rewrite range_chunks in *. rewrite flat_map_map, map_map.
    induction (seq 0 ((List.length lines + 49) / 50)) as [|j js IH];
      [reflexivity|].
    cbn [flat_map map]. rewrite map_app, IH.
    - rewrite chunk_at_kept by (apply Hkept; now left).
      cbn [map app CodeSearchEngine.content]. now rewrite slice_chunk.
    - intros i Hi. apply Hkept. now right. }
  rewrite Hmap, join_newline_concat.
  - rewrite concat_chunks by apply chunk_count_bounds.
    apply join_split_newline.
  - rewrite Forall_forall. intros c Hc. apply in_map_iff in Hc.
    destruct Hc as [j [<- Hj]]. apply in_seq in Hj.
    pose proof (chunk_count_bounds (List.length lines)) as Hm.
    intros Hnil. apply (f_equal (@List.length _)) in Hnil.
    rewrite length_firstn, length_skipn in Hnil. cbn [List.length] in Hnil.
    lia.
Qed.

(** A file of sixty lines [x] is rebuilt from its two snippets. *)
Lemma chunk_contents_rebuild_the_file_witness :
  Py.join_newline
    (map CodeSearchEngine.content
         (CodeSearchEngine.chunk_file "repo/a.py" "repo"
            (Py.join_newline (repeat "x" 60))))
  = Py.join_newline (repeat "x" 60).
Proof.
  apply (chunk_contents_rebuild_the_file "repo/a.py" "repo"
           (Py.join_newline (repeat "x" 60))).
  intros i Hi. vm_compute in Hi.
  destruct Hi as [<-|[<-|[]]]; vm_compute; reflexivity.
Defined.

(** * Properties of indexing, building and loading *)

Section IndexingFacts.

Import CodeSearchEngine.

Context `{Externals}.

(** One round of the walk adds what the path contributes. *)
Lemma index_path_contribution (repo_name : string) (snippets : list Snippet)
      (files lines : Z) (p : Path) :
  index_path repo_name (snippets, files, lines) p
  = (snippets ++ Walk.snippets_of repo_name p,
     files + (if Walk.is_indexed p then 1 else 0),
     lines + Walk.lines_of p).
Proof.
  unfold index_path, Walk.snippets_of, Walk.lines_of, Walk.is_indexed,
    Walk.indexed_text.
  destruct (is_file p && existsb (String.eqb (suffix p)) supported_extensions);
    cbn [andb]; [|now rewrite app_nil_r, !Z.add_0_r].
  destruct (existsb (fun skip => existsb (String.eqb skip) (parts p))
                    skipped_directories);
    cbn [negb]; [now rewrite app_nil_r, !Z.add_0_r|].
  destruct (read p); [reflexivity | now rewrite app_nil_r, !Z.add_0_r].
Qed.

Lemma walk_contribution (repo_name : string) (paths : list Path)
      (snippets : list Snippet) (files lines : Z) :
  fold_left (index_path repo_name) paths (snippets, files, lines)
  = (snippets ++ flat_map (Walk.snippets_of repo_name) paths,
     files + Py.len (filter Walk.is_indexed paths),
     lines + Walk.sum (map Walk.lines_of paths)).
Proof.
  revert snippets files lines.
  induction paths as [|p paths IH]; intros snippets files lines.
  - simpl. unfold Py.len. simpl. now rewrite app_nil_r, !Z.add_0_r.
  - cbn [fold_left]. rewrite index_path_contribution, IH.
    change (Walk.sum (map Walk.lines_of (p :: paths)))
      with (Walk.lines_of p + Walk.sum (map Walk.lines_of paths)).
    cbn [flat_map filter].
    rewrite <- app_assoc. unfold Py.len.
    destruct (Walk.is_indexed p); cbn [List.length];
      (apply f_equal2; [apply f_equal2; [reflexivity | lia] | lia]).
Qed.



Lemma load_index_metrics (d : Disk) (e : t) :
  metrics (fst (load_index d e)) = metrics e.
Proof.
  unfold load_index, Py.bindM, Py.lift, Py.modify, Py.ret, Py.bind.
  repeat match goal with
         | |- context [match ?x with _ => _ end] => destruct x; cbn
         end; reflexivity.
Qed.

End IndexingFacts.

(** X7.  [index_repository] on a path that does not exist changes nothing.
    On an existing repository it counts one more repository, keeps the
    snippets it had and appends, in walk order, the chunks of every regular
    file with a supported extension outside the skipped directories that
    can be read; it adds the number of those files to
    [total_files_indexed] and the number of their lines to
    [total_lines_indexed], and leaves the index, the cache and the metrics
    as they were.  Any other path contributes nothing. *)
Theorem index_repository_walk
  `{Externals} (r : CodeSearchEngine.Repository) (e : CodeSearchEngine.t) :
  (CodeSearchEngine.exists_on_disk r = false ->
   CodeSearchEngine.index_repository r e = e)
  /\ (CodeSearchEngine.exists_on_disk r = true ->
      CodeSearchEngine.index_repository r e
      = {| CodeSearchEngine.code_snippets :=
             CodeSearchEngine.code_snippets e
             ++ flat_map (Walk.snippets_of (CodeSearchEngine.name r))
                         (CodeSearchEngine.rglob r);
           CodeSearchEngine.faiss_index := CodeSearchEngine.faiss_index e;
           CodeSearchEngine.cache := CodeSearchEngine.cache e;
           CodeSearchEngine.metrics := CodeSearchEngine.metrics e;
           CodeSearchEngine.total_files_indexed :=
             CodeSearchEngine.total_files_indexed e
             + Py.len (filter Walk.is_indexed (CodeSearchEngine.rglob r));
           CodeSearchEngine.total_lines_indexed :=
             CodeSearchEngine.total_lines_indexed e
             + Walk.sum (map Walk.lines_of (CodeSearchEngine.rglob r));
           CodeSearchEngine.total_repositories :=
             CodeSearchEngine.total_repositories e + 1 |}).
Proof.
  unfold CodeSearchEngine.index_repository. split; intros ->; cbn [negb].
  - reflexivity.
  - rewrite walk_contribution. rewrite !Z.add_0_l. reflexivity.
Qed.

(** A repository with one source file, one file under [node_modules], one
    unreadable file and one text file: only the first is indexed. *)
Lemma index_repository_walk_witness :
  CodeSearchEngine.code_snippets
    (@CodeSearchEngine.index_repository Demo.externals
       {| CodeSearchEngine.exists_on_disk := true;
          CodeSearchEngine.name := "repo";
          CodeSearchEngine.rglob :=
            [Demo.source_file "repo/a.py";
             CodeSearchEngine.mkPath true ".js" ["repo"; "node_modules"]
               "repo/node_modules/x.js" (Some "var x;");
             CodeSearchEngine.mkPath true ".py" ["repo"] "repo/locked.py" None;
             CodeSearchEngine.mkPath true ".txt" ["repo"] "repo/notes.txt"
               (Some "notes")] |}
       (@CodeSearchEngine.new Demo.externals))
  = [CodeSearchEngine.mkSnippet "repo/a.py" "repo" "def f(): pass" 1 1]
  /\ @CodeSearchEngine.index_repository Demo.externals
       (CodeSearchEngine.mkRepository false "gone" [])
       (@CodeSearchEngine.new Demo.externals)
     = @CodeSearchEngine.new Demo.externals.
Proof.
  split.
  - match goal with
    | |- CodeSearchEngine.code_snippets
           (CodeSearchEngine.index_repository ?r ?e) = _ =>
        rewrite (proj2 (@index_repository_walk Demo.externals r e) eq_refl)
    end.
    reflexivity.
  - exact (proj1 (@index_repository_walk Demo.externals
                    (CodeSearchEngine.mkRepository false "gone" [])
                    (@CodeSearchEngine.new Demo.externals)) eq_refl).
Defined.



(** X9.  [load_index] returns [False] and leaves the engine as it was when
    either artifact is missing.  When the index artifact cannot be read the
    exception leaves the engine as it was; when the index is read but the
    metadata cannot be parsed, the exception leaves an engine that already
    holds the new index beside the old snippets and counts.  In every case
    the cache and the metrics are left as they were. *)
Theorem load_index_failures
  `{Externals} (d : CodeSearchEngine.Disk) (e : CodeSearchEngine.t) :
  (CodeSearchEngine.code_index d = None
   \/ CodeSearchEngine.metadata_json d = None ->
   CodeSearchEngine.load_index d e = (e, Py.Returned false))
  /\ (forall index_blob metadata_blob ex,
        CodeSearchEngine.code_index d = Some index_blob ->
        CodeSearchEngine.metadata_json d = Some metadata_blob ->
        read_index index_blob = Py.Raised ex ->
        CodeSearchEngine.load_index d e = (e, Py.Raised ex))
  /\ (forall index_blob metadata_blob idx ex,
        CodeSearchEngine.code_index d = Some index_blob ->
        CodeSearchEngine.metadata_json d = Some metadata_blob ->
        read_index index_blob = Py.Returned idx ->
        json_load metadata_blob = Py.Raised ex ->
        CodeSearchEngine.load_index d e
        = (CodeSearchEngine.set_faiss_index (Some idx) e, Py.Raised ex))
  /\ CodeSearchEngine.cache (fst (CodeSearchEngine.load_index d e))
     = CodeSearchEngine.cache e
  /\ CodeSearchEngine.metrics (fst (CodeSearchEngine.load_index d e))
     = CodeSearchEngine.metrics e.
Proof.
  split; [|split; [|split; [|split]]].
  - unfold CodeSearchEngine.load_index. intros [Hnone|Hnone]; rewrite Hnone.
    + reflexivity.
    + now destruct (CodeSearchEngine.code_index d).
  - intros ib mb ex Hi Hm Hread. unfold CodeSearchEngine.load_index.
    rewrite Hi, Hm. unfold Py.bindM, Py.lift. now rewrite Hread.
  - intros ib mb idx ex Hi Hm Hread Hjson.
    unfold CodeSearchEngine.load_index. rewrite Hi, Hm.
    unfold Py.bindM, Py.lift, Py.modify. now rewrite Hread, Hjson.
  - apply load_index_cache.
  - apply load_index_metrics.
Qed.

(** An empty disk, and a disk whose metadata artifact is not a JSON
    document. *)
Lemma load_index_failures_witness :
  @CodeSearchEngine.load_index Demo.externals Demo.empty_disk Demo.engine
  = (Demo.engine, Py.Returned false)
  /\ @CodeSearchEngine.load_index Demo.externals
       (@CodeSearchEngine.mkDisk Demo.externals
          (Some (inl [(7, 0%Q)])) (Some (inl [])))
       Demo.engine
     = (@CodeSearchEngine.set_faiss_index Demo.externals
          (Some [(7, 0%Q)]) Demo.engine,
        Py.Raised Py.ExternalError).
Proof.
  split.
  - apply (@load_index_failures Demo.externals Demo.empty_disk Demo.engine).
    now left.
  - exact (proj1 (proj2 (proj2 (@load_index_failures Demo.externals
                                  (@CodeSearchEngine.mkDisk Demo.externals
                                     (Some (inl [(7, 0%Q)])) (Some (inl [])))
                                  Demo.engine)))
             (inl [(7, 0%Q)]) (inl []) [(7, 0%Q)] Py.ExternalError
             eq_refl eq_refl eq_refl eq_refl).
Defined.

(** * Further properties of the search orchestrator *)

Section SearchFrameFacts.

Import CodeSearchEngine.

Context `{Externals}.

Implicit Types (e : t) (clk : Clock) (query : string) (top_k : Z).

(** A [search] that returned has left its answer in the cache. *)
Lemma search_leaves_entry clk query top_k e e1 (r1 : Found) :
  reachable e -> faiss_index e <> None ->
  search clk query top_k e = (e1, Py.Returned r1) ->
  exists entry,
    snd (LRUCache.get (cache e1) (cache_key query top_k)) = Some entry
    /\ entry_results entry = results r1
    /\ entry_search_time entry = search_time_ms r1.
Proof.
  intros Hreach Hidx Hs.
  destruct (faiss_index e) as [idx|] eqn:Hi; [|congruence].
  destruct (search_returned_inv _ _ _ _ _ _ _ Hi Hs)
    as [[entry [Hget [-> ->]]] | [found [res [Hget [_ [_ [-> ->]]]]]]].
  - exists entry. cbn [cache set_metrics set_cache results search_time_ms].
    split; [now apply get_after_get | split; reflexivity].
  - exists {| entry_results := res;
              entry_search_time := (end_time clk - start_time clk) * 1000 |}.
    cbn [cache set_metrics set_cache results search_time_ms].
    split; [|split; reflexivity].
    apply get_after_put. rewrite get_capacity.
    rewrite (reachable_capacity e Hreach). lia.
Qed.

(** What a [search] that raises leaves behind. *)
Lemma search_raised clk query top_k e ex :
  snd (search clk query top_k e) = Py.Raised ex ->
  fst (search clk query top_k e)
  = set_cache (fst (LRUCache.get (cache e) (cache_key query top_k))) e
  /\ snd (LRUCache.get (cache e) (cache_key query top_k)) = None.
Proof.
  unfold search. destruct (faiss_index e) as [idx|]; [|discriminate].
  unfold Py.bindM, cache_get.
  destruct (LRUCache.get (cache e) (cache_key query top_k)) as [c1 [entry|]];
    cbn [fst snd]; [discriminate|].
  unfold Py.lift, Py.gets.
  destruct (nearest idx query top_k) as [found|ex'];
    cbn [fst snd]; [|now intros _].
  cbn [code_snippets set_cache].
  destruct (format_results (code_snippets e) found); cbn [fst snd];
    [discriminate | now intros _].
Qed.

(** What [search] never writes. *)
Lemma search_frame clk query top_k e :
  code_snippets (fst (search clk query top_k e)) = code_snippets e
  /\ faiss_index (fst (search clk query top_k e)) = faiss_index e
  /\ total_files_indexed (fst (search clk query top_k e))
     = total_files_indexed e
  /\ total_lines_indexed (fst (search clk query top_k e))
     = total_lines_indexed e
  /\ total_repositories (fst (search clk query top_k e))
     = total_repositories e.
Proof.
  assert (Hcases : faiss_index e = None
                   \/ exists idx, faiss_index e = Some idx)
    by (destruct (faiss_index e) as [idx|]; eauto).
  destruct (search clk query top_k e) as [e1 [r|ex]] eqn:Hs; cbn [fst].
  - destruct Hcases as [Hnone|[idx Hi]].
    + unfold search in Hs. rewrite Hnone in Hs. injection Hs as <- _.
      repeat split.
    + destruct (search_returned_inv _ _ _ _ _ _ _ Hi Hs)
        as [[entry [_ [_ ->]]] | [found [res [_ [_ [_ [_ ->]]]]]]];
        repeat split.
  - pose proof (search_raised clk query top_k e ex) as Hr.
    rewrite Hs in Hr. destruct (Hr eq_refl) as [He1 _]. cbn [fst] in He1.
    rewrite He1. repeat split.
Qed.

End SearchFrameFacts.



(** X11.  [search] writes only to the cache and to the metrics: the
    snippets, the index and the three counters are left as they were,
    whether it returns or raises.  When it raises, the query is not
    recorded and nothing is cached: the metrics and the entries of the
    cache are as before the call, and only the miss counter has grown by
    one. *)
Theorem search_writes_only_cache_and_metrics
  `{Externals} (clk : Clock) (query : string) (top_k : Z)
  (e : CodeSearchEngine.t) (ex : Py.exn) :
  let e' := fst (CodeSearchEngine.search clk query top_k e) in
  (CodeSearchEngine.code_snippets e' = CodeSearchEngine.code_snippets e
   /\ CodeSearchEngine.faiss_index e' = CodeSearchEngine.faiss_index e
   /\ CodeSearchEngine.total_files_indexed e'
      = CodeSearchEngine.total_files_indexed e
   /\ CodeSearchEngine.total_lines_indexed e'
      = CodeSearchEngine.total_lines_indexed e
   /\ CodeSearchEngine.total_repositories e'
      = CodeSearchEngine.total_repositories e)
  /\ (snd (CodeSearchEngine.search clk query top_k e) = Py.Raised ex ->
      CodeSearchEngine.metrics e' = CodeSearchEngine.metrics e
      /\ LRUCache.cache (CodeSearchEngine.cache e')
         = LRUCache.cache (CodeSearchEngine.cache e)
      /\ LRUCache.hits (CodeSearchEngine.cache e')
         = LRUCache.hits (CodeSearchEngine.cache e)
      /\ LRUCache.misses (CodeSearchEngine.cache e')
         = LRUCache.misses (CodeSearchEngine.cache e) + 1).
Proof.
  intros e'. split; [apply search_frame|].
  intros Hraised. destruct (search_raised _ _ _ _ _ Hraised) as [He' Hmiss].
  unfold e'. rewrite He'.
  cbn [CodeSearchEngine.metrics CodeSearchEngine.cache
       CodeSearchEngine.set_cache].
  rewrite get_value in Hmiss.
  destruct (LRUCache.contains
              (LRUCache.cache (CodeSearchEngine.cache e))
              (CodeSearchEngine.cache_key query top_k)) eqn:Hin.
  - destruct (lookup_present _ _ Hin) as [v Hv]. congruence.
  - destruct (get_cache_miss (CodeSearchEngine.cache e) _ Hin) as [_ Hc].
    destruct (get_counters (CodeSearchEngine.cache e)
                (CodeSearchEngine.cache_key query top_k))
      as [[_ [_ Hhit]]|[Hh [Hm _]]]; [congruence|].
    repeat split; assumption.
Qed.

(** A search that raises [IndexError]: the index answers with a position
    below [-len] of an empty store. *)
Lemma search_writes_only_cache_and_metrics_witness :
  MetricsTracker.total_queries
    (CodeSearchEngine.metrics
       (fst (@CodeSearchEngine.search Demo.externals Demo.clock "query" 1
               (@CodeSearchEngine.mk Demo.externals [] (Some [(-5, 0%Q)])
                  (LRUCache.new 1000) MetricsTracker.new 0 0 0)))) = 0
  /\ LRUCache.misses
       (CodeSearchEngine.cache
          (fst (@CodeSearchEngine.search Demo.externals Demo.clock "query" 1
                  (@CodeSearchEngine.mk Demo.externals [] (Some [(-5, 0%Q)])
                     (LRUCache.new 1000) MetricsTracker.new 0 0 0)))) = 0 + 1.
Proof.
  destruct (proj2 (@search_writes_only_cache_and_metrics Demo.externals
                     Demo.clock "query" 1
                     (@CodeSearchEngine.mk Demo.externals []
                        (Some [(-5, 0%Q)]) (LRUCache.new 1000)
                        MetricsTracker.new 0 0 0)
                     Py.IndexError) eq_refl)
    as [Hmetrics [_ [_ Hmisses]]].
  split; [now rewrite Hmetrics | exact Hmisses].
Defined.

(** X12.  On positions that are not negative the result loop of [search]
    does what it is meant to: it never raises, it passes over the
    positions at or beyond the end of the store, and it returns, in the
    order of the candidates, one result per position inside the store,
    with the fields of the snippet at that position and the score of the
    candidate's distance.  A position below [-len(code_snippets)] makes
    the loop raise [IndexError]. *)
Theorem format_results_on_positions
  (snippets : list CodeSearchEngine.Snippet) (found : list (Z * Q)) :
  (Forall (fun c => 0 <= fst c) found ->
   exists res,
     CodeSearchEngine.format_results snippets found = Py.Returned res
     /\ Forall2
          (fun c r =>
             exists s,
               nth_error snippets (Z.to_nat (fst c)) = Some s
               /\ r = CodeSearchEngine.format_result s (snd c))
          (Reference.in_bounds (Py.len snippets) found) res)
  /\ (Exists (fun c => fst c < - Py.len snippets) found ->
      CodeSearchEngine.format_results snippets found
      = Py.Raised Py.IndexError).
Proof.
  split.
  - induction 1 as [|[idx d] found Hidx Hall [res [Hres Hrel]]].
    + exists []. split; [reflexivity | constructor].
    + cbn [fst] in Hidx. cbn [CodeSearchEngine.format_results].
      unfold Reference.in_bounds in *. cbn [filter fst].
      destruct (Z.ltb_spec idx (Py.len snippets)) as [Hlt|Hge].
      * destruct (Z.leb_spec 0 idx) as [_|]; [|lia]. cbn [andb].
        unfold Py.getitem.
        destruct (Z.ltb_spec idx 0) as [|_]; [lia|].
        destruct (Z.ltb_spec idx 0) as [|_]; [lia|].
        destruct (nth_error snippets (Z.to_nat idx)) as [s|] eqn:Hn.
        -- cbn [Py.bind]. rewrite Hres. cbn [Py.bind].
           eexists. split; [reflexivity|]. constructor; [|exact Hrel].
           exists s. split; [exact Hn | reflexivity].
        -- apply nth_error_None in Hn. unfold Py.len in Hlt. lia.
      * rewrite andb_false_r. exists res. split; assumption.
  - induction 1 as [[idx d] found Hbad|[idx d] found Hbad IH];
      cbn [fst] in *; cbn [CodeSearchEngine.format_results].
    + assert (Hlen : 0 <= Py.len snippets) by (unfold Py.len; lia).
      destruct (Z.ltb_spec idx (Py.len snippets)) as [_|]; [|lia].
      unfold Py.getitem.
      destruct (Z.ltb_spec idx 0) as [_|]; [|lia].
      destruct (Z.ltb_spec (Py.len snippets + idx) 0) as [_|]; [|lia].
      reflexivity.
    + rewrite IH.
      destruct (idx <? Py.len snippets); [|reflexivity].
      unfold Py.getitem.
      destruct (if idx <? 0 then Py.len snippets + idx else idx) as [|p|p];
        cbn [Z.ltb Z.compare]; try reflexivity;
        destruct (nth_error snippets _); reflexivity.
Qed.

(** Positions 1, 5 and 0 on a store of two snippets, and position -3. *)
Lemma format_results_on_positions_witness :
  (exists res,
     CodeSearchEngine.format_results
       (CodeSearchEngine.code_snippets Demo.engine)
       [(1, 0%Q); (5, 1%Q); (0, 2%Q)] = Py.Returned res
     /\ List.length res = 2%nat)
  /\ CodeSearchEngine.format_results
       (CodeSearchEngine.code_snippets Demo.engine) [(0, 0%Q); (-3, 1%Q)]
     = Py.Raised Py.IndexError.
Proof.
  split.
  - destruct (proj1 (format_results_on_positions
                       (CodeSearchEngine.code_snippets Demo.engine)
                       [(1, 0%Q); (5, 1%Q); (0, 2%Q)]))
      as [res [Hres Hrel]].
    + repeat constructor; cbn [fst]; lia.
    + exists res. split; [exact Hres|].
      apply Forall2_length in Hrel. now rewrite <- Hrel.
  - apply (proj2 (format_results_on_positions
                    (CodeSearchEngine.code_snippets Demo.engine)
                    [(0, 0%Q); (-3, 1%Q)])).
    right. left. vm_compute. reflexivity.
Defined.

(** * The cache key *)

Section CacheKeyFacts.

Local Abbreviation colon := (":"%char).

Lemma uint_digits_no_colon (d : Decimal.uint) :
  ~ In colon (list_ascii_of_string (NilEmpty.string_of_uint d)).
Proof.
  induction d; simpl; intros Hin;
    try (destruct Hin as [Hc|Hin]; [discriminate Hc | now apply IHd]).
  exact Hin.
Qed.

Lemma str_of_int_no_colon (n : Z) :
  ~ In colon (list_ascii_of_string (Py.str_of_int n)).
Proof.
  unfold Py.str_of_int. destruct (Z.to_int n) as [d|d]; simpl.
  - apply uint_digits_no_colon.
  - intros [Hc|Hin]; [discriminate Hc | now apply uint_digits_no_colon in Hin].
Qed.

Lemma str_of_int_injective (a b : Z) :
  Py.str_of_int a = Py.str_of_int b -> a = b.
Proof.
  unfold Py.str_of_int. intros Heq.
  apply (f_equal NilEmpty.int_of_string) in Heq.
  rewrite !NilEmpty.isi in Heq. injection Heq as Heq.
  apply (f_equal Z.of_int) in Heq. now rewrite !DecimalZ.of_to in Heq.
Qed.

(** A list is cut in one way only at its last occurrence of a
    character. *)
Lemma cut_at_last (c : ascii) (l1 l2 s1 s2 : list ascii) :
  ~ In c s1 -> ~ In c s2 ->
  l1 ++ c :: s1 = l2 ++ c :: s2 -> l1 = l2 /\ s1 = s2.
Proof.
  intros Hs1 Hs2. revert l2.
  induction l1 as [|x l1 IH]; intros [|y l2] Heq; simpl in Heq.
  - injection Heq as ->. auto.
  - injection Heq as <- ->. exfalso. apply Hs1, in_or_app. right. now left.
  - injection Heq as -> <-. exfalso. apply Hs2, in_or_app. right. now left.
  - injection Heq as -> Heq. destruct (IH _ Heq) as [-> ->]. auto.
Qed.

Lemma chars_injective (a b : string) :
  list_ascii_of_string a = list_ascii_of_string b -> a = b.
Proof.
  intros Heq. apply (f_equal string_of_list_ascii) in Heq.
  now rewrite !string_of_list_ascii_of_string in Heq.
Qed.

End CacheKeyFacts.

(** X13.  The text that is digested into the cache key determines the
    request: two requests whose texts [query:top_k] are equal have the same
    query and the same [top_k].  So two different requests share a cache
    key only if the digest collides: with a digest that is injective, equal
    cache keys mean equal requests, and a result cached for one [top_k] is
    never served for another. *)
Theorem cache_key_separates_requests
  `{Externals} (q1 q2 : string) (k1 k2 : Z) :
  ((q1 ++ ":" ++ Py.str_of_int k1)%string
   = (q2 ++ ":" ++ Py.str_of_int k2)%string ->
   q1 = q2 /\ k1 = k2)
  /\ ((forall a b, md5_hexdigest a = md5_hexdigest b -> a = b) ->
      CodeSearchEngine.cache_key q1 k1 = CodeSearchEngine.cache_key q2 k2 ->
      q1 = q2 /\ k1 = k2).
Proof.
  assert (Htext : (q1 ++ ":" ++ Py.str_of_int k1)%string
                  = (q2 ++ ":" ++ Py.str_of_int k2)%string ->
                  q1 = q2 /\ k1 = k2).
  { intros Heq. apply (f_equal list_ascii_of_string) in Heq.
    rewrite !chars_append in Heq. cbn [list_ascii_of_string app] in Heq.
    destruct (cut_at_last ":"%char _ _ _ _
                (str_of_int_no_colon k1) (str_of_int_no_colon k2) Heq)
      as [Hq Hk].
    split; [now apply chars_injective|].
    now apply str_of_int_injective, chars_injective. }
  split; [exact Htext|].
  intros Hinj Hkey. apply Htext, Hinj. exact Hkey.
Qed.

(** The same query with two values of [top_k], under the identity digest. *)
Lemma cache_key_separates_requests_witness :
  (@CodeSearchEngine.cache_key Demo.externals "query" 5
   = @CodeSearchEngine.cache_key Demo.externals "query" 5 ->
   "query" = "query" /\ 5 = 5)
  /\ @CodeSearchEngine.cache_key Demo.externals "query" 5
     <> @CodeSearchEngine.cache_key Demo.externals "query" 10.
Proof.
  split.
  - apply (proj2 (@cache_key_separates_requests Demo.externals
                    "query" "query" 5 5)).
    intros a b Hab. exact Hab.
  - intros Hkey.
    destruct (proj2 (@cache_key_separates_requests Demo.externals
                       "query" "query" 5 10)
                (fun a b Hab => Hab) Hkey) as [_ Hk].
    discriminate Hk.
Defined.

(** * The load test *)

Section WorkingSet.

Import LRUCache.

Context {V : Type}.
Variable K : list string.

Implicit Types (d : odict V) (c : t V) (k : string) (v : V).

(** The entries touched since the count [base] of misses was taken sit at
    the end of the dictionary, under distinct keys of [K], and there are
    at least as many of them as misses since. *)
Local Abbreviation recent c base :=
  (exists pre suf,
      cache c = pre ++ suf
      /\ NoDup (keys suf)
      /\ incl (keys suf) K
      /\ misses c <= base + Py.len suf).

Lemma remove_app d1 d2 k : remove (d1 ++ d2) k = remove d1 k ++ remove d2 k.
Proof. unfold remove. apply filter_app. Qed.

Lemma nodup_snoc (l : list string) (x : string) :
  NoDup l -> ~ In x l -> NoDup (l ++ [x]).
Proof.
  intros Hnd Hx. induction Hnd as [|a l Ha Hnd IH]; simpl.
  - constructor; [tauto | constructor].
  - constructor.
    + intros Hin. apply in_app_or in Hin. destruct Hin as [Hin|[<-|[]]].
      * contradiction.
      * apply Hx. now left.
    + apply IH. intros Hin. apply Hx. now right.
Qed.

Lemma length_remove_grows d k :
  NoDup (keys d) -> (List.length d <= S (List.length (remove d k)))%nat.
Proof.
  intros Hnd. destruct (contains d k) eqn:Hin.
  - rewrite (length_remove_present d k Hnd Hin). lia.
  - rewrite (remove_absent d k Hin). lia.
Qed.

Lemma recent_after_hit c k base :
  recent c base -> contains (cache c) k = true -> In k K ->
  recent (fst (get c k)) base.
Proof.
  intros [pre [suf [Hc [Hnd [Hincl Hm]]]]] Hin HK.
  destruct (get_cache_hit c k Hin) as [v0 [_ [_ Hc']]].
  destruct (get_counters c k) as [[_ [Hmiss _]]|[_ [_ Habs]]]; [|congruence].
  exists (remove pre k), (remove suf k ++ [(k, v0)]).
  rewrite Hc', Hc, remove_app, <- app_assoc. split; [reflexivity|].
  rewrite keys_app. cbn [keys map fst].
  assert (Hsub : forall x, In x (keys (remove suf k)) -> In x (keys suf))
    by (intros x; apply keys_remove_subset).
  split; [|split].
  - apply nodup_snoc.
    + rewrite keys_remove. now apply NoDup_filter.
    + apply contains_false_keys, contains_remove_same.
  - intros x Hx. apply in_app_or in Hx. destruct Hx as [Hx|[<-|[]]].
    + apply Hincl, Hsub, Hx.
    + exact HK.
  - rewrite Hmiss. pose proof (length_remove_grows suf k Hnd).
    unfold Py.len in *. rewrite length_app. cbn [List.length]. lia.
Qed.

Lemma recent_after_miss c k v base :
  recent c base -> contains (cache c) k = false -> In k K ->
  Py.len K <= capacity c ->
  recent (put (fst (get c k)) k v) base.
Proof.
  intros [pre [suf [Hc [Hnd [Hincl Hm]]]]] Hin HK Hroom.
  destruct (get_cache_miss c k Hin) as [_ Hc'].
  destruct (get_counters c k) as [[_ [_ Hpres]]|[_ [Hmiss _]]]; [congruence|].
  assert (Hfresh : ~ In k (keys suf)).
  { apply contains_false_keys in Hin. rewrite Hc, keys_app in Hin.
    intros Hk. apply Hin, in_or_app. now right. }
  assert (Hnd' : NoDup (keys (suf ++ [(k, v)]))).
  { rewrite keys_app. now apply nodup_snoc. }
  assert (Hincl' : incl (keys (suf ++ [(k, v)])) K).
  { rewrite keys_app. intros x Hx. apply in_app_or in Hx.
    destruct Hx as [Hx|[<-|[]]]; [now apply Hincl | exact HK]. }
  assert (Hshort : (List.length (suf ++ [(k, v)]) <= List.length K)%nat).
  { pose proof (NoDup_incl_length Hnd' Hincl') as Hl.
    unfold keys in Hl. now rewrite length_map in Hl. }
  assert (Hmisses : misses (put (fst (get c k)) k v)
                    <= base + Py.len (suf ++ [(k, v)])).
  { change (misses (put (fst (get c k)) k v)) with (misses (fst (get c k))).
    rewrite Hmiss. unfold Py.len in *. rewrite length_app.
    cbn [List.length]. lia. }
  rewrite put_cache, Hc', get_capacity.
  rewrite (remove_absent _ _ Hin), Hc, <- app_assoc.
  destruct (Z.gtb_spec (Py.len (pre ++ suf ++ [(k, v)])) (capacity c))
    as [Hfull|_].
  - destruct pre as [|x pre].
    + unfold Py.len in *. cbn [app] in Hfull. lia.
    + exists pre, (suf ++ [(k, v)]). repeat split; assumption.
  - exists pre, (suf ++ [(k, v)]). repeat split; assumption.
Qed.

End WorkingSet.

Section LoadTestFacts.

Import CodeSearchEngine.

Context `{Externals}.

(** The cache keys the load test can use. *)
Local Abbreviation test_keys :=
  (map (fun q => cache_key q 5) Service.test_queries).

Local Abbreviation recent_entries c base :=
  (exists pre suf,
      LRUCache.cache c = pre ++ suf
      /\ NoDup (LRUCache.keys suf)
      /\ incl (LRUCache.keys suf) test_keys
      /\ LRUCache.misses c <= base + Py.len suf).

Lemma query_at_listed (i : nat) : In (Service.query_at i) Service.test_queries.
Proof.
  unfold Service.query_at. apply nth_In.
  apply Nat.mod_upper_bound. discriminate.
Qed.

Lemma get_none_absent (V : Type) (c : LRUCache.t V) (k : string) :
  snd (LRUCache.get c k) = None ->
  LRUCache.contains (LRUCache.cache c) k = false.
Proof.
  rewrite get_value.
  destruct (LRUCache.contains (LRUCache.cache c) k) eqn:Hin; [|reflexivity].
  destruct (lookup_present _ _ Hin) as [v Hv]. congruence.
Qed.

Lemma get_some_present (V : Type) (c : LRUCache.t V) (k : string) (v : V) :
  snd (LRUCache.get c k) = Some v ->
  LRUCache.contains (LRUCache.cache c) k = true.
Proof.
  rewrite get_value.
  destruct (LRUCache.contains (LRUCache.cache c) k); [reflexivity|discriminate].
Qed.

(** One round of the load test that returns. *)
Lemma load_test_round (clk : Clock) (i : nat) (e e1 : t) (r1 : Found)
      (base : Z) :
  faiss_index e <> None ->
  LRUCache.capacity (cache e) = 1000 ->
  recent_entries (cache e) base ->
  search clk (Service.query_at i) 5 e = (e1, Py.Returned r1) ->
  recent_entries (cache e1) base
  /\ MetricsTracker.total_queries (metrics e1)
     = MetricsTracker.total_queries (metrics e) + 1
  /\ LRUCache.hits (cache e1) + LRUCache.misses (cache e1)
     = LRUCache.hits (cache e) + LRUCache.misses (cache e) + 1.
Proof.
  intros Hidx Hcap Hrecent Hs.
  destruct (faiss_index e) as [idx|] eqn:Hi; [|congruence].
  assert (Hkey : In (cache_key (Service.query_at i) 5) test_keys)
    by (apply (in_map (fun q => cache_key q 5)), query_at_listed).
  set (key := cache_key (Service.query_at i) 5) in *.
  destruct (search_returned_inv _ _ _ _ _ _ _ Hi Hs)
    as [[entry [Hget [_ ->]]] | [found [res [Hget [_ [_ [_ ->]]]]]]];
    cbn [cache metrics set_metrics set_cache]; fold key in Hget |- *.
  - apply get_some_present in Hget. split; [|split].
    + now apply (recent_after_hit test_keys).
    + reflexivity.
    + destruct (get_counters (cache e) key) as [[Hh [Hm _]]|[_ [_ Habs]]];
        [|congruence].
      rewrite Hh, Hm. lia.
  - apply get_none_absent in Hget. split; [|split].
    + apply (recent_after_miss test_keys); try assumption.
      rewrite Hcap. vm_compute. discriminate.
    + reflexivity.
    + destruct (get_counters (cache e) key) as [[_ [_ Hpres]]|[Hh [Hm _]]];
        [congruence|].
      change (LRUCache.hits (LRUCache.put ?c _ _)) with (LRUCache.hits c).
      change (LRUCache.misses (LRUCache.put ?c _ _)) with (LRUCache.misses c).
      rewrite Hh, Hm. lia.
Qed.

(** The rounds of a load test that returns. *)
Lemma load_test_rounds (clock_at : nat -> Clock) (rounds : list nat)
      (e e' : t) (base : Z) :
  faiss_index e <> None ->
  LRUCache.capacity (cache e) = 1000 ->
  recent_entries (cache e) base ->
  Service.run_queries clock_at rounds e = (e', Py.Returned tt) ->
  recent_entries (cache e') base
  /\ MetricsTracker.total_queries (metrics e')
     = MetricsTracker.total_queries (metrics e) + Py.len rounds
  /\ LRUCache.hits (cache e') + LRUCache.misses (cache e')
     = LRUCache.hits (cache e) + LRUCache.misses (cache e) + Py.len rounds.
Proof.
  revert e. induction rounds as [|i rounds IH]; intros e Hidx Hcap Hrecent.
  - cbn [Service.run_queries]. unfold Py.ret. intros Heq.
    injection Heq as <-. unfold Py.len. cbn [List.length].
    rewrite !Z.add_0_r. auto.
  - cbn [Service.run_queries]. unfold Py.bindM.
    destruct (search (clock_at i) (Service.query_at i) 5 e)
      as [e1 [r1|ex]] eqn:Hs; [|discriminate].
    intros Hrest.
    destruct (load_test_round _ _ _ _ _ _ Hidx Hcap Hrecent Hs)
      as [Hrecent1 [Hq1 Hc1]].
    pose proof (search_frame (clock_at i) (Service.query_at i) 5 e)
      as [_ [Hf _]].
    pose proof (search_capacity (clock_at i) (Service.query_at i) 5 e) as Hk.
    rewrite Hs in Hf, Hk. cbn [fst] in Hf, Hk.
    destruct (IH e1) as [Hrecent' [Hq' Hc']]; try assumption.
    + now rewrite Hf.
    + now rewrite Hk.
    + split; [exact Hrecent'|]. unfold Py.len in *. cbn [List.length].
      split; lia.
Qed.

(** Without an index every round returns at once. *)
Lemma load_test_not_ready (clock_at : nat -> Clock) (rounds : list nat)
      (e : t) :
  faiss_index e = None ->
  Service.run_queries clock_at rounds e = (e, Py.Returned tt).
Proof.
  intros Hnone. induction rounds as [|i rounds IH]; [reflexivity|].
  cbn [Service.run_queries]. unfold Py.bindM, search at 1.
  rewrite Hnone. exact IH.
Qed.

End LoadTestFacts.

(** X14.  [simulate_load_test(n)] on an engine with an index, when it
    returns, has recorded exactly [n] queries in the metrics and made
    exactly [n] cache lookups, of which at most seventeen missed: the test
    cycles through seventeen queries, fewer than the cache holds, so each
    is computed at most once and every other round is a cache hit.  On an
    engine with no index it changes nothing, and when the two clock
    readings around the loop are equal it does not return. *)
Theorem load_test_computes_each_query_once
  `{Externals} (clock_at : nat -> Clock) (begin_time finish_time : Q)
  (num_queries : Z) (e e' : CodeSearchEngine.t)
  (stats : LRUCacheStats.Stats * MetricsTracker.Stats) :
  (CodeSearchEngine.reachable e ->
   CodeSearchEngine.faiss_index e <> None ->
   Service.simulate_load_test clock_at begin_time finish_time num_queries e
   = (e', inl stats) ->
   MetricsTracker.total_queries (CodeSearchEngine.metrics e')
   = MetricsTracker.total_queries (CodeSearchEngine.metrics e)
     + Z.max 0 num_queries
   /\ LRUCache.hits (CodeSearchEngine.cache e')
      + LRUCache.misses (CodeSearchEngine.cache e')
      = LRUCache.hits (CodeSearchEngine.cache e)
        + LRUCache.misses (CodeSearchEngine.cache e) + Z.max 0 num_queries
   /\ LRUCache.misses (CodeSearchEngine.cache e')
      <= LRUCache.misses (CodeSearchEngine.cache e) + 17
   /\ stats = (LRUCacheStats.get_stats (CodeSearchEngine.cache e'),
               MetricsTracker.get_stats (CodeSearchEngine.metrics e')))
  /\ (CodeSearchEngine.faiss_index e = None ->
      fst (Service.simulate_load_test
             clock_at begin_time finish_time num_queries e) = e)
  /\ ((finish_time == begin_time)%Q ->
      snd (Service.simulate_load_test
             clock_at begin_time finish_time num_queries e) <> inl stats).
Proof.
  unfold Service.simulate_load_test. split; [|split].
  - intros Hreach Hidx.
    destruct (Service.run_queries clock_at (seq 0 (Z.to_nat num_queries)) e)
      as [e1 [[]|ex]] eqn:Hrun; [|discriminate].
    destruct (Qeq_bool (finish_time - begin_time) 0); [discriminate|].
    intros Heq. injection Heq as <- <-.
    destruct (load_test_rounds clock_at (seq 0 (Z.to_nat num_queries)) e e1
                (LRUCache.misses (CodeSearchEngine.cache e)) Hidx
                (reachable_capacity e Hreach))
      as [[pre [suf [_ [Hnd [Hincl Hm]]]]] [Hq Hc]].
    + exists (LRUCache.cache (CodeSearchEngine.cache e)), [].
      rewrite app_nil_r. split; [reflexivity|]. split; [constructor|].
      split; [intros x []|]. unfold Py.len. cbn [List.length]. lia.
    + exact Hrun.
    + assert (Hlen : Py.len (seq 0 (Z.to_nat num_queries))
                     = Z.max 0 num_queries)
        by (unfold Py.len; rewrite length_seq; lia).
      rewrite Hlen in Hq, Hc.
      pose proof (NoDup_incl_length Hnd Hincl) as Hl.
      unfold LRUCache.keys in Hl. rewrite !length_map in Hl.
      cbn [Service.test_queries List.length] in Hl.
      unfold Py.len in Hm. repeat split; try assumption. lia.
  - intros Hnone. rewrite (load_test_not_ready clock_at _ e Hnone).
    now destruct (Qeq_bool (finish_time - begin_time) 0).
  - intros Hsame.
    destruct (Service.run_queries clock_at (seq 0 (Z.to_nat num_queries)) e)
      as [e1 [[]|ex]]; [|discriminate].
    assert (Hzero : Qeq_bool (finish_time - begin_time) 0 = true).
    { apply Qeq_bool_iff. lra. }
    rewrite Hzero. discriminate.
Qed.

(** Forty rounds on the demonstration engine: forty queries recorded, and
    seventeen misses. *)
Lemma load_test_computes_each_query_once_witness :
  MetricsTracker.total_queries
    (CodeSearchEngine.metrics
       (fst (@Service.simulate_load_test Demo.externals (fun _ => Demo.clock)
               0 1 40 Demo.engine)))
  = 0 + Z.max 0 40
  /\ LRUCache.misses
       (CodeSearchEngine.cache
          (fst (@Service.simulate_load_test Demo.externals
                  (fun _ => Demo.clock) 0 1 40 Demo.engine)))
     <= 0 + 17
  /\ fst (@Service.simulate_load_test Demo.externals (fun _ => Demo.clock)
            0 1 40 (@CodeSearchEngine.new Demo.externals))
     = @CodeSearchEngine.new Demo.externals.
Proof.
  destruct (@load_test_computes_each_query_once Demo.externals
              (fun _ => Demo.clock) 0 1 40 Demo.engine
              (fst (@Service.simulate_load_test Demo.externals
                      (fun _ => Demo.clock) 0 1 40 Demo.engine))
              (LRUCacheStats.get_stats
                 (CodeSearchEngine.cache
                    (fst (@Service.simulate_load_test Demo.externals
                            (fun _ => Demo.clock) 0 1 40 Demo.engine))),
               MetricsTracker.get_stats
                 (CodeSearchEngine.metrics
                    (fst (@Service.simulate_load_test Demo.externals
                            (fun _ => Demo.clock) 0 1 40 Demo.engine)))))
    as [Hrun _].
  destruct (Hrun demo_engine_reachable ltac:(discriminate))
    as [Hq [_ [Hm _]]]; [vm_compute; reflexivity|].
  split; [exact Hq|]. split; [exact Hm|].
  apply (@load_test_computes_each_query_once Demo.externals
           (fun _ => Demo.clock) 0 1 40
           (@CodeSearchEngine.new Demo.externals)
           (@CodeSearchEngine.new Demo.externals)
           (LRUCacheStats.get_stats (LRUCache.new (V := nat) 0),
            MetricsTracker.get_stats MetricsTracker.new)).
  reflexivity.
Defined.

(** * The HTTP route *)

Section RouteFacts.

Import CodeSearchEngine.

Context `{Externals}.

(** What a 200 answer of [search_api] says about the request and about the
    [search] behind it. *)
Lemma search_api_ok_inv (int_of_str : string -> option Z) (clk : Clock)
      (request : Service.Request) (e e1 : t) (body : Service.SearchBody) :
  Service.search_api int_of_str clk request e = (e1, inl (Service.Ok body)) ->
  exists query top_k found,
    Service.arg_q request = Some query
    /\ Py.truthy query = true
    /\ match Service.arg_limit request with
       | Some s => int_of_str s
       | None => Some 10
       end = Some top_k
    /\ search clk query top_k e = (e1, Py.Returned found)
    /\ body = {| Service.body_query := query;
                 Service.body_results := results found;
                 Service.body_count := Py.len (results found);
                 Service.body_search_time_ms :=
                   Py.round2 (search_time_ms found);
                 Service.body_cached := from_cache found;
                 Service.body_indexed_files := total_files_indexed e1;
                 Service.body_indexed_lines := total_lines_indexed e1 |}.
Proof.
  unfold Service.search_api.
  destruct (match Service.arg_limit request with
            | Some s => int_of_str s
            | None => Some 10
            end) as [top_k|]; [|discriminate].
  destruct (Service.arg_q request) as [query|]; cbn [Py.truthy negb];
    [|discriminate].
  destruct (Py.truthy query) eqn:Hq; cbn [negb]; [|discriminate].
  destruct (search clk query top_k e) as [e' [found|ex]] eqn:Hs;
    [|discriminate].
  intros Heq. injection Heq as <- <-.
  exists query, top_k, found. repeat split; assumption.
Qed.

End RouteFacts.

(** X15.  [search_api] converts [limit] before it looks at [q]: a [limit]
    that [int] rejects ends the request with [ValueError], also when [q] is
    missing.  With a [limit] that converts, or none, a missing or empty [q]
    is answered 400 with the message that [q] is required.  In both cases
    the engine is left as it was: nothing is searched, cached or recorded.
    Otherwise the route calls [search] with the query and the limit, and
    answers 200 with its results, their number as [count], its latency
    rounded to two decimals and its cache flag; an exception of [search]
    leaves the route. *)
Theorem search_api_validates_the_request
  `{Externals} (int_of_str : string -> option Z) (clk : Clock)
  (request : Service.Request) (e : CodeSearchEngine.t) :
  let limit := match Service.arg_limit request with
               | Some s => int_of_str s
               | None => Some 10
               end in
  (limit = None ->
   Service.search_api int_of_str clk request e = (e, inr Service.ValueError))
  /\ (limit <> None ->
      Service.arg_q request = None \/ Service.arg_q request = Some "" ->
      Service.search_api int_of_str clk request e
      = (e, inl (Service.BadRequest Service.query_required)))
  /\ (forall top_k query,
        limit = Some top_k ->
        Service.arg_q request = Some query -> query <> "" ->
        Service.search_api int_of_str clk request e
        = match CodeSearchEngine.search clk query top_k e with
          | (e', Py.Returned found) =>
              (e', inl (Service.Ok
                          {| Service.body_query := query;
                             Service.body_results :=
                               CodeSearchEngine.results found;
                             Service.body_count :=
                               Py.len (CodeSearchEngine.results found);
                             Service.body_search_time_ms :=
                               Py.round2
                                 (CodeSearchEngine.search_time_ms found);
                             Service.body_cached :=
                               CodeSearchEngine.from_cache found;
                             Service.body_indexed_files :=
                               CodeSearchEngine.total_files_indexed e;
                             Service.body_indexed_lines :=
                               CodeSearchEngine.total_lines_indexed e |}))
          | (e', Py.Raised ex) => (e', inr (Service.Propagated ex))
          end).
Proof.
  intros limit. unfold Service.search_api. fold limit. split; [|split].
  - intros ->. reflexivity.
  - intros Hlimit Hq. destruct limit as [top_k|]; [|congruence].
    destruct Hq as [->| ->]; reflexivity.
  - intros top_k query -> -> Hne.
    destruct query as [|c query]; [congruence|]. cbn [Py.truthy negb].
    pose proof (search_frame clk (String c query) top_k e)
      as [_ [_ [Hfiles [Hlines _]]]].
    destruct (CodeSearchEngine.search clk (String c query) top_k e)
      as [e' [found|ex]]; [|reflexivity].
    cbn [fst] in Hfiles, Hlines. now rewrite Hfiles, Hlines.
Qed.

(** A request with a limit that is not a number and no query, a request
    with no query, and a request for two results on the demonstration
    engine. *)
Lemma search_api_validates_the_request_witness :
  @Service.search_api Demo.externals (fun _ => None) Demo.clock
    (Service.mkRequest None (Some "ten")) Demo.engine
  = (Demo.engine, inr Service.ValueError)
  /\ @Service.search_api Demo.externals (fun _ => None) Demo.clock
       (Service.mkRequest (Some "") None) Demo.engine
     = (Demo.engine, inl (Service.BadRequest Service.query_required))
  /\ exists e' body,
       @Service.search_api Demo.externals (fun _ => Some 2) Demo.clock
         (Service.mkRequest (Some "query") (Some "2")) Demo.engine
       = (e', inl (Service.Ok body))
       /\ Service.body_count body = 2.
Proof.
  split; [|split].
  - exact (proj1 (@search_api_validates_the_request Demo.externals
                    (fun _ => None) Demo.clock
                    (Service.mkRequest None (Some "ten")) Demo.engine)
             eq_refl).
  - apply (proj1 (proj2 (@search_api_validates_the_request Demo.externals
                           (fun _ => None) Demo.clock
                           (Service.mkRequest (Some "") None) Demo.engine))).
    + discriminate.
    + now right.
  - rewrite (proj2 (proj2 (@search_api_validates_the_request Demo.externals
                             (fun _ => Some 2) Demo.clock
                             (Service.mkRequest (Some "query") (Some "2"))
                             Demo.engine))
               2 "query" eq_refl eq_refl ltac:(discriminate)).
    set (out := @CodeSearchEngine.search Demo.externals Demo.clock "query" 2
                  Demo.engine).
    vm_compute in out. subst out. cbv iota beta.
    eexists. eexists. split; reflexivity.
Defined.

(** X16.  Two equal requests in a row: when a request to [search_api] is
    answered 200 on an engine with an index, the same request repeated is
    answered 200 from the cache, with [cached] true and the results,
    [count] and [search_time_ms] of the first answer.  On an engine with
    no index a request with a query is answered 200 with no results,
    [count] 0, [cached] false, and the engine is left as it was. *)
Theorem search_api_repeated_request
  `{Externals} (int_of_str : string -> option Z) (clk1 clk2 : Clock)
  (request : Service.Request) (e e1 : CodeSearchEngine.t)
  (body1 : Service.SearchBody) :
  Service.search_api int_of_str clk1 request e
  = (e1, inl (Service.Ok body1)) ->
  (CodeSearchEngine.reachable e ->
   CodeSearchEngine.faiss_index e <> None ->
   exists e2 body2,
     Service.search_api int_of_str clk2 request e1
     = (e2, inl (Service.Ok body2))
     /\ Service.body_results body2 = Service.body_results body1
     /\ Service.body_count body2 = Service.body_count body1
     /\ Service.body_search_time_ms body2 = Service.body_search_time_ms body1
     /\ Service.body_cached body2 = true)
  /\ (CodeSearchEngine.faiss_index e = None ->
      e1 = e
      /\ Service.body_results body1 = []
      /\ Service.body_count body1 = 0
      /\ Service.body_cached body1 = false
      /\ (Service.body_search_time_ms body1 == 0)%Q).
Proof.
  intros Hok.
  destruct (search_api_ok_inv _ _ _ _ _ _ Hok)
    as [query [top_k [found [Hq [Htruthy [Hlimit [Hs ->]]]]]]].
  split.
  - intros Hreach Hidx.
    destruct (search_leaves_entry _ _ _ _ _ _ Hreach Hidx Hs)
      as [entry [Hget [Hres Htime]]].
    assert (Hidx1 : CodeSearchEngine.faiss_index e1 <> None).
    { pose proof (search_frame clk1 query top_k e) as [_ [Hf _]].
      rewrite Hs in Hf. cbn [fst] in Hf. now rewrite Hf. }
    destruct (CodeSearchEngine.faiss_index e1) as [idx1|] eqn:Hi1;
      [|congruence].
    pose proof (search_hit clk2 query top_k e1 idx1 entry Hi1 Hget) as Hhit.
    unfold Service.search_api. rewrite Hq, Hlimit, Htruthy. cbn [negb].
    destruct (CodeSearchEngine.search clk2 query top_k e1) as [e2 out].
    cbn [snd] in Hhit. subst out.
    eexists. eexists. split; [reflexivity|].
    cbn [Service.body_results Service.body_count Service.body_cached
         Service.body_search_time_ms CodeSearchEngine.results
         CodeSearchEngine.search_time_ms CodeSearchEngine.from_cache].
    rewrite Hres, Htime. repeat split.
  - intros Hnone. unfold CodeSearchEngine.search in Hs. rewrite Hnone in Hs.
    injection Hs as <- <-.
    cbn [Service.body_results Service.body_count Service.body_cached
         Service.body_search_time_ms CodeSearchEngine.results
         CodeSearchEngine.search_time_ms CodeSearchEngine.from_cache].
    repeat split.
Qed.

(** The same request twice on the demonstration engine. *)
Lemma search_api_repeated_request_witness :
  exists e2 body2,
    @Service.search_api Demo.externals (fun _ => Some 2) Demo.clock
      (Service.mkRequest (Some "query") (Some "2"))
      (fst (@Service.search_api Demo.externals (fun _ => Some 2) Demo.clock
              (Service.mkRequest (Some "query") (Some "2")) Demo.engine))
    = (e2, inl (Service.Ok body2))
    /\ Service.body_count body2 = 2
    /\ Service.body_cached body2 = true.
Proof.
  destruct (@search_api_repeated_request Demo.externals (fun _ => Some 2)
              Demo.clock Demo.clock
              (Service.mkRequest (Some "query") (Some "2")) Demo.engine
              (fst (@Service.search_api Demo.externals (fun _ => Some 2)
                      Demo.clock
                      (Service.mkRequest (Some "query") (Some "2"))
                      Demo.engine))
              (Service.mkSearchBody "query"
                 [CodeSearchEngine.format_result
                    (CodeSearchEngine.mkSnippet
                       "repo/a.py" "repo" "def f(): pass" 1 1) 0;
                  CodeSearchEngine.format_result
                    (CodeSearchEngine.mkSnippet
                       "repo/b.py" "repo" "def f(): pass" 1 1) 1]
                 2 (Py.round2 ((end_time Demo.clock - start_time Demo.clock)
                               * 1000))
                 false 2 2)) as [Hagain _]; [vm_compute; reflexivity|].
  destruct (Hagain demo_engine_reachable ltac:(discriminate))
    as [e2 [body2 [Hsecond [_ [Hcount [_ Hcached]]]]]].
  exists e2, body2. split; [exact Hsecond|]. split; [exact Hcount|exact Hcached].
Defined.
